(** * The agent loop of the research-term explainer (backend/main.py)

    A shallow embedding of [MCPClient]: the session manager
    ([start_mcp_server], [_run_server], [stop_mcp_server]), the agent loop
    ([_run_agent_loop]) and the streaming adapter
    ([explain_research_term_streaming]).

    The model client and the tool provider are external; they are taken as
    an interface ([Collaborators]) over an abstract world that answers each
    call with a value or with a Python exception.  An async generator is a
    computation that leaves a chronological trace of what it did: the values
    it yielded and the calls it made. *)

From Stdlib Require Import String Ascii List ZArith Arith Bool Lia.
Import ListNotations.
Open Scope string_scope.
Open Scope list_scope.

Set Implicit Arguments.
Set Warnings "-register-all".

(** ** Data *)

(** JSON values as the tool inputs and input schemas carry them
    (numbers are kept to integers). *)
Inductive json : Type :=
| JNull
| JBool (b : bool)
| JInt (n : Z)
| JStr (s : string)
| JArr (items : list json)
| JObj (fields : list (string * json)).

(** A Python exception of class [Exception]: what [except Exception]
    catches.  [str] is the text [str(e)] gives. *)
Record Exception : Type := { exc_type : string; str : string }.

(** A [tool_use] block of a model response. *)
Record ToolUseBlock : Type :=
  { tu_id : string; tu_name : string; tu_input : json }.

(** Content blocks: those of a model response ([text], [tool_use], or a
    block of any other type, which the loop passes over) and the
    [tool_result] entries the loop builds for the user message. *)
Inductive ContentBlock : Type :=
| TextBlock (text : string)
| ToolUse (b : ToolUseBlock)
| ToolResult (tool_use_id : string) (content : string)
| OtherBlock (type : string).

Inductive Role : Type := user | assistant.

(** The content of a message is the prompt string or a list of blocks. *)
Inductive MessageContent : Type :=
| Prompt (s : string)
| Blocks (l : list ContentBlock).

Record Message : Type := { role : Role; content : MessageContent }.

(** A tool as the provider lists it, and as it is declared to the model. *)
Record Tool : Type :=
  { name : string; description : option string; inputSchema : json }.

Record ToolParam : Type :=
  { p_name : string; p_description : option string; p_input_schema : json }.

(** One part of a tool result; only [TextContent] has a [text] attribute. *)
Inductive McpContent : Type :=
| TextContent (text : string)
| NonTextContent (type : string).

(** The events of a run, the [type] key of the dict being the constructor. *)
Inductive AgentEvent : Type :=
| TextEvent (content : string)
| ToolUseEvent (tool_name : string) (tool_input : json)
| ToolResultEvent (tool_name : string) (content : string)
| ErrorEvent (content : string)
| DoneEvent.

(** A frame of the event stream: [data: <json of the event>] and a blank
    line. *)
Inductive Frame : Type := data (event : AgentEvent).

(** ** Traces *)

(** What a generator does, in the order it does it.  Of the log calls only
    the warning is kept. *)
Inductive Action (Y : Type) : Type :=
| Yield (y : Y)
| ModelCall (messages : list Message) (tools : list ToolParam)
| ToolCall (tool : string) (input : json)
| ListToolsCall
| LogWarning (msg : string).

Arguments Yield {Y} y.
Arguments ModelCall {Y} messages tools.
Arguments ToolCall {Y} tool input.
Arguments ListToolsCall {Y}.
Arguments LogWarning {Y} msg.

Definition relabel {Y Z : Type} (f : Y -> Z) (a : Action Y) : Action Z :=
  match a with
  | Yield y => Yield (f y)
  | ModelCall m t => ModelCall m t
  | ToolCall n i => ToolCall n i
  | ListToolsCall => ListToolsCall
  | LogWarning m => LogWarning m
  end.

(** The values yielded, in order. *)
Fixpoint yields {Y : Type} (t : list (Action Y)) : list Y :=
  match t with
  | [] => []
  | Yield y :: t' => y :: yields t'
  | _ :: t' => yields t'
  end.

(** The model calls made, each with its two arguments. *)
Fixpoint model_calls {Y : Type} (t : list (Action Y))
  : list (list Message * list ToolParam) :=
  match t with
  | [] => []
  | ModelCall m d :: t' => (m, d) :: model_calls t'
  | _ :: t' => model_calls t'
  end.

(** The tool calls made. *)
Fixpoint tool_calls {Y : Type} (t : list (Action Y)) : list (string * json) :=
  match t with
  | [] => []
  | ToolCall n i :: t' => (n, i) :: tool_calls t'
  | _ :: t' => tool_calls t'
  end.

Fixpoint warnings {Y : Type} (t : list (Action Y)) : list string :=
  match t with
  | [] => []
  | LogWarning m :: t' => m :: warnings t'
  | _ :: t' => warnings t'
  end.

Definition is_list_tools {Y : Type} (a : Action Y) : bool :=
  match a with ListToolsCall => true | _ => false end.

(** ** Generators *)

(** A generator over a store [S] yielding [Y]: it ends with a value or an
    exception, leaves a store and a trace. *)
Definition Gen (S Y A : Type) : Type :=
  S -> (Exception + A) * S * list (Action Y).

Definition ret {S Y A : Type} (a : A) : Gen S Y A :=
  fun s => (inr a, s, []).

Definition raise {S Y A : Type} (e : Exception) : Gen S Y A :=
  fun s => (inl e, s, []).

Definition bind {S Y A B : Type} (m : Gen S Y A) (k : A -> Gen S Y B)
  : Gen S Y B :=
  fun s =>
    match m s with
    | (inl e, s1, t1) => (inl e, s1, t1)
    | (inr a, s1, t1) =>
        match k a s1 with
        | (r, s2, t2) => (r, s2, t1 ++ t2)
        end
    end.

Declare Scope gen_scope.
Delimit Scope gen_scope with gen.
Notation "x <- m ;; k" := (bind m (fun x => k))
  (at level 61, m at next level, right associativity) : gen_scope.
Notation "m ;; k" := (bind m (fun _ => k))
  (at level 61, right associativity) : gen_scope.
Open Scope gen_scope.

Definition act {S Y : Type} (a : Action Y) : Gen S Y unit :=
  fun s => (inr tt, s, [a]).

(** [yield v] *)
Definition yield {S Y : Type} (y : Y) : Gen S Y unit := act (Yield y).

(** [try: body except Exception as e: handler e] *)
Definition try_except {S Y A : Type}
  (body : Gen S Y A) (handler : Exception -> Gen S Y A) : Gen S Y A :=
  fun s =>
    match body s with
    | (inl e, s1, t1) =>
        match handler e s1 with
        | (r, s2, t2) => (r, s2, t1 ++ t2)
        end
    | done => done
    end.

(** [async for event in g: yield f(event)] *)
Definition async_for_yield {S Y Z A : Type} (g : Gen S Y A) (f : Y -> Z)
  : Gen S Z A :=
  fun s =>
    match g s with
    | (r, s1, t) => (r, s1, map (relabel f) t)
    end.

(** ** The collaborators *)

(** The model client ([anthropic_client.messages.create], called with a
    fixed model and token limit) and the provider session ([call_tool],
    [list_tools]).  Each call answers from the world and moves it. *)
Class Collaborators : Type := {
  World : Type;
  Session : Type;
  messages_create :
    list Message -> list ToolParam -> World ->
    (Exception + list ContentBlock) * World;
  call_tool :
    Session -> string -> json -> World ->
    (Exception + list McpContent) * World;
  list_tools :
    Session -> World -> (Exception + list Tool) * World
}.

(** ** The session manager's state *)

(** How a task ended. *)
Inductive Outcome : Type :=
| Returned
| Cancelled
| Raised (e : Exception).

(** An [asyncio.Task]: pending, with or without a cancellation requested,
    or done. *)
Inductive Task : Type :=
| Pending (cancel_requested : bool)
| Done (o : Outcome).

(** [task.cancel()] *)
Definition cancel (t : Task) : Task :=
  match t with
  | Pending _ => Pending true
  | Done o => Done o
  end.

(** [await task], for a task that ends as [settle] if it is still pending. *)
Definition await (t : Task) (settle : Outcome) : Outcome :=
  match t with
  | Pending _ => settle
  | Done o => o
  end.

Definition RuntimeError (msg : string) : Exception :=
  {| exc_type := "RuntimeError"; str := msg |}.

Definition AttributeError (msg : string) : Exception :=
  {| exc_type := "AttributeError"; str := msg |}.

Definition UnboundLocalError (msg : string) : Exception :=
  {| exc_type := "UnboundLocalError"; str := msg |}.

(** ** MCPClient *)

Section Client.

Context {C : Collaborators}.

(** The fields of [MCPClient] that change: the session, the background
    task and the readiness event (a flag, once created). *)
Record MCPClient : Type := {
  session : option Session;
  server_task : option Task;
  session_ready : option bool
}.

(** [__init__] *)
Definition init : MCPClient :=
  {| session := None; server_task := None; session_ready := None |}.

(** *** The session manager *)

(** How far [_run_server] has come when the wait in [start_mcp_server]
    ends: still entering the two context managers, or failed there; the
    session stored and [initialize] still running, or failed; or the
    session initialized and the readiness event set. *)
Inductive ServerProgress : Type :=
| Connecting
| ConnectFailed (e : Exception)
| Initializing (s : Session)
| InitializeFailed (s : Session) (e : Exception)
| Initialized (s : Session).

(** [_run_server], up to the point [p]: what it has written to [self].
    An exception it raises is logged, raised again and ends the task. *)
Definition _run_server (p : ServerProgress) (self : MCPClient) : MCPClient :=
  match p with
  | Connecting => self
  | ConnectFailed e =>
      {| session := session self;
         server_task := Some (Done (Raised e));
         session_ready := session_ready self |}
  | Initializing s =>
      {| session := Some s;
         server_task := server_task self;
         session_ready := session_ready self |}
  | InitializeFailed s e =>
      {| session := Some s;
         server_task := Some (Done (Raised e));
         session_ready := session_ready self |}
  | Initialized s =>
      {| session := Some s;
         server_task := server_task self;
         session_ready := Some true |}
  end.

(** The timeout given to [asyncio.wait_for], in seconds. *)
Definition startup_timeout : Z := 10.

(** [start_mcp_server].  [server t] is how far the background task comes
    while the caller waits for the readiness event for at most [t]
    seconds; the wait times out exactly when the event is not set by
    then. *)
Definition start_mcp_server (server : Z -> ServerProgress) (self : MCPClient)
  : (Exception + unit) * MCPClient :=
  let self1 :=
    {| session := session self;
       server_task := Some (Pending false);
       session_ready := Some false |} in
  let self2 := _run_server (server startup_timeout) self1 in
  match session_ready self2 with
  | Some true => (inr tt, self2)
  | _ =>
      let self3 :=
        match server_task self2 with
        | Some t =>
            {| session := session self2;
               server_task := Some (cancel t);
               session_ready := session_ready self2 |}
        | None => self2
        end in
      (inl (RuntimeError "Failed to start MCP server"), self3)
  end.

(** [stop_mcp_server].  [settle] is how the background task ends once it
    is cancelled, if it has not ended before. *)
Definition stop_mcp_server (settle : Outcome) (self : MCPClient)
  : (Exception + unit) * MCPClient :=
  let cleared t :=
    {| session := None; server_task := t; session_ready := None |} in
  match server_task self with
  | Some t =>
      let o := await (cancel t) settle in
      match o with
      | Raised e =>
          (inl e,
           {| session := session self;
              server_task := Some (Done o);
              session_ready := session_ready self |})
      | _ => (inr tt, cleared (Some (Done o)))
      end
  | None => (inr tt, cleared None)
  end.

(** *** The agent loop *)

(** The store of a run of the loop: the world and the [messages] list,
    which the loop appends to in place. *)
Record Run : Type := { world : World; messages : list Message }.

(** [self.anthropic_client.messages.create(..., tools=claude_tools,
    messages=messages)] *)
Definition create (claude_tools : list ToolParam)
  : Gen Run AgentEvent (list ContentBlock) :=
  fun s =>
    match messages_create (messages s) claude_tools (world s) with
    | (r, w) =>
        (r, {| world := w; messages := messages s |},
         [ModelCall (messages s) claude_tools])
    end.

(** [messages.append(m)] *)
Definition messages_append (m : Message) : Gen Run AgentEvent unit :=
  fun s =>
    (inr tt, {| world := world s; messages := messages s ++ [m] |}, []).

(** [await self.session.call_tool(name, input)] *)
Definition session_call_tool (self : MCPClient) (tool : string) (input : json)
  : Gen Run AgentEvent (list McpContent) :=
  match session self with
  | None =>
      raise (AttributeError "'NoneType' object has no attribute 'call_tool'")
  | Some sess =>
      fun s =>
        match call_tool sess tool input (world s) with
        | (r, w) =>
            (r, {| world := w; messages := messages s |},
             [ToolCall tool input])
        end
  end.

Definition max_iterations : nat := 10.

(** The walk over [response.content]: text and tool-use blocks are yielded
    as events and kept for the assistant message, tool uses are recorded,
    a block of another type is passed over. *)
Fixpoint walk_content (content : list ContentBlock)
  (assistant_content : list ContentBlock) (tool_uses : list ToolUseBlock)
  : Gen Run AgentEvent (list ContentBlock * list ToolUseBlock) :=
  match content with
  | [] => ret (assistant_content, tool_uses)
  | content_block :: rest =>
      match content_block with
      | TextBlock text =>
          yield (TextEvent text) ;;
          walk_content rest (assistant_content ++ [content_block]) tool_uses
      | ToolUse b =>
          yield (ToolUseEvent (tu_name b) (tu_input b)) ;;
          walk_content rest (assistant_content ++ [content_block])
            (tool_uses ++ [b])
      | _ => walk_content rest assistant_content tool_uses
      end
  end.

(** The text of a tool result: [result_text] starts empty and every part
    that has a [text] attribute is added to it. *)
Definition result_text_of (content : list McpContent) : string :=
  fold_left
    (fun result_text c =>
       match c with
       | TextContent text => (result_text ++ text)%string
       | NonTextContent _ => result_text
       end)
    content EmptyString.

(** The loop over [tool_uses]. *)
Fixpoint execute_tools (self : MCPClient) (tool_uses : list ToolUseBlock)
  (tool_results : list ContentBlock)
  : Gen Run AgentEvent (list ContentBlock) :=
  match tool_uses with
  | [] => ret tool_results
  | tool_use :: rest =>
      mcp_result <- session_call_tool self (tu_name tool_use)
                      (tu_input tool_use) ;;
      let result_text := result_text_of mcp_result in
      yield (ToolResultEvent (tu_name tool_use) result_text) ;;
      execute_tools self rest
        (tool_results ++ [ToolResult (tu_id tool_use) result_text])
  end.

(** One iteration of the loop; the result says whether it ends in
    [break]. *)
Definition iteration_body (self : MCPClient) (claude_tools : list ToolParam)
  : Gen Run AgentEvent bool :=
  response <- create claude_tools ;;
  walked <- walk_content response [] [] ;;
  let assistant_content := fst walked in
  let tool_uses := snd walked in
  messages_append {| role := assistant; content := Blocks assistant_content |} ;;
  match tool_uses with
  | [] => ret true
  | _ :: _ =>
      tool_results <- execute_tools self tool_uses [] ;;
      messages_append {| role := user; content := Blocks tool_results |} ;;
      ret false
  end.

(** [for iteration in range(...)]: the result is the last value bound to
    [iteration], if any. *)
Fixpoint for_iteration (self : MCPClient) (claude_tools : list ToolParam)
  (range : list nat) (iteration : option nat)
  : Gen Run AgentEvent (option nat) :=
  match range with
  | [] => ret iteration
  | i :: rest =>
      break <- iteration_body self claude_tools ;;
      if break then ret (Some i)
      else for_iteration self claude_tools rest (Some i)
  end.

(** [_run_agent_loop] *)
Definition _run_agent_loop (self : MCPClient) (claude_tools : list ToolParam)
  : Gen Run AgentEvent unit :=
  iteration <- for_iteration self claude_tools (seq 0 max_iterations) None ;;
  match iteration with
  | None =>
      raise (UnboundLocalError
               "cannot access local variable 'iteration' where it is not associated with a value")
  | Some i =>
      if Nat.eqb i (max_iterations - 1)
      then act (LogWarning "Agent loop reached max iterations")
      else ret tt
  end.

(** *** The streaming adapter *)

Definition nl : string := String (ascii_of_nat 10) EmptyString.
Definition dq : string := String (ascii_of_nat 34) EmptyString.

(** The lines of a text, each ended by a newline. *)
Definition unlines (l : list string) : string :=
  fold_right (fun line rest => (line ++ nl ++ rest)%string) EmptyString l.

(** The content of the initial user message: the instruction template
    with the request text filled in. *)
Definition initial_prompt (text : string) : string :=
  unlines
    [ ("You are a research term explainer. Your task is to explain the term: '" ++ text ++ "'")%string;
      EmptyString;
      "Follow these steps in order:";
      EmptyString;
      "Step 1: Search for relevant papers";
      "- If you know landmark/seminal papers for this term, search by exact title";
      ("- Search using the original term '" ++ text ++ "' as a keyword")%string;
      "- Search using related technical terms, variations, or more specific keywords";
      "- Use multiple search queries to gather approximately 20-30 papers total";
      "- Use max_results parameter appropriately for each search";
      EmptyString;
      "Step 2: Filter papers based on abstracts";
      "- Read the abstract of each retrieved paper carefully";
      ("- Select only papers that are directly relevant to explaining '" ++ text ++ "'")%string;
      "- Exclude papers that only mention the term tangentially";
      "- Aim to select the top 10 most relevant papers (or fewer if less than 10 are truly relevant)";
      "- Prioritize: foundational papers, seminal works, survey papers, and highly-cited research";
      EmptyString;
      "Step 3: Write the explanation";
      ("- Based on the abstracts and content of the selected papers, write a comprehensive explanation of '" ++ text ++ "'")%string;
      "- Include: definition, key concepts, applications, and significance in the field";
      ("- Reference specific papers when explaining concepts (e.g., " ++ dq ++ "as introduced in [Paper Title]" ++ dq ++ ")")%string;
      "- Use proper Markdown format with double line breaks between sections";
      EmptyString;
      "Step 4: Display the selected papers";
      "- At the end, show the 10 most relevant papers";
      "- IMPORTANT: Use the ACTUAL pdf_url from each paper result";
      "- Format each paper link like this example:";
      "  - [Attention is All You Need](https://arxiv.org/pdf/1706.03762) - Introduces the Transformer architecture";
      "- Replace the title and URL with the actual values from the search results";
      ("- Do NOT use placeholder text like " ++ dq ++ "(arXiv URL)" ++ dq ++ " - use the real PDF URL returned in the search results")%string;
      EmptyString;
      "## Related Papers";
      EmptyString;
      "[List the actual papers here with their real PDF URLs]";
      EmptyString;
      "Format requirements:";
      "- Use proper Markdown with clear line breaks";
      "- Use double line breaks between sections";
      "- Important: In the explanation text (Step 3), you must insert a newline character (";
      ") after every sentence (ending in '.').";
      "- Make the explanation evidence-based using the paper abstracts";
      "- **Always use the actual PDF URLs from the search results, never placeholder text**";
      EmptyString;
      "Important: Your explanation should be grounded in the actual content of the papers you found, not just general knowledge." ].

(** The conversion of a provider tool to the model's declaration format. *)
Definition claude_tool (tool : Tool) : ToolParam :=
  {| p_name := name tool;
     p_description := description tool;
     p_input_schema := inputSchema tool |}.

(** [await self.session.list_tools()] *)
Definition session_list_tools (sess : Session) : Gen World Frame (list Tool) :=
  fun w =>
    match list_tools sess w with
    | (r, w1) => (r, w1, [ListToolsCall])
    end.

(** A generator over a run's store, started on the list [messages]. *)
Definition with_messages {Y A : Type} (messages0 : list Message)
  (g : Gen Run Y A) : Gen World Y A :=
  fun w =>
    match g {| world := w; messages := messages0 |} with
    | (r, s, t) => (r, world s, t)
    end.

(** [explain_research_term_streaming] *)
Definition explain_research_term_streaming (self : MCPClient) (text : string)
  : Gen World Frame unit :=
  try_except
    (match session self with
     | None =>
         yield (data (ErrorEvent "MCP server not initialized"))
     | Some sess =>
         tools <- session_list_tools sess ;;
         let claude_tools := map claude_tool tools in
         let messages0 :=
           [ {| role := user; content := Prompt (initial_prompt text) |} ] in
         with_messages messages0
           (async_for_yield (_run_agent_loop self claude_tools) data) ;;
         yield (data DoneEvent)
     end)
    (fun e =>
       yield (data (ErrorEvent ("Error processing request: " ++ str e)%string))).

End Client.

(** ** Reading a result *)

Definition result_of {S Y A : Type} (x : (Exception + A) * S * list (Action Y))
  : Exception + A := fst (fst x).
Definition store_of {S Y A : Type} (x : (Exception + A) * S * list (Action Y))
  : S := snd (fst x).
Definition trace_of {S Y A : Type} (x : (Exception + A) * S * list (Action Y))
  : list (Action Y) := snd x.

(** The frames of a stream, in order. *)
Definition frames_of {S A : Type} (x : (Exception + A) * S * list (Action Frame))
  : list Frame := yields (trace_of x).

(** A terminal frame carries a [done] or an [error] event. *)
Definition is_terminal (f : Frame) : bool :=
  match f with
  | data (ErrorEvent _) | data DoneEvent => true
  | _ => false
  end.

Definition is_error (f : Frame) : bool :=
  match f with
  | data (ErrorEvent _) => true
  | _ => false
  end.

(** The tool-use and tool-result events among a list of events, each as
    its tool name and payload. *)
Fixpoint tool_use_events (l : list AgentEvent) : list (string * json) :=
  match l with
  | [] => []
  | ToolUseEvent n i :: l' => (n, i) :: tool_use_events l'
  | _ :: l' => tool_use_events l'
  end.

Fixpoint tool_result_events (l : list AgentEvent) : list (string * string) :=
  match l with
  | [] => []
  | ToolResultEvent n c :: l' => (n, c) :: tool_result_events l'
  | _ :: l' => tool_result_events l'
  end.

Fixpoint text_events (l : list AgentEvent) : list string :=
  match l with
  | [] => []
  | TextEvent c :: l' => c :: text_events l'
  | _ :: l' => text_events l'
  end.

(** ** What a response holds *)

(** The tool-use blocks of a response, in order. *)
Fixpoint tool_uses_of (content : list ContentBlock) : list ToolUseBlock :=
  match content with
  | [] => []
  | ToolUse b :: rest => b :: tool_uses_of rest
  | _ :: rest => tool_uses_of rest
  end.

(** The texts of its text blocks, in order. *)
Fixpoint texts_of_response (content : list ContentBlock) : list string :=
  match content with
  | [] => []
  | TextBlock t :: rest => t :: texts_of_response rest
  | _ :: rest => texts_of_response rest
  end.

(** The blocks that go into the assistant message. *)
Fixpoint kept_blocks (content : list ContentBlock) : list ContentBlock :=
  match content with
  | [] => []
  | TextBlock t :: rest => TextBlock t :: kept_blocks rest
  | ToolUse b :: rest => ToolUse b :: kept_blocks rest
  | _ :: rest => kept_blocks rest
  end.

(** The events the walk over a response yields. *)
Fixpoint block_events (content : list ContentBlock) : list AgentEvent :=
  match content with
  | [] => []
  | TextBlock t :: rest => TextEvent t :: block_events rest
  | ToolUse b :: rest => ToolUseEvent (tu_name b) (tu_input b) :: block_events rest
  | _ :: rest => block_events rest
  end.

(** The text-bearing parts of a tool result, in order, and their
    concatenation: the content of a tool result as the specification words
    it. *)
Fixpoint text_parts (content : list McpContent) : list string :=
  match content with
  | [] => []
  | TextContent t :: rest => t :: text_parts rest
  | NonTextContent _ :: rest => text_parts rest
  end.

Definition concatenation (parts : list string) : string :=
  fold_right String.append EmptyString parts.

(** ** What the loop and the adapter leave behind *)

Section Reference.

Context {C : Collaborators}.

(** What the provider answers to the calls for [tool_uses], made in order
    from the world [w] and up to the first that fails: the answers, the
    failure if any, and the world after the last call made. *)
Fixpoint provider_run (sess : Session) (tool_uses : list ToolUseBlock)
  (w : World) : list (list McpContent) * option Exception * World :=
  match tool_uses with
  | [] => ([], None, w)
  | b :: rest =>
      match call_tool sess (tu_name b) (tu_input b) w with
      | (inl e, w1) => ([], Some e, w1)
      | (inr answer, w1) =>
          match provider_run sess rest w1 with
          | (answers, err, w2) => (answer :: answers, err, w2)
          end
      end
  end.

Definition answers_of (sess : Session) (tool_uses : list ToolUseBlock)
  (w : World) : list (list McpContent) :=
  fst (fst (provider_run sess tool_uses w)).

Definition failure_of (sess : Session) (tool_uses : list ToolUseBlock)
  (w : World) : option Exception :=
  snd (fst (provider_run sess tool_uses w)).

Definition world_after (sess : Session) (tool_uses : list ToolUseBlock)
  (w : World) : World :=
  snd (provider_run sess tool_uses w).

(** The trace of the tool loop: a call and the event of its result for
    each answered tool use, then the call that failed, if one did. *)
Fixpoint tool_trace (tool_uses : list ToolUseBlock)
  (answers : list (list McpContent)) : list (Action AgentEvent) :=
  match tool_uses with
  | [] => []
  | b :: rest =>
      ToolCall (tu_name b) (tu_input b) ::
      match answers with
      | [] => []
      | a :: answers' =>
          Yield (ToolResultEvent (tu_name b) (result_text_of a))
          :: tool_trace rest answers'
      end
  end.

(** The [tool_result] block and the event for an answered tool use. *)
Definition result_block (p : ToolUseBlock * list McpContent) : ContentBlock :=
  ToolResult (tu_id (fst p)) (result_text_of (snd p)).

Definition result_event (p : ToolUseBlock * list McpContent)
  : string * string :=
  (tu_name (fst p), result_text_of (snd p)).

(** The two messages an iteration may append. *)
Definition assistant_message (response : list ContentBlock) : Message :=
  {| role := assistant; content := Blocks (kept_blocks response) |}.

Definition user_message (tool_uses : list ToolUseBlock)
  (answers : list (list McpContent)) : Message :=
  {| role := user;
     content := Blocks (map result_block (combine tool_uses answers)) |}.

(** An action the loop can leave in its trace: a model call with the
    declarations it was given, a tool call, a text, tool-use or
    tool-result event, the warning; never a [done] or [error] event, never
    a listing of the tools. *)
Definition loop_action (claude_tools : list ToolParam)
  (a : Action AgentEvent) : Prop :=
  match a with
  | Yield (ErrorEvent _) | Yield DoneEvent | ListToolsCall => False
  | ModelCall _ d => d = claude_tools
  | _ => True
  end.

(** The conversation a run starts from. *)
Definition initial_messages (text : string) : list Message :=
  [ {| role := user; content := Prompt (initial_prompt text) |} ].

(** The store the loop is started on, once the tools are listed. *)
Definition initial_run (text : string) (w : World) : Run :=
  {| world := w; messages := initial_messages text |}.

(** The event of the last frame: [done] after a loop that ended, [error]
    with the text of the exception after one that raised. *)
Definition closing_event (r : Exception + unit) : AgentEvent :=
  match r with
  | inr _ => DoneEvent
  | inl e => ErrorEvent ("Error processing request: " ++ str e)%string
  end.

(** The [n] iterations that start from [s] all go on to the next: none
    raises and none ends in [break]. *)
Fixpoint never_breaks (self : MCPClient)
  (claude_tools : list ToolParam) (n : nat) (s : Run) : bool :=
  match n with
  | 0 => true
  | S n' =>
      match iteration_body self claude_tools s with
      | (inr false, s1, _) => never_breaks self claude_tools n' s1
      | _ => false
      end
  end.

Definition is_done (f : Frame) : bool :=
  match f with
  | data DoneEvent => true
  | _ => false
  end.

(** The [tool_use_id]s of the tool-result blocks of a message content. *)
Fixpoint tool_use_ids (l : list ContentBlock) : list string :=
  match l with
  | [] => []
  | ToolResult i _ :: l' => i :: tool_use_ids l'
  | _ :: l' => tool_use_ids l'
  end.

End Reference.

(** ** Scripted collaborators

    A model and a provider that answer from a script: the answer to a
    model call depends on how many model calls came before it, the answer
    to a tool call on how many tool calls came before it and on the tool
    asked for. *)

Module Scripted.

Record Script : Type := {
  model : nat -> Exception + list ContentBlock;
  tool : nat -> string -> json -> Exception + list McpContent;
  listing : Exception + list Tool
}.

(** The world counts the model calls and the tool calls made. *)
Definition collaborators (sc : Script) : Collaborators :=
  {| World := nat * nat;
     Session := unit;
     messages_create := fun _ _ w => (model sc (fst w), (S (fst w), snd w));
     call_tool := fun _ n i w => (tool sc (snd w) n i, (fst w, S (snd w)));
     list_tools := fun _ w => (listing sc, w) |}.

(** A client whose session is up. *)
Definition ready (sc : Script) : @MCPClient (collaborators sc) :=
  @Build_MCPClient (collaborators sc)
    (Some tt) (Some (Pending false)) (Some true).

Definition search_papers : Tool :=
  {| name := "search_papers";
     description := Some "Search arXiv papers by keyword";
     inputSchema := JObj [("type", JStr "object")] |}.

Definition search (id keyword : string) : ToolUseBlock :=
  {| tu_id := id;
     tu_name := "search_papers";
     tu_input := JObj [("keyword", JStr keyword)] |}.

Definition ConnectionError (msg : string) : Exception :=
  {| exc_type := "ConnectionError"; str := msg |}.

(** The model answers at once, with text only. *)
Definition answering : Script :=
  {| model := fun _ => inr [TextBlock "A transformer is"; TextBlock " a model."];
     tool := fun _ _ _ => inr [TextContent "unused"];
     listing := inr [search_papers] |}.

(** The model searches once, then explains. *)
Definition searching : Script :=
  {| model := fun n =>
       match n with
       | 0 => inr [ToolUse (search "toolu_1" "transformer")]
       | _ => inr [TextBlock "A transformer is a model."]
       end;
     tool := fun _ _ _ =>
       inr [TextContent "Found 2 papers: ";
            NonTextContent "image";
            TextContent "Attention is All You Need; BERT"];
     listing := inr [search_papers] |}.

(** The model asks for a search in every response. *)
Definition persistent : Script :=
  {| model := fun _ =>
       inr [TextBlock "Searching."; ToolUse (search "toolu" "transformer")];
     tool := fun _ _ _ => inr [TextContent "Found 0 papers"];
     listing := inr [search_papers] |}.

(** The model asks for two searches; the provider fails on the first. *)
Definition failing_tool : Script :=
  {| model := fun _ =>
       inr [ToolUse (search "toolu_1" "transformer");
            ToolUse (search "toolu_2" "attention")];
     tool := fun _ _ _ => inl (ConnectionError "provider gone");
     listing := inr [search_papers] |}.

(** The provider answers a search with no part at all. *)
Definition empty_result : Script :=
  {| model := fun n =>
       match n with
       | 0 => inr [ToolUse (search "toolu_1" "transformer")]
       | _ => inr [TextBlock "Nothing found."]
       end;
     tool := fun _ _ _ => inr [];
     listing := inr [search_papers] |}.

(** The model call fails. *)
Definition failing_model : Script :=
  {| model := fun _ => inl (ConnectionError "model unreachable");
     tool := fun _ _ _ => inr [];
     listing := inr [search_papers] |}.

End Scripted.

From Stdlib Require Import DecimalString.

(** ** Conversations *)

Definition role_eqb (a b : Role) : bool :=
  match a, b with
  | user, user | assistant, assistant => true
  | _, _ => false
  end.

Definition other_role (r : Role) : Role :=
  match r with
  | user => assistant
  | assistant => user
  end.

(** The roles of the messages of [l] alternate, the first being [first]. *)
Fixpoint alternating (first : Role) (l : list Message) : bool :=
  match l with
  | [] => true
  | m :: l' => role_eqb (role m) first && alternating (other_role first) l'
  end.

(** Each call of [calls] is given the conversation of the call before it
    ([previous], for the first) with one assistant message and one user
    message added at its end. *)
Fixpoint grows (previous : list Message)
  (calls : list (list Message * list ToolParam)) : Prop :=
  match calls with
  | [] => True
  | (m, _) :: calls' =>
      (exists a u,
          m = previous ++ [a; u] /\ role a = assistant /\ role u = user)
      /\ grows m calls'
  end.

(** A model that asks for a search in its first nine responses and
    answers in its tenth. *)
Definition late_answer : Scripted.Script :=
  {| Scripted.model := fun n =>
       if Nat.ltb n 9
       then inr [ToolUse (Scripted.search "toolu" "transformer")]
       else inr [TextBlock "A transformer is a model."];
     Scripted.tool := fun _ _ _ => inr [TextContent "Found 0 papers"];
     Scripted.listing := inr [Scripted.search_papers] |}.

(** ** The lifespan of the application *)

Section Lifespan.

Context {C : Collaborators}.

(** [lifespan]: the server is started, the application serves, the server
    is stopped.  [serve] is what the application does between startup and
    shutdown, with the client as the startup left it; when the startup
    raises nothing is served and nothing is stopped. *)
Definition lifespan {A : Type} (server : Z -> ServerProgress)
  (settle : Outcome) (serve : MCPClient -> A) (self : MCPClient)
  : (Exception + unit) * MCPClient * option A :=
  match start_mcp_server server self with
  | (inl e, self1) => (inl e, self1, None)
  | (inr _, self1) =>
      let served := serve self1 in
      match stop_mcp_server settle self1 with
      | (r, self2) => (r, self2, Some served)
      end
  end.

End Lifespan.

(** ** Python values *)

(** Python's truth test on an optional string or list: absent and empty
    are false. *)
Definition truthy (value : option string) : bool :=
  match value with
  | Some (String _ _) => true
  | _ => false
  end.

Definition truthy_list (value : option (list string)) : bool :=
  match value with
  | Some (_ :: _) => true
  | _ => false
  end.

(** A Python [str] is a sequence of code points.  A [string] here holds
    its UTF-8 encoding, so a code point takes one to four elements: a
    first byte and the continuation bytes (10xxxxxx) that follow it.
    Concatenation, joining and the test for the empty string are the same
    on both; the length and the slices count code points. *)
Definition continuation (c : ascii) : bool :=
  match c with
  | Ascii _ _ _ _ _ _ b6 b7 => b7 && negb b6
  end.

(** [len(s)] *)
Fixpoint len (s : string) : nat :=
  match s with
  | EmptyString => 0
  | String c rest => if continuation c then len rest else S (len rest)
  end.

(** [s[:n]] *)
Fixpoint slice_to (n : nat) (s : string) : string :=
  match s with
  | EmptyString => EmptyString
  | String c rest =>
      if continuation c then String c (slice_to n rest)
      else
        match n with
        | 0 => EmptyString
        | S m => String c (slice_to m rest)
        end
  end.

(** [x or ''] and [arguments.get(key, [])]. *)
Definition or_empty (value : option string) : string :=
  match value with
  | Some s => s
  | None => EmptyString
  end.

Definition or_nil (value : option (list string)) : list string :=
  match value with
  | Some l => l
  | None => []
  end.

(** [str(n)] for a length or an index. *)
Definition decimal (n : nat) : string :=
  NilEmpty.string_of_uint (Nat.to_uint n).

(** ** The endpoints of the application *)

(** The body of [GET /]. *)
Record Health : Type :=
  { status : string; message : string; anthropic_configured : bool }.

Record HTTPException : Type := { status_code : Z; detail : string }.

(** A [StreamingResponse]: the generator it will stream, the media type
    and the headers. *)
Record StreamingResponse (B : Type) : Type :=
  { body : B; media_type : string; headers : list (string * string) }.

Inductive LogRecord : Type :=
| LogInfo (msg : string)
| LogError (msg : string).

Section Endpoints.

Context {C : Collaborators}.

(** [os.getenv] *)
Variable getenv : string -> option string.

Definition root : Health :=
  {| status := "ok";
     message := "arXiv Research Term Explainer API is running.";
     anthropic_configured := truthy (getenv "ANTHROPIC_API_KEY") |}.

(** The term as it is logged: its first 100 characters and an ellipsis
    when it is longer. *)
Definition term_preview (text : string) : string :=
  if Nat.ltb 100 (len text)
  then (slice_to 100 text ++ "...")%string
  else text.

(** [POST /explain-research-term]: the response, or the HTTP error raised,
    and the records logged. *)
Definition explain_research_term (mcp_client : MCPClient) (text : string)
  : (HTTPException + StreamingResponse (Gen World Frame unit))
    * list LogRecord :=
  let logged :=
    [ LogInfo "Received explain research term request";
      LogInfo ("Term length: " ++ decimal (len text))%string;
      LogInfo ("Term: " ++ term_preview text)%string ] in
  if negb (truthy (getenv "ANTHROPIC_API_KEY"))
  then
    (inl {| status_code := 500;
            detail := "Anthropic API key is not configured." |},
     logged ++ [LogError "Anthropic API key is not configured"])
  else
    (inr {| body := explain_research_term_streaming mcp_client text;
            media_type := "text/event-stream";
            headers := [("Cache-Control", "no-cache");
                        ("Connection", "keep-alive");
                        ("X-Accel-Buffering", "no")] |},
     logged ++ [LogInfo "Starting streaming response"]).

End Endpoints.

(** * The tool server (backend/mcp_server.py)

    The server the client talks to: the two tools it advertises
    ([list_tools]) and the handler that runs them ([call_tool]).  The arXiv
    client is external: a search is answered by a list of results or by an
    exception, and [call_tool] is given that answer as a function of the
    query and the number of results asked for.  Besides its result,
    [call_tool] returns the searches it performed, in order. *)

Definition ValueError (msg : string) : Exception :=
  {| exc_type := "ValueError"; str := msg |}.

Module McpServer.

Local Open Scope string_scope.

(** The [arguments] dict, read through the keys [call_tool] looks up.  A
    key is absent ([None]) or holds a value of the type the input schema
    declares for it. *)
Record Arguments : Type :=
  { keyword : option string;
    title : option string;
    author : option string;
    abstract_ : option string;
    categories : option (list string);
    max_results : option Z;
    keywords : option (list string) }.

(** An [arxiv.Result], through the attributes [call_tool] reads;
    [r_published] is the text [published.strftime("%Y-%m-%d")] gives. *)
Record Author : Type := { author_name : string }.

Record Result : Type :=
  { r_title : string;
    r_authors : list Author;
    r_summary : string;
    r_published : string;
    r_pdf_url : string;
    r_entry_id : string;
    r_categories : list string;
    r_primary_category : string }.

(** The [paper_info] dict; the second tool leaves out
    ['primary_category']. *)
Record Paper : Type :=
  { paper_title : string;
    paper_authors : list string;
    paper_summary : string;
    paper_published : string;
    paper_pdf_url : string;
    paper_entry_id : string;
    paper_categories : list string;
    paper_primary_category : option string }.

Definition string_schema (text : string) : json :=
  JObj [("type", JStr "string"); ("description", JStr text)].

Definition array_schema (text : string) : json :=
  JObj [("type", JStr "array");
        ("items", JObj [("type", JStr "string")]);
        ("description", JStr text)].

Definition max_results_schema : json :=
  JObj [("type", JStr "integer");
        ("description", JStr "Maximum number of papers to return");
        ("default", JInt 10)].

Definition list_tools : list Tool :=
  [ {| name := "search_papers";
       description := Some "Search arXiv papers by keyword, title, author, abstract, or categories. Returns a list of papers with basic information.";
       inputSchema :=
         JObj [("type", JStr "object");
               ("properties",
                JObj [("keyword", string_schema "General keyword to search across all fields");
                      ("title", string_schema "Keyword to search in paper titles");
                      ("author", string_schema "Author name to search for");
                      ("abstract", string_schema "Keyword to search in paper abstracts");
                      ("categories", array_schema "arXiv categories to filter by. Examples: cs.AI (Artificial Intelligence), cs.LG (Machine Learning), cs.CL (Computational Linguistics), cs.CV (Computer Vision), stat.ML (Statistics - Machine Learning)");
                      ("max_results", max_results_schema)])] |};
    {| name := "search_with_multiple_keywords";
       description := Some "Search for papers that contain ALL of the specified keywords. Useful for finding papers on specific topics.";
       inputSchema :=
         JObj [("type", JStr "object");
               ("properties",
                JObj [("keywords", array_schema "List of keywords that must all be present in the paper");
                      ("categories", array_schema "arXiv categories to filter by (optional)");
                      ("max_results", max_results_schema)]);
               ("required", JArr [JStr "keywords"])] |} ].

(** [f'{field}:"{value}"'] *)
Definition quoted (field value : string) : string :=
  field ++ ":" ++ dq ++ value ++ dq.

(** [f'({cat_query})'] for [cat_query] the categories joined by OR. *)
Definition cat_clause (categories : list string) : string :=
  let cat_query :=
    String.concat " OR " (map (fun cat => "cat:" ++ cat) categories) in
  "(" ++ cat_query ++ ")".

(** [query_parts.append(part)] under [if value:]. *)
Definition append_if (condition : bool) (query_parts : list string)
  (part : string) : list string :=
  if condition then (query_parts ++ [part])%list else query_parts.

(** Lines 84-96: the clauses of a [search_papers] query. *)
Definition search_papers_parts (arguments : Arguments) : list string :=
  let query_parts := [] in
  let query_parts :=
    append_if (truthy (title arguments)) query_parts
      (quoted "ti" (or_empty (title arguments))) in
  let query_parts :=
    append_if (truthy (author arguments)) query_parts
      (quoted "au" (or_empty (author arguments))) in
  let query_parts :=
    append_if (truthy (abstract_ arguments)) query_parts
      (quoted "abs" (or_empty (abstract_ arguments))) in
  let query_parts :=
    append_if (truthy_list (categories arguments)) query_parts
      (cat_clause (or_nil (categories arguments))) in
  let query_parts :=
    append_if (truthy (keyword arguments)) query_parts
      (quoted "all" (or_empty (keyword arguments))) in
  query_parts.

(** Line 98. *)
Definition search_papers_query (arguments : Arguments) : string :=
  match search_papers_parts arguments with
  | [] => if truthy (keyword arguments)
          then or_empty (keyword arguments) else EmptyString
  | query_parts => String.concat " AND " query_parts
  end.

(** Lines 157-163: the query of [search_with_multiple_keywords]. *)
Definition multiple_keywords_parts (arguments : Arguments) : list string :=
  let query_parts :=
    map (fun kw => quoted "all" kw) (or_nil (keywords arguments)) in
  let query_parts :=
    append_if (truthy_list (categories arguments)) query_parts
      (cat_clause (or_nil (categories arguments))) in
  query_parts.

Definition multiple_keywords_query (arguments : Arguments) : string :=
  String.concat " AND " (multiple_keywords_parts arguments).

(** [arguments.get("max_results", 10)] *)
Definition max_results_of (arguments : Arguments) : Z :=
  match max_results arguments with
  | Some n => n
  | None => 10%Z
  end.

(** The ['summary'] entry: the first 300 characters and an ellipsis when
    the summary is longer than 300 characters. *)
Definition summary_of (summary : string) : string :=
  if Nat.ltb 300 (len summary)
  then slice_to 300 summary ++ "..."
  else summary.

Definition paper_info (with_primary : bool) (result : Result) : Paper :=
  {| paper_title := r_title result;
     paper_authors := map author_name (r_authors result);
     paper_summary := summary_of (r_summary result);
     paper_published := r_published result;
     paper_pdf_url := r_pdf_url result;
     paper_entry_id := r_entry_id result;
     paper_categories := r_categories result;
     paper_primary_category :=
       if with_primary then Some (r_primary_category result) else None |}.

(** [enumerate(papers, 1)] *)
Definition enumerate1 (papers : list Paper) : list (nat * Paper) :=
  combine (seq 1 (length papers)) papers.

(** Lines 135-142: what one paper adds to the text of [search_papers]. *)
Definition add_paper (result_text : string) (entry : nat * Paper) : string :=
  let (i, paper) := entry in
  let result_text :=
    result_text ++ decimal i ++ ". " ++ paper_title paper ++ nl in
  let result_text :=
    result_text ++ "   Authors: "
      ++ String.concat ", " (firstn 3 (paper_authors paper)) in
  let result_text :=
    if Nat.ltb 3 (length (paper_authors paper))
    then result_text ++ " et al. ("
           ++ decimal (length (paper_authors paper)) ++ " total)"
    else result_text in
  let result_text :=
    result_text ++ nl ++ "   Published: " ++ paper_published paper ++ nl in
  let result_text :=
    result_text ++ "   Categories: "
      ++ String.concat ", " (paper_categories paper) ++ nl in
  let result_text :=
    result_text ++ "   PDF: " ++ paper_pdf_url paper ++ nl in
  let result_text :=
    result_text ++ "   Summary: " ++ paper_summary paper ++ nl ++ nl in
  result_text.

(** Lines 130-142. *)
Definition search_papers_text (query : string) (papers : list Paper)
  : string :=
  match papers with
  | [] => "No papers found for query: " ++ query
  | _ =>
      let result_text :=
        "Found " ++ decimal (length papers) ++ " papers:" ++ nl ++ nl in
      fold_left add_paper (enumerate1 papers) result_text
  end.

(** Lines 193-199: what one paper adds to the text of
    [search_with_multiple_keywords]. *)
Definition add_keywords_paper (result_text : string) (entry : nat * Paper)
  : string :=
  let (i, paper) := entry in
  let result_text :=
    result_text ++ decimal i ++ ". " ++ paper_title paper ++ nl in
  let result_text :=
    result_text ++ "   Authors: "
      ++ String.concat ", " (firstn 3 (paper_authors paper)) in
  let result_text :=
    if Nat.ltb 3 (length (paper_authors paper))
    then result_text ++ " et al."
    else result_text in
  let result_text :=
    result_text ++ nl ++ "   Published: " ++ paper_published paper ++ nl in
  let result_text :=
    result_text ++ "   PDF: " ++ paper_pdf_url paper ++ nl in
  let result_text :=
    result_text ++ "   Summary: " ++ paper_summary paper ++ nl ++ nl in
  result_text.

(** Lines 188-199. *)
Definition multiple_keywords_text (keywords : list string)
  (papers : list Paper) : string :=
  match papers with
  | [] =>
      "No papers found containing all keywords: "
        ++ String.concat ", " keywords
  | _ =>
      let result_text :=
        "Found " ++ decimal (length papers)
          ++ " papers containing all keywords ("
          ++ String.concat ", " keywords ++ "):" ++ nl ++ nl in
      fold_left add_keywords_paper (enumerate1 papers) result_text
  end.

(** Every clause of a query is a non-empty string. *)
Definition clauses (l : list string) : Prop :=
  Forall (fun part => part <> EmptyString) l.

(** The parameters [search_papers] builds its query from. *)
Definition given (a : Arguments) : bool :=
  truthy (title a) || truthy (author a) || truthy (abstract_ a)
  || truthy_list (categories a) || truthy (keyword a).

Section Server.

(** [arxiv.Client().results(arxiv.Search(query, max_results, ...))], read to
    its end: the results, or the exception the search raised. *)
Variable results : string -> Z -> Exception + list Result.

(** The outcome of a call and the searches made, as (query, max_results). *)
Definition Called : Type :=
  (Exception + list McpContent) * list (string * Z).

(** What a search gives back to the caller: the failure of the search, or
    one text made from its results. *)
Definition answer (text : list Result -> string) (query : string)
  (n : Z) : Exception + list McpContent :=
  match results query n with
  | inl e => inl e
  | inr found => inr [TextContent (text found)]
  end.

Definition search_papers (arguments : Arguments) : Called :=
  let query := search_papers_query arguments in
  if String.eqb query EmptyString
  then
    (inr [TextContent "Error: At least one search parameter is required."],
     [])
  else
    let searched := [(query, max_results_of arguments)] in
    match results query (max_results_of arguments) with
    | inl e => (inl e, searched)
    | inr found =>
        let papers := map (paper_info true) found in
        (inr [TextContent (search_papers_text query papers)], searched)
    end.

Definition search_with_multiple_keywords (arguments : Arguments) : Called :=
  if negb (truthy_list (keywords arguments))
  then (inr [TextContent "Error: At least one keyword is required."], [])
  else
    let query := multiple_keywords_query arguments in
    let searched := [(query, max_results_of arguments)] in
    match results query (max_results_of arguments) with
    | inl e => (inl e, searched)
    | inr found =>
        let papers := map (paper_info false) found in
        (inr [TextContent
                (multiple_keywords_text (or_nil (keywords arguments)) papers)],
         searched)
    end.

Definition call_tool (tool_name : string) (arguments : Arguments) : Called :=
  if String.eqb tool_name "search_papers"
  then search_papers arguments
  else if String.eqb tool_name "search_with_multiple_keywords"
  then search_with_multiple_keywords arguments
  else (inl (ValueError ("Unknown tool: " ++ tool_name)), []).

End Server.

(** ** A small library to run the server on *)

Definition paper (n : nat) (people : list string) (text : string) : Result :=
  {| r_title := "Paper " ++ decimal n;
     r_authors := map Build_Author people;
     r_summary := text;
     r_published := "2017-06-12";
     r_pdf_url := "http://arxiv.org/pdf/" ++ decimal n;
     r_entry_id := "http://arxiv.org/abs/" ++ decimal n;
     r_categories := ["cs.CL"; "cs.LG"];
     r_primary_category := "cs.CL" |}.

(** A library that answers every search with the same two papers. *)
Definition two_papers : string -> Z -> Exception + list Result :=
  fun _ _ =>
    inr [ paper 1 ["Vaswani"; "Shazeer"; "Parmar"; "Uszkoreit"]
            "The dominant sequence transduction models";
          paper 2 ["Devlin"] "We introduce a new language representation" ].

(** A library that is empty, and one that cannot be reached. *)
Definition no_papers : string -> Z -> Exception + list Result :=
  fun _ _ => inr [].

Definition unreachable : string -> Z -> Exception + list Result :=
  fun _ _ => inl {| exc_type := "HTTPError"; str := "Page request resulted in HTTP 503" |}.

(** The letter e with an acute accent: one code point, two bytes. *)
Definition e_acute : string :=
  String (ascii_of_nat 195) (String (ascii_of_nat 169) EmptyString).

(** An abstract of 299 characters, two of them accented, and one of 310
    characters. *)
Definition accented_abstract : string :=
  concatenation (repeat "a" 297) ++ e_acute ++ e_acute.

Definition long_abstract : string :=
  concatenation (repeat "attention " 31).

Definition no_arguments : Arguments :=
  {| keyword := None; title := None; author := None; abstract_ := None;
     categories := None; max_results := None; keywords := None |}.

(** Calls to run the server on. *)
Definition transformer_papers : Arguments :=
  {| keyword := Some "attention"; title := Some "transformer";
     author := None; abstract_ := Some EmptyString;
     categories := Some ["cs.CL"; "cs.LG"]; max_results := Some 5%Z;
     keywords := None |}.

Definition one_keyword : Arguments :=
  {| keyword := Some "attention"; title := None; author := None;
     abstract_ := None; categories := None; max_results := None;
     keywords := Some ["attention"] |}.

End McpServer.

(** * The video converter (assets/main.py)

    The script that turns [results.mp4] into [results.gif].  The programs
    it runs ([ffmpeg], [ffprobe]) and the file system are external: a
    command is answered by its standard output or by an exception, and may
    change the files.  What the script prints is left out. *)

Module Converter.

(** An absolute path, by its components; [p / name] and [p.parent]. *)
Definition Path : Type := list string.

Definition join (p : Path) (name : string) : Path := p ++ [name].

Definition parent (p : Path) : Path := removelast p.

Definition path_eqb (p q : Path) : bool :=
  if list_eq_dec string_dec p q then true else false.

(** The files there are, each with its size in bytes. *)
Definition Files : Type := Path -> option Z.

(** [p.exists()], [p.unlink()] of a path that exists, [p.stat().st_size]. *)
Definition exists_ (p : Path) (files : Files) : bool :=
  match files p with
  | Some _ => true
  | None => false
  end.

Definition unlinked (p : Path) (files : Files) : Files :=
  fun q => if path_eqb q p then None else files q.

Definition FileNotFoundError (msg : string) : Exception :=
  {| exc_type := "FileNotFoundError"; str := msg |}.

Definition CalledProcessError (msg : string) : Exception :=
  {| exc_type := "CalledProcessError"; str := msg |}.

Definition ZeroDivisionError (msg : string) : Exception :=
  {| exc_type := "ZeroDivisionError"; str := msg |}.

(** [except (A, B):] on the class of the exception. *)
Definition is_a (e : Exception) (classes : list string) : bool :=
  existsb (String.eqb (exc_type e)) classes.

Section Script.

(** Python floats; the script computes on them only to print and to fill
    in the filter of the commands. *)
Variable float : Type.
Variable two : float.

(** [x == 0] on floats: [1/x] raises [ZeroDivisionError] when it holds. *)
Variable is_zero : float -> bool.

(** The argument lists given to [subprocess.run], by the values that vary
    in them. *)
Inductive Command : Type :=
| FfmpegVersion
| FfprobeDuration (input_file : Path)
| FfprobeResolution (input_file : Path)
| FfmpegPalette (input_file : Path) (fps target_width target_height : Z)
    (speed_factor : float) (palette_file : Path)
| FfmpegGif (input_file palette_file : Path)
    (fps target_width target_height : Z) (speed_factor : float)
    (output_file : Path).

(** The commands of a conversion, in the order they are run. *)
Definition conversion (input_file output_file : Path)
  (speed_factor : float) (fps w h : Z) : list Command :=
  let palette_file := join (parent output_file) "palette.png" in
  [ FfprobeResolution input_file;
    FfmpegPalette input_file fps w h speed_factor palette_file;
    FfmpegGif input_file palette_file fps w h speed_factor output_file ].

(** [subprocess.run(cmd, check=True)]: the standard output, or the
    exception raised ([CalledProcessError] for a non-zero exit status,
    [FileNotFoundError] for a missing program), and the files after it. *)
Variable run : Command -> Files -> (Exception + string) * Files.

(** [float(text.strip())] and [map(int, text.strip().split(','))] unpacked
    into two: [None] where Python raises [ValueError]. *)
Variable parse_duration : string -> option float.
Variable parse_resolution : string -> option (Z * Z).

(** [int(target_width * (orig_height / orig_width))], computed on floats:
    the integer, or the [OverflowError] of integers too large for a
    float. *)
Variable scaled_height : Z -> Z -> Z -> Exception + Z.

(** A procedure: its result or the exception it raised, the files it
    leaves and the commands it ran, in order. *)
Definition Proc (A : Type) : Type :=
  Files -> (Exception + A) * Files * list Command.

Definition subprocess_run (cmd : Command) : Proc string :=
  fun files =>
    match run cmd files with
    | (r, files1) => (r, files1, [cmd])
    end.

Definition check_ffmpeg : Proc bool :=
  fun files =>
    match subprocess_run FfmpegVersion files with
    | (inr _, files1, ran) => (inr true, files1, ran)
    | (inl e, files1, ran) =>
        if is_a e ["CalledProcessError"; "FileNotFoundError"]
        then (inr false, files1, ran)
        else (inl e, files1, ran)
    end.

Definition get_video_duration (input_file : Path) : Proc (option float) :=
  fun files =>
    match subprocess_run (FfprobeDuration input_file) files with
    | (inr stdout, files1, ran) => (inr (parse_duration stdout), files1, ran)
    | (inl e, files1, ran) =>
        if is_a e ["CalledProcessError"; "ValueError"]
        then (inr None, files1, ran)
        else (inl e, files1, ran)
    end.

Definition get_video_info (input_file : Path) : Proc (option (Z * Z)) :=
  fun files =>
    match subprocess_run (FfprobeResolution input_file) files with
    | (inr stdout, files1, ran) =>
        (inr (parse_resolution stdout), files1, ran)
    | (inl e, files1, ran) =>
        if is_a e ["CalledProcessError"; "ValueError"]
        then (inr None, files1, ran)
        else (inl e, files1, ran)
    end.

(** Lines 71-84: the resolution of the GIF. *)
Definition target_resolution (info : option (Z * Z)) (target_width : Z)
  : Exception + Z * Z :=
  match info with
  | Some (orig_width, orig_height) =>
      if negb (Z.eqb orig_width 0) && negb (Z.eqb orig_height 0)
      then
        match scaled_height target_width orig_width orig_height with
        | inl e => inl e
        | inr target_height =>
            let target_height :=
              if Z.eqb (target_height mod 2) 1
              then (target_height + 1)%Z
              else target_height in
            inr (target_width, target_height)
        end
      else inr (800%Z, 600%Z)
  | None => inr (800%Z, 600%Z)
  end.

(** [if palette_file.exists(): palette_file.unlink()] *)
Definition clean_up (palette_file : Path) (files : Files) : Files :=
  if exists_ palette_file files then unlinked palette_file files else files.

(** [p.stat()] *)
Definition stat (p : Path) (files : Files) : Exception + Z :=
  match files p with
  | Some size => inr size
  | None => inl (FileNotFoundError "No such file or directory")
  end.

Definition convert_video_to_gif (input_file output_file : Path)
  (speed_factor : float) (target_width fps : Z) : Proc bool :=
  fun files =>
    match get_video_info input_file files with
    | (inl e, files1, ran1) => (inl e, files1, ran1)
    | (inr info, files1, ran1) =>
        match target_resolution info target_width with
        | inl e => (inl e, files1, ran1)
        | inr (target_width, target_height) =>
            let palette_file := join (parent output_file) "palette.png" in
            (* the filters hold [1/speed_factor] *)
            if is_zero speed_factor
            then
              (inl (ZeroDivisionError "float division by zero"),
               files1, ran1)
            else
              let palette_cmd :=
                FfmpegPalette input_file fps target_width target_height
                  speed_factor palette_file in
              let gif_cmd :=
                FfmpegGif input_file palette_file fps target_width
                  target_height speed_factor output_file in
              (* except subprocess.CalledProcessError *)
              let except_ (e : Exception) (files_ : Files)
                (ran : list Command)
                : (Exception + bool) * Files * list Command :=
                if is_a e ["CalledProcessError"]
                then (inr false, clean_up palette_file files_, ran)
                else (inl e, files_, ran) in
              match subprocess_run palette_cmd files1 with
              | (inl e, files2, ran2) => except_ e files2 (ran1 ++ ran2)
              | (inr _, files2, ran2) =>
                  match subprocess_run gif_cmd files2 with
                  | (inl e, files3, ran3) =>
                      except_ e files3 (ran1 ++ ran2 ++ ran3)
                  | (inr _, files3, ran3) =>
                      let files4 := clean_up palette_file files3 in
                      let ran := ran1 ++ ran2 ++ ran3 in
                      match stat input_file files4 with
                      | inl e => except_ e files4 ran
                      | inr _ =>
                          match stat output_file files4 with
                          | inl e => except_ e files4 ran
                          | inr _ => (inr true, files4, ran)
                          end
                      end
                  end
              end
        end
    end.

(** How the script ends: [main] returns, [sys.exit(code)], or an
    exception nothing catches. *)
Inductive Ended : Type :=
| Returned
| Exited (code : Z)
| Uncaught (e : Exception).

Definition main (current_dir : Path) (files : Files)
  : Ended * Files * list Command :=
  let input_file := join current_dir "results.mp4" in
  let output_file := join current_dir "results.gif" in
  if negb (exists_ input_file files)
  then (Exited 1, files, [])
  else
    match check_ffmpeg files with
    | (inl e, files1, ran1) => (Uncaught e, files1, ran1)
    | (inr false, files1, ran1) => (Exited 1, files1, ran1)
    | (inr true, files1, ran1) =>
        match get_video_duration input_file files1 with
        | (inl e, files2, ran2) => (Uncaught e, files2, ran1 ++ ran2)
        | (inr original_duration, files2, ran2) =>
            match
              convert_video_to_gif input_file output_file two 800 15 files2
            with
            | (inl e, files3, ran3) => (Uncaught e, files3, ran1 ++ ran2 ++ ran3)
            | (inr success, files3, ran3) =>
                (if success then Returned else Exited 1,
                 files3, ran1 ++ ran2 ++ ran3)
            end
        end
    end.

End Script.

(** ** Programs to run the script on *)

(** The working directory and its files before the conversion. *)
Definition work : Path := ["home"; "me"; "assets"].

Definition recorded : Files :=
  fun p => if path_eqb p (join work "results.mp4") then Some 4000000%Z
           else None.

(** Programs that work: the probe reports 1920x1080, the palette step
    writes [palette.png], the GIF step writes [results.gif]. *)
Definition working (cmd : Command nat) (files : Files)
  : (Exception + string) * Files :=
  match cmd with
  | FfmpegVersion _ => (inr "ffmpeg version 6.0", files)
  | FfprobeDuration _ _ => (inr "12.5", files)
  | FfprobeResolution _ _ => (inr "1920,1080", files)
  | FfmpegPalette _ _ _ _ _ palette_file =>
      (inr EmptyString,
       fun p => if path_eqb p palette_file then Some 1000%Z else files p)
  | FfmpegGif _ _ _ _ _ _ output_file =>
      (inr EmptyString,
       fun p => if path_eqb p output_file then Some 900000%Z else files p)
  end.

(** The same, the GIF step exiting with an error. *)
Definition failing_gif (cmd : Command nat) (files : Files)
  : (Exception + string) * Files :=
  match cmd with
  | FfmpegGif _ _ _ _ _ _ _ =>
      (inl (CalledProcessError "returned non-zero exit status 1"), files)
  | _ => working cmd files
  end.

Definition full_hd : string -> option (Z * Z) :=
  fun _ => Some (1920%Z, 1080%Z).

Definition seconds : string -> option nat := fun _ => Some 12.

(** Truncation of the exact quotient: what the float computation gives
    for the sizes used here. *)
Definition exact_height (target_width orig_width orig_height : Z)
  : Exception + Z :=
  inr (target_width * orig_height / orig_width)%Z.

(** Durations and speed factors in whole numbers. *)
Definition no_speed (speed_factor : nat) : bool := Nat.eqb speed_factor 0.

End Converter.

(** ** The claims as the specification states them, where the code does
    otherwise *)

(** C3, as the specification states it: on a run that reaches the bound
    the stream holds no error frame and no [done] frame. *)
Definition bound_run_ends_without_done : Prop :=
  forall (C : Collaborators) (self : MCPClient) (text : string)
    (w w1 : World) (sess : Session) (tools : list Tool),
    session self = Some sess ->
    list_tools sess w = (inr tools, w1) ->
    never_breaks self (map claude_tool tools) max_iterations
      (initial_run text w1) = true ->
    existsb is_error (frames_of (explain_research_term_streaming self text w))
    = false
    /\ existsb is_done (frames_of (explain_research_term_streaming self text w))
       = false.

(** C10, as the specification states it: a request handled after a stop
    that completed, or on a client whose startup has not succeeded (one
    just constructed, or one whose start failed), yields the one frame
    that says the server is not initialized and makes no call. *)
Definition requests_outside_service_are_refused : Prop :=
  forall (C : Collaborators) (self : MCPClient) (text : string) (w : World),
    ((exists settle self0, stop_mcp_server settle self0 = (inr tt, self))
     \/ self = init
     \/ (exists server e, start_mcp_server server init = (inl e, self))) ->
    explain_research_term_streaming self text w
    = (inr tt, w, [Yield (data (ErrorEvent "MCP server not initialized"))]).




(** C1, as the specification states it: whatever response the model gives
    in an iteration, with its N tool uses, the iteration yields N
    tool-result events, named as the tool-use events are and in their
    order, and the conversation gains one assistant message and one user
    message. *)
Definition every_response_is_answered : Prop :=
  forall (C : Collaborators) (self : MCPClient)
    (claude_tools : list ToolParam) (s : Run)
    (response : list ContentBlock) (w1 : World),
    messages_create (messages s) claude_tools (world s) = (inr response, w1) ->
    let it := iteration_body self claude_tools s in
    length (tool_result_events (yields (trace_of it)))
    = length (tool_uses_of response)
    /\ map fst (tool_result_events (yields (trace_of it)))
       = map fst (tool_use_events (yields (trace_of it)))
    /\ exists a u,
        messages (store_of it) = messages s ++ [a; u]
        /\ role a = assistant /\ role u = user.

(** ** Lemmas on traces *)

Section Traces.

Context {Y : Type}.

Lemma yields_app (t1 t2 : list (Action Y)) :
  yields (t1 ++ t2) = yields t1 ++ yields t2.
Proof.
  induction t1 as [|a t1 IH]; simpl; [reflexivity|].
  destruct a; simpl; rewrite IH; reflexivity.
Qed.

Lemma model_calls_app (t1 t2 : list (Action Y)) :
  model_calls (t1 ++ t2) = model_calls t1 ++ model_calls t2.
Proof.
  induction t1 as [|a t1 IH]; simpl; [reflexivity|].
  destruct a; simpl; rewrite IH; reflexivity.
Qed.

Lemma tool_calls_app (t1 t2 : list (Action Y)) :
  tool_calls (t1 ++ t2) = tool_calls t1 ++ tool_calls t2.
Proof.
  induction t1 as [|a t1 IH]; simpl; [reflexivity|].
  destruct a; simpl; rewrite IH; reflexivity.
Qed.

Lemma warnings_app (t1 t2 : list (Action Y)) :
  warnings (t1 ++ t2) = warnings t1 ++ warnings t2.
Proof.
  induction t1 as [|a t1 IH]; simpl; [reflexivity|].
  destruct a; simpl; rewrite IH; reflexivity.
Qed.

Lemma yields_map_Yield (l : list Y) : yields (map Yield l) = l.
Proof. induction l as [|y l IH]; simpl; congruence. Qed.

Lemma model_calls_map_Yield (l : list Y) : model_calls (map Yield l) = [].
Proof. induction l as [|y l IH]; simpl; [reflexivity|assumption]. Qed.

Lemma tool_calls_map_Yield (l : list Y) : tool_calls (map Yield l) = [].
Proof. induction l as [|y l IH]; simpl; [reflexivity|assumption]. Qed.

Lemma warnings_map_Yield (l : list Y) : warnings (map Yield l) = [].
Proof. induction l as [|y l IH]; simpl; [reflexivity|assumption]. Qed.

Context {Z : Type} (f : Y -> Z).

Lemma yields_relabel (t : list (Action Y)) :
  yields (map (relabel f) t) = map f (yields t).
Proof.
  induction t as [|a t IH]; simpl; [reflexivity|].
  destruct a; simpl; rewrite IH; reflexivity.
Qed.

Lemma model_calls_relabel (t : list (Action Y)) :
  model_calls (map (relabel f) t) = model_calls t.
Proof.
  induction t as [|a t IH]; simpl; [reflexivity|].
  destruct a; simpl; rewrite IH; reflexivity.
Qed.

Lemma tool_calls_relabel (t : list (Action Y)) :
  tool_calls (map (relabel f) t) = tool_calls t.
Proof.
  induction t as [|a t IH]; simpl; [reflexivity|].
  destruct a; simpl; rewrite IH; reflexivity.
Qed.

Lemma warnings_relabel (t : list (Action Y)) :
  warnings (map (relabel f) t) = warnings t.
Proof.
  induction t as [|a t IH]; simpl; [reflexivity|].
  destruct a; simpl; rewrite IH; reflexivity.
Qed.

End Traces.

Lemma tool_use_events_app (l1 l2 : list AgentEvent) :
  tool_use_events (l1 ++ l2) = tool_use_events l1 ++ tool_use_events l2.
Proof.
  induction l1 as [|e l1 IH]; simpl; [reflexivity|].
  destruct e; simpl; rewrite IH; reflexivity.
Qed.

Lemma tool_result_events_app (l1 l2 : list AgentEvent) :
  tool_result_events (l1 ++ l2) = tool_result_events l1 ++ tool_result_events l2.
Proof.
  induction l1 as [|e l1 IH]; simpl; [reflexivity|].
  destruct e; simpl; rewrite IH; reflexivity.
Qed.

Lemma text_events_app (l1 l2 : list AgentEvent) :
  text_events (l1 ++ l2) = text_events l1 ++ text_events l2.
Proof.
  induction l1 as [|e l1 IH]; simpl; [reflexivity|].
  destruct e; simpl; rewrite IH; reflexivity.
Qed.

(** What the walk over a response yields, by kind. *)
Lemma block_events_tool_uses (content : list ContentBlock) :
  tool_use_events (block_events content)
  = map (fun b => (tu_name b, tu_input b)) (tool_uses_of content).
Proof.
  induction content as [|b content IH]; simpl; [reflexivity|].
  destruct b; simpl; rewrite ?IH; reflexivity.
Qed.

Lemma block_events_tool_results (content : list ContentBlock) :
  tool_result_events (block_events content) = [].
Proof.
  induction content as [|b content IH]; simpl; [reflexivity|].
  destruct b; simpl; assumption.
Qed.

Lemma block_events_texts (content : list ContentBlock) :
  text_events (block_events content) = texts_of_response content.
Proof.
  induction content as [|b content IH]; simpl; [reflexivity|].
  destruct b; simpl; rewrite ?IH; reflexivity.
Qed.

Lemma block_events_no_tool_use (content : list ContentBlock) :
  tool_uses_of content = [] ->
  block_events content = map TextEvent (texts_of_response content).
Proof.
  induction content as [|b content IH]; simpl; intros H; [reflexivity|].
  destruct b; simpl; try discriminate; rewrite ?IH; auto.
Qed.

(** The accumulation of [result_text] is the concatenation of the text
    parts. *)
Lemma result_text_fold (content : list McpContent) (acc : string) :
  fold_left
    (fun result_text c =>
       match c with
       | TextContent text => (result_text ++ text)%string
       | NonTextContent _ => result_text
       end)
    content acc
  = (acc ++ concatenation (text_parts content))%string.
Proof.
  revert acc.
  induction content as [|c content IH]; intros acc; simpl.
  - induction acc as [|a acc IHa]; simpl; congruence.
  - destruct c; rewrite IH; simpl; [|reflexivity].
    induction acc as [|a acc IHa]; simpl; congruence.
Qed.

Lemma result_text_of_concatenation (content : list McpContent) :
  result_text_of content = concatenation (text_parts content).
Proof. unfold result_text_of. rewrite result_text_fold. reflexivity. Qed.

(** ** The loop, step by step *)

Section Loop.

Context {C : Collaborators}.

(** The walk leaves the store alone and never fails. *)
Lemma walk_content_spec (content : list ContentBlock) :
  forall assistant_content tool_uses (s : Run),
    walk_content content assistant_content tool_uses s
    = (inr (assistant_content ++ kept_blocks content,
            tool_uses ++ tool_uses_of content),
       s, map Yield (block_events content)).
Proof.
  induction content as [|b content IH]; intros ac tus s; simpl.
  - unfold ret. rewrite !app_nil_r. reflexivity.
  - destruct b; simpl; try apply IH.
    + unfold bind, yield, act. rewrite IH, <- app_assoc. reflexivity.
    + unfold bind, yield, act. rewrite IH, <- !app_assoc. reflexivity.
Qed.

Lemma provider_run_length (sess : Session) (tool_uses : list ToolUseBlock) :
  forall w,
    length (answers_of sess tool_uses w) <= length tool_uses
    /\ (failure_of sess tool_uses w = None <->
        length (answers_of sess tool_uses w) = length tool_uses).
Proof.
  unfold answers_of, failure_of.
  induction tool_uses as [|b rest IH]; intros w; simpl.
  - split; [lia|]. split; reflexivity.
  - destruct (call_tool sess (tu_name b) (tu_input b) w) as [[e|a] w1]; simpl.
    + split; [lia|]. split; discriminate.
    + specialize (IH w1).
      destruct (provider_run sess rest w1) as [[answers err] w2]; simpl in *.
      destruct IH as [IH1 IH2]. split; [lia|].
      rewrite IH2. split; lia.
Qed.

Lemma execute_tools_spec (self : MCPClient) (sess : Session) :
  session self = Some sess ->
  forall tool_uses tool_results (s : Run),
    execute_tools self tool_uses tool_results s
    = (match failure_of sess tool_uses (world s) with
       | Some e => inl e
       | None =>
           inr (tool_results
                ++ map result_block
                     (combine tool_uses (answers_of sess tool_uses (world s))))
       end,
       {| world := world_after sess tool_uses (world s);
          messages := messages s |},
       tool_trace tool_uses (answers_of sess tool_uses (world s))).
Proof.
  intros Hs. unfold answers_of, failure_of, world_after.
  induction tool_uses as [|b rest IH]; intros acc s; simpl.
  - unfold ret. rewrite app_nil_r. destruct s; reflexivity.
  - unfold bind at 1. unfold session_call_tool. rewrite Hs.
    destruct (call_tool sess (tu_name b) (tu_input b) (world s))
      as [[e|a] w1]; simpl; [reflexivity|].
    unfold bind, yield, act. rewrite IH. simpl.
    destruct (provider_run sess rest w1) as [[answers err] w2]; simpl.
    destruct err; [reflexivity|].
    rewrite <- app_assoc. reflexivity.
Qed.

(** Without a session the first tool call fails on the attribute. *)
Lemma execute_tools_no_session (self : MCPClient) :
  session self = None ->
  forall b rest tool_results (s : Run),
    execute_tools self (b :: rest) tool_results s
    = (inl (AttributeError "'NoneType' object has no attribute 'call_tool'"),
       s, []).
Proof.
  intros Hs b rest acc s. simpl.
  unfold bind, session_call_tool. rewrite Hs. reflexivity.
Qed.

Lemma tool_trace_yields (tool_uses : list ToolUseBlock) :
  forall answers,
    yields (tool_trace tool_uses answers)
    = map (fun p => ToolResultEvent (tu_name (fst p)) (result_text_of (snd p)))
        (combine tool_uses answers).
Proof.
  induction tool_uses as [|b rest IH]; intros answers; simpl; [reflexivity|].
  destruct answers as [|a answers]; simpl; [reflexivity|].
  rewrite IH. reflexivity.
Qed.

Lemma tool_trace_result_events (tool_uses : list ToolUseBlock) :
  forall answers,
    tool_result_events (yields (tool_trace tool_uses answers))
    = map result_event (combine tool_uses answers).
Proof.
  induction tool_uses as [|b rest IH]; intros answers; simpl; [reflexivity|].
  destruct answers as [|a answers]; simpl; [reflexivity|].
  rewrite IH. reflexivity.
Qed.

Lemma tool_trace_use_events (tool_uses : list ToolUseBlock) :
  forall answers,
    tool_use_events (yields (tool_trace tool_uses answers)) = [].
Proof.
  induction tool_uses as [|b rest IH]; intros answers; simpl; [reflexivity|].
  destruct answers as [|a answers]; simpl; [reflexivity|]. apply IH.
Qed.

Lemma tool_trace_model_calls (tool_uses : list ToolUseBlock) :
  forall answers, model_calls (tool_trace tool_uses answers) = [].
Proof.
  induction tool_uses as [|b rest IH]; intros answers; simpl; [reflexivity|].
  destruct answers as [|a answers]; simpl; [reflexivity|]. apply IH.
Qed.

Lemma tool_trace_warnings (tool_uses : list ToolUseBlock) :
  forall answers, warnings (tool_trace tool_uses answers) = [].
Proof.
  induction tool_uses as [|b rest IH]; intros answers; simpl; [reflexivity|].
  destruct answers as [|a answers]; simpl; [reflexivity|]. apply IH.
Qed.

(** The calls made are those for a prefix of the tool uses: all of them
    when every call is answered. *)
Lemma tool_trace_calls_all (tool_uses : list ToolUseBlock) :
  forall answers,
    length answers = length tool_uses ->
    tool_calls (tool_trace tool_uses answers)
    = map (fun b => (tu_name b, tu_input b)) tool_uses.
Proof.
  induction tool_uses as [|b rest IH]; intros answers H; simpl; [reflexivity|].
  destruct answers as [|a answers]; simpl in *; [discriminate|].
  rewrite IH by lia. reflexivity.
Qed.

End Loop.

(** ** One iteration *)

Section Iteration.

Context {C : Collaborators}.

Variable self : MCPClient.
Variable claude_tools : list ToolParam.

(** The model call fails: the exception leaves the iteration. *)
Lemma iteration_body_model_failure (s : Run) (e : Exception) (w1 : World) :
  messages_create (messages s) claude_tools (world s) = (inl e, w1) ->
  iteration_body self claude_tools s
  = (inl e, {| world := w1; messages := messages s |},
     [ModelCall (messages s) claude_tools]).
Proof.
  intros H. unfold iteration_body, bind at 1, create. rewrite H. reflexivity.
Qed.

(** No tool use in the response: the iteration ends in [break]. *)
Lemma iteration_body_break (s : Run) (response : list ContentBlock)
  (w1 : World) :
  messages_create (messages s) claude_tools (world s) = (inr response, w1) ->
  tool_uses_of response = [] ->
  iteration_body self claude_tools s
  = (inr true,
     {| world := w1; messages := messages s ++ [assistant_message response] |},
     ModelCall (messages s) claude_tools
     :: map Yield (block_events response)).
Proof.
  intros H Hn. unfold iteration_body, bind, create. rewrite H.
  rewrite walk_content_spec. simpl. rewrite Hn. simpl.
  rewrite !app_nil_r. reflexivity.
Qed.

(** Tool uses in the response and a session to call: the tools run in
    order, up to the first failure. *)
Lemma iteration_body_tools (s : Run) (response : list ContentBlock)
  (w1 : World) (sess : Session) :
  messages_create (messages s) claude_tools (world s) = (inr response, w1) ->
  tool_uses_of response <> [] ->
  session self = Some sess ->
  iteration_body self claude_tools s
  = (match failure_of sess (tool_uses_of response) w1 with
     | Some e => inl e
     | None => inr false
     end,
     {| world := world_after sess (tool_uses_of response) w1;
        messages :=
          messages s ++ assistant_message response
          :: match failure_of sess (tool_uses_of response) w1 with
             | Some _ => []
             | None =>
                 [user_message (tool_uses_of response)
                    (answers_of sess (tool_uses_of response) w1)]
             end |},
     ModelCall (messages s) claude_tools
     :: map Yield (block_events response)
     ++ tool_trace (tool_uses_of response)
          (answers_of sess (tool_uses_of response) w1)).
Proof.
  intros H Hn Hs. unfold iteration_body, bind at 1, create. rewrite H.
  unfold bind at 1. rewrite walk_content_spec. cbn [fst snd app].
  destruct (tool_uses_of response) as [|b rest] eqn:Htu; [congruence|].
  unfold bind at 1. unfold messages_append at 1.
  unfold bind at 1. rewrite (execute_tools_spec self Hs).
  cbn [world messages].
  destruct (failure_of sess (b :: rest) w1) as [e|].
  - reflexivity.
  - unfold bind, messages_append, ret. cbn [world messages app].
    rewrite !app_nil_r, <- app_assoc. reflexivity.
Qed.

(** Tool uses in the response and no session: the attribute error. *)
Lemma iteration_body_no_session (s : Run) (response : list ContentBlock)
  (w1 : World) :
  messages_create (messages s) claude_tools (world s) = (inr response, w1) ->
  tool_uses_of response <> [] ->
  session self = None ->
  iteration_body self claude_tools s
  = (inl (AttributeError "'NoneType' object has no attribute 'call_tool'"),
     {| world := w1; messages := messages s ++ [assistant_message response] |},
     ModelCall (messages s) claude_tools
     :: map Yield (block_events response)).
Proof.
  intros H Hn Hs. unfold iteration_body, bind at 1, create. rewrite H.
  unfold bind at 1. rewrite walk_content_spec. cbn [fst snd app].
  destruct (tool_uses_of response) as [|b rest] eqn:Htu; [congruence|].
  unfold bind at 1. unfold messages_append at 1.
  unfold bind at 1. rewrite (execute_tools_no_session self Hs).
  cbn [world messages app]. rewrite !app_nil_r. reflexivity.
Qed.

Lemma block_events_loop_actions (response : list ContentBlock) :
  Forall (loop_action claude_tools) (map Yield (block_events response)).
Proof.
  induction response as [|b response IH]; simpl; [constructor|].
  destruct b; simpl; try assumption; constructor; simpl; auto.
Qed.

Lemma tool_trace_loop_actions (tool_uses : list ToolUseBlock) :
  forall answers, Forall (loop_action claude_tools) (tool_trace tool_uses answers).
Proof.
  induction tool_uses as [|b rest IH]; intros answers; simpl; [constructor|].
  constructor; [exact I|].
  destruct answers as [|a answers]; [constructor|].
  constructor; [exact I|apply IH].
Qed.

(** Whatever the model and the tools answer, an iteration makes exactly
    one model call, first of all, and leaves only loop actions. *)
Lemma iteration_body_shape (s : Run) :
  exists t,
    trace_of (iteration_body self claude_tools s)
    = ModelCall (messages s) claude_tools :: t
    /\ model_calls t = []
    /\ warnings t = []
    /\ Forall (loop_action claude_tools) t.
Proof.
  destruct (messages_create (messages s) claude_tools (world s))
    as [[e|response] w1] eqn:H.
  - rewrite (iteration_body_model_failure _ H). simpl.
    exists []. repeat split; constructor.
  - destruct (tool_uses_of response) as [|b rest] eqn:Htu.
    + rewrite (iteration_body_break _ H Htu). simpl.
      eexists. split; [reflexivity|].
      rewrite model_calls_map_Yield, warnings_map_Yield.
      repeat split. apply block_events_loop_actions.
    + assert (Hn : tool_uses_of response <> []) by congruence.
      destruct (session self) as [sess|] eqn:Hs.
      * rewrite (iteration_body_tools _ H Hn Hs). simpl.
        eexists. split; [reflexivity|].
        rewrite model_calls_app, warnings_app, model_calls_map_Yield,
          warnings_map_Yield, tool_trace_model_calls, tool_trace_warnings.
        repeat split. apply Forall_app. split.
        -- apply block_events_loop_actions.
        -- apply tool_trace_loop_actions.
      * rewrite (iteration_body_no_session _ H Hn Hs). simpl.
        eexists. split; [reflexivity|].
        rewrite model_calls_map_Yield, warnings_map_Yield.
        repeat split. apply block_events_loop_actions.
Qed.

(** ** The iterations *)

Lemma for_iteration_step (i : nat) (rest : list nat) (it : option nat)
  (s : Run) :
  for_iteration self claude_tools (i :: rest) it s
  = match iteration_body self claude_tools s with
    | (inl e, s1, t1) => (inl e, s1, t1)
    | (inr true, s1, t1) => (inr (Some i), s1, t1)
    | (inr false, s1, t1) =>
        match for_iteration self claude_tools rest (Some i) s1 with
        | (r, s2, t2) => (r, s2, t1 ++ t2)
        end
    end.
Proof.
  simpl. unfold bind at 1.
  destruct (iteration_body self claude_tools s) as [[[e|[|]] s1] t1];
    try reflexivity.
  unfold ret. rewrite app_nil_r. reflexivity.
Qed.

(** The loop makes at most one model call per value of the range, each
    with the declarations it was given, leaves only loop actions and logs
    nothing. *)
Lemma for_iteration_shape (range : list nat) :
  forall (it : option nat) (s : Run),
    let t := trace_of (for_iteration self claude_tools range it s) in
    length (model_calls t) <= length range
    /\ warnings t = []
    /\ Forall (loop_action claude_tools) t.
Proof.
  induction range as [|i rest IH]; intros it s.
  - simpl. repeat split; auto.
  - cbv zeta. rewrite for_iteration_step.
    destruct (iteration_body_shape s) as (t & Ht & Hm & Hw & Hf).
    destruct (iteration_body self claude_tools s) as [[r s1] t1].
    unfold trace_of in Ht. simpl in Ht. subst t1.
    assert (Hone : Forall (loop_action claude_tools) (ModelCall (messages s) claude_tools :: t))
      by (constructor; [reflexivity|assumption]).
    destruct r as [e|[|]]; unfold trace_of; simpl; rewrite ?Hm, ?Hw; simpl.
    + repeat split; [lia|assumption].
    + repeat split; [lia|assumption].
    + specialize (IH (Some i) s1). cbv zeta in IH. unfold trace_of in IH.
      destruct (for_iteration self claude_tools rest (Some i) s1)
        as [[r2 s2] t2]. simpl in *.
      destruct IH as (IH1 & IH2 & IH3).
      rewrite model_calls_app, warnings_app, Hm, Hw, IH2. simpl.
      repeat split; [lia|].
      inversion Hone; subst. constructor; [assumption|].
      apply Forall_app. split; assumption.
Qed.

(** When the loop ends without an exception, [iteration] is bound to a
    value of the range, or is as it was if the range is empty. *)
Lemma for_iteration_result (range : list nat) :
  forall (it : option nat) (s : Run) (r : option nat),
    result_of (for_iteration self claude_tools range it s) = inr r ->
    (range = [] /\ r = it) \/ (exists i, r = Some i /\ In i range).
Proof.
  induction range as [|i rest IH]; intros it s r.
  - simpl. unfold result_of. simpl. intros H. left. split; congruence.
  - intros H. right. rewrite for_iteration_step in H.
    destruct (iteration_body self claude_tools s) as [[[e|[|]] s1] t1];
      unfold result_of in H; simpl in H.
    + discriminate.
    + exists i. split; [congruence|left; reflexivity].
    + specialize (IH (Some i) s1 r). unfold result_of in IH.
      destruct (for_iteration self claude_tools rest (Some i) s1)
        as [[r2 s2] t2]. simpl in *.
      destruct (IH H) as [[-> ->]|(j & -> & Hj)].
      * exists i. split; [reflexivity|left; reflexivity].
      * exists j. split; [reflexivity|right; assumption].
Qed.

(** After the iterations over a range that is not empty, [iteration] is
    bound. *)
Lemma iteration_is_bound (s : Run) :
  result_of (for_iteration self claude_tools (seq 0 max_iterations) None s)
  <> inr None.
Proof.
  intros H. apply for_iteration_result in H.
  destruct H as [[Hn _]|(i & Hi & _)]; discriminate.
Qed.

(** The loop as a whole: the trace of its iterations, and the warning
    after them when [iteration] ends on the last value. *)
Lemma run_agent_loop_unfold (s : Run) :
  _run_agent_loop self claude_tools s
  = match for_iteration self claude_tools (seq 0 max_iterations) None s with
    | (inl e, s1, t1) => (inl e, s1, t1)
    | (inr None, s1, t1) =>
        (inl (UnboundLocalError
                "cannot access local variable 'iteration' where it is not associated with a value"),
         s1, t1 ++ [])
    | (inr (Some i), s1, t1) =>
        if Nat.eqb i (max_iterations - 1)
        then (inr tt, s1,
              t1 ++ [LogWarning "Agent loop reached max iterations"])
        else (inr tt, s1, t1 ++ [])
    end.
Proof.
  unfold _run_agent_loop, bind.
  destruct (for_iteration self claude_tools (seq 0 max_iterations) None s)
    as [[[e|[i|]] s1] t1]; try reflexivity.
  destruct (Nat.eqb i (max_iterations - 1)); reflexivity.
Qed.

(** The loop makes at most [max_iterations] model calls, leaves only loop
    actions, and logs at most the one warning. *)
Lemma run_agent_loop_shape (s : Run) :
  let t := trace_of (_run_agent_loop self claude_tools s) in
  length (model_calls t) <= max_iterations
  /\ Forall (loop_action claude_tools) t
  /\ (warnings t = [] \/ warnings t = ["Agent loop reached max iterations"]).
Proof.
  cbv zeta. rewrite run_agent_loop_unfold.
  pose proof (for_iteration_shape (seq 0 max_iterations) None s) as H.
  cbv zeta in H. rewrite length_seq in H.
  destruct (for_iteration self claude_tools (seq 0 max_iterations) None s)
    as [[r s1] t1]. unfold trace_of in *. simpl in H.
  destruct H as (H1 & H2 & H3).
  destruct r as [e|[i|]].
  - simpl. repeat split; auto.
  - destruct (Nat.eqb i (max_iterations - 1)); simpl;
      rewrite model_calls_app, warnings_app, H2; simpl;
      rewrite app_nil_r; repeat split; auto.
    + apply Forall_app. split; [assumption|].
      constructor; [exact I|constructor].
    + rewrite app_nil_r. assumption.
  - simpl. rewrite app_nil_r. repeat split; auto.
Qed.

End Iteration.

(** ** The adapter, case by case *)

Section Adapter.

Context {C : Collaborators}.

Variable self : MCPClient.
Variable text : string.

Lemma explain_not_ready (w : World) :
  session self = None ->
  explain_research_term_streaming self text w
  = (inr tt, w, [Yield (data (ErrorEvent "MCP server not initialized"))]).
Proof.
  intros Hs. unfold explain_research_term_streaming, try_except.
  rewrite Hs. reflexivity.
Qed.

Lemma explain_list_tools_failure (sess : Session) (w w1 : World)
  (e : Exception) :
  session self = Some sess ->
  list_tools sess w = (inl e, w1) ->
  explain_research_term_streaming self text w
  = (inr tt, w1,
     [ListToolsCall; Yield (data (closing_event (inl e)))]).
Proof.
  intros Hs Hl. unfold explain_research_term_streaming, try_except.
  rewrite Hs. unfold bind at 1, session_list_tools. rewrite Hl. reflexivity.
Qed.

Lemma explain_run (sess : Session) (w w1 : World) (tools : list Tool) :
  session self = Some sess ->
  list_tools sess w = (inr tools, w1) ->
  explain_research_term_streaming self text w
  = (inr tt,
     world (store_of (_run_agent_loop self (map claude_tool tools)
                        (initial_run text w1))),
     ListToolsCall
     :: map (relabel data)
          (trace_of (_run_agent_loop self (map claude_tool tools)
                       (initial_run text w1)))
     ++ [Yield (data (closing_event
                        (result_of (_run_agent_loop self
                                      (map claude_tool tools)
                                      (initial_run text w1)))))]).
Proof.
  intros Hs Hl. unfold explain_research_term_streaming, try_except.
  rewrite Hs. unfold bind at 1, session_list_tools. rewrite Hl.
  unfold bind, with_messages, async_for_yield, yield, act.
  fold (initial_messages text). fold (initial_run text w1).
  destruct (_run_agent_loop self (map claude_tool tools) (initial_run text w1))
    as [[[e|[]] s1] t1]; unfold store_of, trace_of, result_of; simpl.
  - reflexivity.
  - reflexivity.
Qed.

(** The frames of the events of a loop hold no terminal frame. *)
Lemma loop_frames_not_terminal (claude_tools : list ToolParam)
  (t : list (Action AgentEvent)) :
  Forall (loop_action claude_tools) t ->
  forallb (fun f => negb (is_terminal f)) (map data (yields t)) = true.
Proof.
  induction 1 as [|a t Ha Ht IH]; simpl; [reflexivity|].
  destruct a as [y| | | |]; simpl; try assumption.
  destruct y; simpl in *; try assumption; contradiction.
Qed.

End Adapter.

(** ** The properties *)

Lemma model_calls_declarations
  (claude_tools : list ToolParam) (t : list (Action AgentEvent)) :
  Forall (loop_action claude_tools) t ->
  Forall (fun call => snd call = claude_tools) (model_calls t).
Proof.
  induction 1 as [|a t Ha Ht IH]; simpl; [constructor|].
  destruct a; simpl in *; try assumption.
  constructor; assumption.
Qed.

Lemma not_terminal_not_error (l : list Frame) :
  forallb (fun f => negb (is_terminal f)) l = true ->
  existsb is_error l = false.
Proof.
  induction l as [|f l IH]; simpl; [reflexivity|].
  intros H. apply andb_true_iff in H. destruct H as [Hf Hl].
  rewrite (IH Hl), orb_false_r.
  destruct f as [[]]; simpl in *; congruence.
Qed.

(** C2: for every run, the agent loop makes at most ten model calls, one
    per iteration, however often the model asks for tools; so does the
    streaming request that runs the loop. *)
Theorem agent_loop_bounded {C : Collaborators} (self : MCPClient) :
  (forall claude_tools s,
      length (model_calls (trace_of (_run_agent_loop self claude_tools s)))
      <= 10)
  /\ (forall text w,
         length (model_calls
                   (trace_of (explain_research_term_streaming self text w)))
         <= 10).
Proof.
  split.
  - intros claude_tools s.
    apply (run_agent_loop_shape self claude_tools s).
  - intros text w. destruct (session self) as [sess|] eqn:Hs.
    + destruct (list_tools sess w) as [[e|tools] w1] eqn:Hl.
      * rewrite (explain_list_tools_failure self text w Hs Hl). simpl. lia.
      * rewrite (explain_run self text w Hs Hl). unfold trace_of at 1. simpl.
        rewrite model_calls_app, model_calls_relabel. simpl.
        rewrite app_nil_r.
        apply (run_agent_loop_shape self (map claude_tool tools)
                 (initial_run text w1)).
    + rewrite (explain_not_ready self text w Hs). simpl. lia.
Qed.

(** The first iteration ends the loop when the response holds no tool
    use. *)
Lemma run_agent_loop_no_tool_use {C : Collaborators} (self : MCPClient)
  (claude_tools : list ToolParam) (s : Run) (response : list ContentBlock)
  (w1 : World) :
  messages_create (messages s) claude_tools (world s) = (inr response, w1) ->
  tool_uses_of response = [] ->
  _run_agent_loop self claude_tools s
  = (inr tt,
     {| world := w1; messages := messages s ++ [assistant_message response] |},
     ModelCall (messages s) claude_tools
     :: map Yield (map TextEvent (texts_of_response response))).
Proof.
  intros H Hn. rewrite run_agent_loop_unfold.
  change (seq 0 max_iterations) with (0 :: seq 1 9).
  rewrite for_iteration_step, (iteration_body_break self _ _ H Hn).
  rewrite (block_events_no_tool_use _ Hn).
  cbn [Nat.eqb max_iterations Nat.sub]. rewrite app_nil_r. reflexivity.
Qed.

(** C4: when the first model response holds no tool use, the loop yields
    exactly the text events of that response, in its order, and ends: one
    model call, no tool call, no exception, the assistant message appended.
    With a response of no block at all it yields nothing. *)
Theorem no_tool_use_run {C : Collaborators} (self : MCPClient)
  (claude_tools : list ToolParam) (s : Run) (response : list ContentBlock)
  (w1 : World) :
  messages_create (messages s) claude_tools (world s) = (inr response, w1) ->
  tool_uses_of response = [] ->
  result_of (_run_agent_loop self claude_tools s) = inr tt
  /\ yields (trace_of (_run_agent_loop self claude_tools s))
     = map TextEvent (texts_of_response response)
  /\ tool_calls (trace_of (_run_agent_loop self claude_tools s)) = []
  /\ model_calls (trace_of (_run_agent_loop self claude_tools s))
     = [(messages s, claude_tools)]
  /\ messages (store_of (_run_agent_loop self claude_tools s))
     = messages s ++ [assistant_message response]
  /\ (response = [] ->
      yields (trace_of (_run_agent_loop self claude_tools s)) = []).
Proof.
  intros H Hn. rewrite (run_agent_loop_no_tool_use self _ _ H Hn).
  unfold result_of, trace_of, store_of. simpl.
  rewrite yields_map_Yield, tool_calls_map_Yield, model_calls_map_Yield.
  repeat split. intros ->. reflexivity.
Qed.

(** A model that answers at once with two text blocks. *)
Lemma no_tool_use_run_witness :
  let C := Scripted.collaborators Scripted.answering in
  let self : @MCPClient C := Scripted.ready Scripted.answering in
  let s : @Run C := @initial_run C "transformer" (0, 0) in
  let response := [TextBlock "A transformer is"; TextBlock " a model."] in
  (@messages_create C (messages s) [] (world s) = (inr response, (1, 0))
   /\ tool_uses_of response = [])
  /\ result_of (_run_agent_loop self [] s) = inr tt
  /\ yields (trace_of (_run_agent_loop self [] s))
     = [TextEvent "A transformer is"; TextEvent " a model."].
Proof.
  cbv zeta. split; [split; reflexivity|].
  pose proof
    (@no_tool_use_run (Scripted.collaborators Scripted.answering)
       (Scripted.ready Scripted.answering) []
       (@initial_run (Scripted.collaborators Scripted.answering)
          "transformer" (0, 0))
       [TextBlock "A transformer is"; TextBlock " a model."] (1, 0)
       eq_refl eq_refl) as H.
  split; [apply H|]. exact (proj1 (proj2 H)).
Defined.

(** C8: the conversion of a provider tool to the model's declaration
    keeps its name, its input schema and its description as they are, so
    the declarations come in the order and number of the tools listed; and
    every model call of a run is given that one list of declarations. *)
Theorem tool_declarations_preserved {C : Collaborators} :
  (forall tool : Tool,
      p_name (claude_tool tool) = name tool
      /\ p_input_schema (claude_tool tool) = inputSchema tool
      /\ p_description (claude_tool tool) = description tool)
  /\ (forall tools : list Tool,
         map p_name (map claude_tool tools) = map name tools
         /\ map p_input_schema (map claude_tool tools)
            = map inputSchema tools)
  /\ (forall (self : MCPClient) (claude_tools : list ToolParam) (s : Run),
         Forall (fun call => snd call = claude_tools)
           (model_calls (trace_of (_run_agent_loop self claude_tools s))))
  /\ (forall (self : MCPClient) (text : string) (w w1 : World)
        (sess : Session) (tools : list Tool),
         session self = Some sess ->
         list_tools sess w = (inr tools, w1) ->
         Forall (fun call => snd call = map claude_tool tools)
           (model_calls
              (trace_of (explain_research_term_streaming self text w)))).
Proof.
  split; [|split; [|split]].
  - intros tool. repeat split.
  - intros tools. rewrite !map_map. split; reflexivity.
  - intros self claude_tools s. apply model_calls_declarations.
    apply (run_agent_loop_shape self claude_tools s).
  - intros self text w w1 sess tools Hs Hl.
    rewrite (explain_run self text w Hs Hl). unfold trace_of at 1. simpl.
    rewrite model_calls_app, model_calls_relabel. simpl. rewrite app_nil_r.
    apply model_calls_declarations.
    apply (run_agent_loop_shape self (map claude_tool tools)
             (initial_run text w1)).
Qed.

(** The declarations of a run that searches once. *)
Lemma tool_declarations_preserved_witness :
  let C := Scripted.collaborators Scripted.searching in
  let self : @MCPClient C := Scripted.ready Scripted.searching in
  (session self = Some tt
   /\ @list_tools C tt (0, 0) = (inr [Scripted.search_papers], (0, 0)))
  /\ Forall (fun call => snd call = map claude_tool [Scripted.search_papers])
       (model_calls
          (trace_of
             (@explain_research_term_streaming C self "transformer" (0, 0)))).
Proof.
  cbv zeta. split; [split; reflexivity|].
  exact (proj2 (proj2 (proj2
    (@tool_declarations_preserved
       (Scripted.collaborators Scripted.searching))))
    (Scripted.ready Scripted.searching) "transformer" (0, 0) (0, 0) tt
    [Scripted.search_papers] eq_refl eq_refl).
Defined.

(** The frames of a request: nothing but the error frame without a
    session or when the listing fails, else the frames of the loop's
    events and one closing frame. *)
Lemma explain_frames {C : Collaborators} (self : MCPClient) (text : string)
  (w : World) :
  result_of (explain_research_term_streaming self text w) = inr tt
  /\ exists body last,
      frames_of (explain_research_term_streaming self text w)
      = body ++ [last]
      /\ is_terminal last = true
      /\ forallb (fun f => negb (is_terminal f)) body = true.
Proof.
  destruct (session self) as [sess|] eqn:Hs.
  - destruct (list_tools sess w) as [[e|tools] w1] eqn:Hl.
    + rewrite (explain_list_tools_failure self text w Hs Hl).
      split; [reflexivity|].
      exists [], (data (closing_event (inl e))). repeat split.
    + rewrite (explain_run self text w Hs Hl).
      split; [reflexivity|].
      unfold frames_of, trace_of at 1. simpl.
      rewrite yields_app, yields_relabel. simpl.
      eexists _, _. split; [reflexivity|]. split.
      * destruct (result_of _) as [e|[]]; reflexivity.
      * apply (loop_frames_not_terminal (claude_tools := map claude_tool tools)).
        apply (run_agent_loop_shape self (map claude_tool tools)
                 (initial_run text w1)).
  - rewrite (explain_not_ready self text w Hs).
    split; [reflexivity|].
    exists [], (data (ErrorEvent "MCP server not initialized")).
    repeat split.
Qed.

(** C6: a request never ends in an exception, and its frames end with
    exactly one terminal frame, [done] or [error], with no terminal frame
    before it.  When the loop raises (a model call or a tool call failed)
    the frames are those of the events yielded up to then and one error
    frame that carries the text of the exception; when the listing of the
    tools raises, the error frame alone. *)
Theorem stream_ends_with_one_terminal_frame {C : Collaborators}
  (self : MCPClient) (text : string) (w : World) :
  result_of (explain_research_term_streaming self text w) = inr tt
  /\ (exists body last,
         frames_of (explain_research_term_streaming self text w)
         = body ++ [last]
         /\ is_terminal last = true
         /\ forallb (fun f => negb (is_terminal f)) body = true)
  /\ (forall (sess : Session) (tools : list Tool) (w1 : World)
        (e : Exception),
         session self = Some sess ->
         list_tools sess w = (inr tools, w1) ->
         result_of (_run_agent_loop self (map claude_tool tools)
                      (initial_run text w1)) = inl e ->
         frames_of (explain_research_term_streaming self text w)
         = map data
             (yields (trace_of (_run_agent_loop self (map claude_tool tools)
                                  (initial_run text w1))))
           ++ [data (ErrorEvent ("Error processing request: " ++ str e))])
  /\ (forall (sess : Session) (w1 : World) (e : Exception),
         session self = Some sess ->
         list_tools sess w = (inl e, w1) ->
         frames_of (explain_research_term_streaming self text w)
         = [data (ErrorEvent ("Error processing request: " ++ str e))]).
Proof.
  destruct (explain_frames self text w) as [Hr Hf].
  split; [exact Hr|]. split; [exact Hf|]. split.
  - intros sess tools w1 e Hs Hl He.
    rewrite (explain_run self text w Hs Hl).
    unfold frames_of, trace_of at 1. simpl.
    rewrite yields_app, yields_relabel, He. reflexivity.
  - intros sess w1 e Hs Hl.
    rewrite (explain_list_tools_failure self text w Hs Hl). reflexivity.
Qed.

(** A run whose first tool call fails: two tool-use frames, then the
    error frame. *)
Lemma stream_ends_with_one_terminal_frame_witness :
  let C := Scripted.collaborators Scripted.failing_tool in
  let self : @MCPClient C := Scripted.ready Scripted.failing_tool in
  (session self = Some tt
   /\ @list_tools C tt (0, 0) = (inr [Scripted.search_papers], (0, 0))
   /\ result_of (@_run_agent_loop C self
                   (map claude_tool [Scripted.search_papers])
                   (@initial_run C "transformer" (0, 0)))
      = inl (Scripted.ConnectionError "provider gone"))
  /\ frames_of (@explain_research_term_streaming C self "transformer" (0, 0))
     = [data (ToolUseEvent "search_papers"
                (JObj [("keyword", JStr "transformer")]));
        data (ToolUseEvent "search_papers"
                (JObj [("keyword", JStr "attention")]));
        data (ErrorEvent "Error processing request: provider gone")].
Proof.
  cbv zeta. split; [repeat split|].
  exact (proj1 (proj2 (proj2
    (@stream_ends_with_one_terminal_frame
       (Scripted.collaborators Scripted.failing_tool)
       (Scripted.ready Scripted.failing_tool) "transformer" (0, 0))))
    tt [Scripted.search_papers] (0, 0)
    (Scripted.ConnectionError "provider gone") eq_refl eq_refl eq_refl).
Defined.

(** After a stop that completes, the session and the readiness event are
    cleared and the task, if there is one, is done. *)
Lemma stop_completes {C : Collaborators} (settle : Outcome)
  (self self' : MCPClient) :
  stop_mcp_server settle self = (inr tt, self') ->
  session self' = None
  /\ session_ready self' = None
  /\ (server_task self' = None \/ exists o, server_task self' = Some (Done o)).
Proof.
  unfold stop_mcp_server. destruct (server_task self) as [t|].
  - destruct (await (cancel t) settle) as [| |e] eqn:Ho; intros H;
      inversion H; subst; simpl; repeat split; right; eexists; reflexivity.
  - intros H. inversion H; subst. simpl. repeat split. left. reflexivity.
Qed.


(** A second stop after one that completed completes too and changes
    nothing. *)
Lemma stop_twice {C : Collaborators} (settle settle2 : Outcome)
  (self self' : MCPClient) :
  stop_mcp_server settle self = (inr tt, self') ->
  stop_mcp_server settle2 self' = (inr tt, self').
Proof.
  unfold stop_mcp_server at 1. destruct (server_task self) as [t|].
  - destruct (await (cancel t) settle) as [| |e] eqn:Ho; intros H;
      inversion H; subst; reflexivity.
  - intros H. inversion H; subst. reflexivity.
Qed.

(** A start whose background task has stored the session and then hangs
    in [initialize] fails on the timeout and leaves the session field set;
    a request on that client passes the guard, lists the tools and runs
    the loop. *)
Lemma request_after_failed_start :
  let C := Scripted.collaborators Scripted.searching in
  let server : Z -> @ServerProgress C := fun _ => @Initializing C tt in
  let self := snd (@start_mcp_server C server init) in
  let stream := @explain_research_term_streaming C self "transformer" (0, 0) in
  fst (@start_mcp_server C server init)
  = inl (RuntimeError "Failed to start MCP server")
  /\ session self = Some tt
  /\ existsb is_list_tools (trace_of stream) = true
  /\ length (model_calls (trace_of stream)) = 2
  /\ frames_of stream
     = [data (ToolUseEvent "search_papers"
                (JObj [("keyword", JStr "transformer")]));
        data (ToolResultEvent "search_papers"
                "Found 2 papers: Attention is All You Need; BERT");
        data (TextEvent "A transformer is a model.");
        data DoneEvent]
  /\ ~ requests_outside_service_are_refused.
Proof.
  cbv zeta. split; [reflexivity|]. split; [reflexivity|].
  split; [vm_compute; reflexivity|]. split; [vm_compute; reflexivity|].
  split; [vm_compute; reflexivity|].
  intros H.
  specialize (H (Scripted.collaborators Scripted.searching)
                (snd (@start_mcp_server
                        (Scripted.collaborators Scripted.searching)
                        (fun _ => @Initializing
                           (Scripted.collaborators Scripted.searching) tt)
                        init))
                "transformer" (0, 0)).
  assert (Hf : frames_of
                 (@explain_research_term_streaming
                    (Scripted.collaborators Scripted.searching)
                    (snd (@start_mcp_server
                            (Scripted.collaborators Scripted.searching)
                            (fun _ => @Initializing
                               (Scripted.collaborators Scripted.searching) tt)
                            init))
                    "transformer" (0, 0))
               = [data (ErrorEvent "MCP server not initialized")]).
  { rewrite H; [reflexivity|].
    right. right.
    exists (fun _ => @Initializing
                       (Scripted.collaborators Scripted.searching) tt).
    eexists. reflexivity. }
  vm_compute in Hf. discriminate.
Qed.

(** C10, amended: after a stop that completes the session field is
    [None], as it is on a client just constructed and on one whose start
    failed before the background task stored a session; every request
    then yields the one frame that says the server is not initialized,
    makes no call and leaves the world as it was; a further stop changes
    nothing. *)
Theorem requests_after_teardown {C : Collaborators} (settle : Outcome)
  (self self' : MCPClient) :
  stop_mcp_server settle self = (inr tt, self') ->
  session self' = None
  /\ (forall (text : string) (w : World),
         explain_research_term_streaming self' text w
         = (inr tt, w,
            [Yield (data (ErrorEvent "MCP server not initialized"))]))
  /\ (forall (text : string) (w : World),
         explain_research_term_streaming init text w
         = (inr tt, w,
            [Yield (data (ErrorEvent "MCP server not initialized"))]))
  /\ (forall (server : Z -> ServerProgress) (text : string) (w : World),
         (server startup_timeout = Connecting
          \/ exists e, server startup_timeout = ConnectFailed e) ->
         session (snd (start_mcp_server server init)) = None
         /\ explain_research_term_streaming
              (snd (start_mcp_server server init)) text w
            = (inr tt, w,
               [Yield (data (ErrorEvent "MCP server not initialized"))]))
  /\ (forall settle2 : Outcome,
         stop_mcp_server settle2 self' = (inr tt, self')).
Proof.
  intros H. destruct (stop_completes _ _ H) as (Hs & _ & _).
  split; [exact Hs|]. split; [|split; [|split]].
  - intros text w. apply explain_not_ready. exact Hs.
  - intros text w. apply explain_not_ready. reflexivity.
  - intros server text w Hp.
    assert (Hn : session (snd (start_mcp_server server init)) = None).
    { unfold start_mcp_server.
      destruct Hp as [Hp|[e Hp]]; rewrite Hp; reflexivity. }
    split; [exact Hn|]. apply explain_not_ready. exact Hn.
  - intros settle2. apply (stop_twice _ settle2 _ H).
Qed.

(** A client that was ready, stopped, then asked. *)
Lemma requests_after_teardown_witness :
  let C := Scripted.collaborators Scripted.searching in
  let self : @MCPClient C := Scripted.ready Scripted.searching in
  let stopped : @MCPClient C :=
    @Build_MCPClient C None (Some (Done Cancelled)) None in
  stop_mcp_server Cancelled self = (inr tt, stopped)
  /\ frames_of
       (@explain_research_term_streaming C stopped "transformer" (0, 0))
     = [data (ErrorEvent "MCP server not initialized")].
Proof.
  cbv zeta. split; [reflexivity|].
  rewrite (proj1 (proj2
    (@requests_after_teardown
       (Scripted.collaborators Scripted.searching) Cancelled
       (Scripted.ready Scripted.searching)
       (@Build_MCPClient (Scripted.collaborators Scripted.searching)
          None (Some (Done Cancelled)) None)
       eq_refl)) "transformer" (0, 0)).
  reflexivity.
Defined.




(** ** Runs that reach the bound *)

Lemma last_cons {A : Type} (l : list A) (a d : A) :
  last (a :: l) d = last l a.
Proof.
  revert a d. induction l as [|b l IH]; intros a d; [reflexivity|].
  change (last (a :: b :: l) d) with (last (b :: l) d).
  rewrite (IH b d), (IH b a). reflexivity.
Qed.

Lemma for_iteration_never_breaks {C : Collaborators} (self : MCPClient)
  (claude_tools : list ToolParam) (range : list nat) :
  forall (it : option nat) (s : Run),
    never_breaks self claude_tools (length range) s = true ->
    result_of (for_iteration self claude_tools range it s)
    = inr (last (map Some range) it)
    /\ length (model_calls
                 (trace_of (for_iteration self claude_tools range it s)))
       = length range.
Proof.
  induction range as [|i rest IH]; intros it s H.
  - split; reflexivity.
  - rewrite for_iteration_step.
    destruct (iteration_body_shape self claude_tools s)
      as (t & Ht & Hm & _ & _).
    cbn [length never_breaks] in H.
    destruct (iteration_body self claude_tools s) as [[[e|[|]] s1] t1];
      try discriminate.
    unfold trace_of in Ht. simpl in Ht. subst t1.
    destruct (IH (Some i) s1 H) as [IH1 IH2].
    destruct (for_iteration self claude_tools rest (Some i) s1)
      as [[r2 s2] t2].
    unfold result_of, trace_of in *. simpl in *.
    rewrite model_calls_app, Hm. simpl. rewrite IH1, IH2.
    split; [|reflexivity].
    rewrite <- (last_cons (map Some rest) (Some i) it). reflexivity.
Qed.

(** The loop on a run that reaches the bound: it ends without an
    exception after [max_iterations] model calls and logs the warning. *)
Lemma run_agent_loop_bound {C : Collaborators} (self : MCPClient)
  (claude_tools : list ToolParam) (s : Run) :
  never_breaks self claude_tools max_iterations s = true ->
  result_of (_run_agent_loop self claude_tools s) = inr tt
  /\ length (model_calls (trace_of (_run_agent_loop self claude_tools s)))
     = max_iterations
  /\ warnings (trace_of (_run_agent_loop self claude_tools s))
     = ["Agent loop reached max iterations"].
Proof.
  intros H. rewrite run_agent_loop_unfold.
  assert (Hlen : length (seq 0 max_iterations) = max_iterations)
    by apply length_seq.
  rewrite <- Hlen in H.
  destruct (for_iteration_never_breaks self claude_tools
              (seq 0 max_iterations) None s H) as [Hr Hm].
  destruct (for_iteration_shape self claude_tools (seq 0 max_iterations)
              None s) as (_ & Hw & _).
  rewrite Hlen in Hm.
  destruct (for_iteration self claude_tools (seq 0 max_iterations) None s)
    as [[r s1] t1].
  unfold result_of, trace_of in *. simpl in Hr, Hm, Hw. subst r.
  change (Nat.eqb 9 (max_iterations - 1)) with true. cbn [fst snd].
  rewrite model_calls_app, warnings_app, Hw, length_app, Hm.
  repeat split.
Qed.

(** With a model that asks for a search in every response the run reaches
    the bound, and its last frame is the [done] frame. *)
Lemma bound_run_ends_with_done :
  let C := Scripted.collaborators Scripted.persistent in
  let self : @MCPClient C := Scripted.ready Scripted.persistent in
  let stream := @explain_research_term_streaming C self "transformer" (0, 0) in
  never_breaks self (map claude_tool [Scripted.search_papers]) max_iterations
    (@initial_run C "transformer" (0, 0)) = true
  /\ length (model_calls (trace_of stream)) = 10
  /\ last (frames_of stream) (data (TextEvent EmptyString)) = data DoneEvent
  /\ existsb is_done (frames_of stream) = true
  /\ ~ bound_run_ends_without_done.
Proof.
  cbv zeta. split; [vm_compute; reflexivity|].
  split; [vm_compute; reflexivity|].
  split; [vm_compute; reflexivity|].
  split; [vm_compute; reflexivity|].
  intros H.
  specialize (H (Scripted.collaborators Scripted.persistent)
                (Scripted.ready Scripted.persistent) "transformer"
                (0, 0) (0, 0) tt [Scripted.search_papers]
                eq_refl eq_refl).
  destruct H as [_ H]; [vm_compute; reflexivity|].
  vm_compute in H. discriminate.
Qed.

(** C3, amended: on a run that reaches the bound the loop ends without an
    exception after ten model calls and logs the warning; the request
    yields no error frame, and its frames are those of the events the loop
    yielded followed by the [done] frame. *)
Theorem bound_reached_run {C : Collaborators} (self : MCPClient)
  (text : string) (w w1 : World) (sess : Session) (tools : list Tool) :
  session self = Some sess ->
  list_tools sess w = (inr tools, w1) ->
  never_breaks self (map claude_tool tools) max_iterations
    (initial_run text w1) = true ->
  result_of (_run_agent_loop self (map claude_tool tools) (initial_run text w1))
  = inr tt
  /\ length (model_calls
               (trace_of (explain_research_term_streaming self text w)))
     = max_iterations
  /\ warnings (trace_of (explain_research_term_streaming self text w))
     = ["Agent loop reached max iterations"]
  /\ result_of (explain_research_term_streaming self text w) = inr tt
  /\ frames_of (explain_research_term_streaming self text w)
     = map data
         (yields (trace_of (_run_agent_loop self (map claude_tool tools)
                              (initial_run text w1))))
       ++ [data DoneEvent]
  /\ existsb is_error (frames_of (explain_research_term_streaming self text w))
     = false.
Proof.
  intros Hs Hl Hb.
  destruct (run_agent_loop_bound self (map claude_tool tools)
              (initial_run text w1) Hb) as (Hr & Hm & Hw).
  pose proof (run_agent_loop_shape self (map claude_tool tools)
                (initial_run text w1)) as Hshape.
  cbv zeta in Hshape. destruct Hshape as (_ & Hf & _).
  pose proof (not_terminal_not_error _ (loop_frames_not_terminal Hf)) as He.
  rewrite (explain_run self text w Hs Hl).
  unfold frames_of, result_of, trace_of in *. cbn [fst snd] in *.
  rewrite Hr. cbn [closing_event model_calls warnings yields].
  rewrite !model_calls_app, !warnings_app, !yields_app,
    model_calls_relabel, warnings_relabel, yields_relabel, Hw.
  cbn [model_calls warnings yields app length].
  rewrite existsb_app, He, !app_nil_r, Hm.
  repeat split.
Qed.

(** The run of the model that asks for a search in every response. *)
Lemma bound_reached_run_witness :
  let C := Scripted.collaborators Scripted.persistent in
  let self : @MCPClient C := Scripted.ready Scripted.persistent in
  let stream := @explain_research_term_streaming C self "transformer" (0, 0) in
  (session self = Some tt
   /\ @list_tools C tt (0, 0) = (inr [Scripted.search_papers], (0, 0))
   /\ never_breaks self (map claude_tool [Scripted.search_papers])
        max_iterations (@initial_run C "transformer" (0, 0)) = true)
  /\ warnings (trace_of stream) = ["Agent loop reached max iterations"]
  /\ existsb is_error (frames_of stream) = false.
Proof.
  cbv zeta.
  assert (Hb : never_breaks (Scripted.ready Scripted.persistent)
                 (map claude_tool [Scripted.search_papers]) max_iterations
                 (@initial_run (Scripted.collaborators Scripted.persistent)
                    "transformer" (0, 0)) = true)
    by (vm_compute; reflexivity).
  split; [repeat split; exact Hb|].
  pose proof
    (@bound_reached_run (Scripted.collaborators Scripted.persistent)
       (Scripted.ready Scripted.persistent) "transformer" (0, 0) (0, 0) tt
       [Scripted.search_papers] eq_refl eq_refl Hb)
    as (_ & _ & Hw & _ & _ & He).
  split; [exact Hw|exact He].
Defined.

(** ** Tool uses and their results *)

Lemma combine_fst {A B : Type} (l : list A) :
  forall l' : list B, length l' = length l -> map fst (combine l l') = l.
Proof.
  induction l as [|a l IH]; intros l' H; [reflexivity|].
  destruct l' as [|b l']; simpl in *; [discriminate|].
  rewrite IH by lia. reflexivity.
Qed.

Lemma result_events_names (tool_uses : list ToolUseBlock)
  (answers : list (list McpContent)) :
  length answers = length tool_uses ->
  map fst (map result_event (combine tool_uses answers))
  = map tu_name tool_uses.
Proof.
  intros H. rewrite map_map.
  rewrite <- (combine_fst tool_uses answers H) at 2.
  rewrite map_map. reflexivity.
Qed.

Lemma result_blocks_ids (tool_uses : list ToolUseBlock) :
  forall answers : list (list McpContent),
    length answers = length tool_uses ->
    tool_use_ids (map result_block (combine tool_uses answers))
    = map tu_id tool_uses.
Proof.
  induction tool_uses as [|b rest IH]; intros answers H; [reflexivity|].
  destruct answers as [|a answers]; simpl in *; [discriminate|].
  rewrite IH by lia. reflexivity.
Qed.

(** Two iterations that do otherwise.  A response without a tool use ends
    the loop: the conversation gains the assistant message only.  A
    response with two tool uses whose first call fails: two tool-use
    events, no tool-result event, and again the assistant message only. *)
Lemma some_response_is_not_answered :
  (let C := Scripted.collaborators Scripted.answering in
   let self : @MCPClient C := Scripted.ready Scripted.answering in
   let it := @iteration_body C self [] (@initial_run C "transformer" (0, 0)) in
   result_of it = inr true
   /\ map role (messages (store_of it)) = [user; assistant])
  /\ (let C := Scripted.collaborators Scripted.failing_tool in
      let self : @MCPClient C := Scripted.ready Scripted.failing_tool in
      let it :=
        @iteration_body C self [] (@initial_run C "transformer" (0, 0)) in
      result_of it = inl (Scripted.ConnectionError "provider gone")
      /\ length (tool_use_events (yields (trace_of it))) = 2
      /\ length (tool_result_events (yields (trace_of it))) = 0
      /\ map role (messages (store_of it)) = [user; assistant])
  /\ ~ every_response_is_answered.
Proof.
  split; [vm_compute; repeat split|].
  split; [vm_compute; repeat split|].
  intros H.
  specialize (H (Scripted.collaborators Scripted.answering)
                (Scripted.ready Scripted.answering) []
                (@initial_run (Scripted.collaborators Scripted.answering)
                   "transformer" (0, 0))
                _ _ eq_refl).
  cbv zeta in H. destruct H as (_ & _ & a & u & H & _).
  apply (f_equal (@length Message)) in H. vm_compute in H. discriminate.
Qed.

(** C1, amended: in an iteration whose model call returns a response with
    N tool uses and which does not raise, the tools are called one after
    the other in the order of the tool uses, each result event yielded
    before the next call; N tool-result events are yielded, named as the N
    tool-use events are and in their order.  With N = 0 the iteration ends
    the loop and the conversation gains the assistant message only; with
    N >= 1 the loop goes on and the conversation gains the assistant
    message and then one user message with the N tool results, their ids
    in the order of the tool uses. *)
Theorem iteration_answers_tool_uses {C : Collaborators} (self : MCPClient)
  (claude_tools : list ToolParam) (s : Run) (response : list ContentBlock)
  (w1 : World) (break : bool) :
  messages_create (messages s) claude_tools (world s) = (inr response, w1) ->
  result_of (iteration_body self claude_tools s) = inr break ->
  let it := iteration_body self claude_tools s in
  let tool_uses := tool_uses_of response in
  exists answers : list (list McpContent),
    length answers = length tool_uses
    /\ trace_of it
       = ModelCall (messages s) claude_tools
         :: map Yield (block_events response) ++ tool_trace tool_uses answers
    /\ length (tool_result_events (yields (trace_of it))) = length tool_uses
    /\ map fst (tool_result_events (yields (trace_of it)))
       = map tu_name tool_uses
    /\ map fst (tool_use_events (yields (trace_of it)))
       = map tu_name tool_uses
    /\ tool_calls (trace_of it)
       = map (fun b => (tu_name b, tu_input b)) tool_uses
    /\ (tool_uses = [] ->
        break = true
        /\ messages (store_of it) = messages s ++ [assistant_message response])
    /\ (tool_uses <> [] ->
        break = false
        /\ messages (store_of it)
           = messages s
             ++ [assistant_message response; user_message tool_uses answers]
        /\ tool_use_ids (map result_block (combine tool_uses answers))
           = map tu_id tool_uses).
Proof.
  intros H Hr. cbv zeta.
  assert (Hfacts : forall answers : list (list McpContent),
    length answers = length (tool_uses_of response) ->
    let t := ModelCall (messages s) claude_tools
             :: map Yield (block_events response)
             ++ tool_trace (tool_uses_of response) answers in
    length (tool_result_events (yields t)) = length (tool_uses_of response)
    /\ map fst (tool_result_events (yields t))
       = map tu_name (tool_uses_of response)
    /\ map fst (tool_use_events (yields t))
       = map tu_name (tool_uses_of response)
    /\ tool_calls t
       = map (fun b => (tu_name b, tu_input b)) (tool_uses_of response)).
  { intros answers Hlen. cbv zeta. cbn [yields tool_calls].
    rewrite yields_app, tool_calls_app, yields_map_Yield,
      tool_calls_map_Yield, tool_result_events_app, tool_use_events_app,
      block_events_tool_results, block_events_tool_uses,
      tool_trace_result_events, tool_trace_use_events, app_nil_r.
    cbn [app]. rewrite (tool_trace_calls_all _ _ Hlen).
    rewrite (result_events_names _ _ Hlen), map_map.
    rewrite length_map, length_combine, Hlen, Nat.min_id.
    repeat split. }
  destruct (tool_uses_of response) as [|b rest] eqn:Htu.
  - rewrite (iteration_body_break self _ _ H Htu) in *.
    unfold result_of, trace_of, store_of in *. cbn [fst snd] in *.
    exists []. specialize (Hfacts [] eq_refl). cbv zeta in Hfacts.
    cbn [tool_trace] in *. rewrite app_nil_r in Hfacts.
    rewrite app_nil_r.
    destruct Hfacts as (F1 & F2 & F3 & F4).
    repeat split; try assumption; try congruence.
  - assert (Hn : tool_uses_of response <> []) by congruence.
    destruct (session self) as [sess|] eqn:Hs.
    + rewrite (iteration_body_tools self _ _ H Hn Hs) in *.
      rewrite Htu in *.
      unfold result_of, trace_of, store_of in *. cbn [fst snd] in *.
      destruct (provider_run_length sess (b :: rest) w1) as [_ Hlen].
      destruct (failure_of sess (b :: rest) w1) as [e|]; [discriminate|].
      assert (Hl : length (answers_of sess (b :: rest) w1)
                   = length (b :: rest)) by (apply Hlen; reflexivity).
      exists (answers_of sess (b :: rest) w1).
      specialize (Hfacts _ Hl). cbv zeta in Hfacts.
      destruct Hfacts as (F1 & F2 & F3 & F4).
      repeat split; try assumption; try congruence.
      apply result_blocks_ids. exact Hl.
    + rewrite (iteration_body_no_session self _ _ H Hn Hs) in Hr.
      discriminate.
Qed.

(** The first iteration of a run that searches once. *)
Lemma iteration_answers_tool_uses_witness :
  let C := Scripted.collaborators Scripted.searching in
  let self : @MCPClient C := Scripted.ready Scripted.searching in
  let s : @Run C := @initial_run C "transformer" (0, 0) in
  let it := @iteration_body C self [] s in
  (@messages_create C (messages s) [] (world s)
   = (inr [ToolUse (Scripted.search "toolu_1" "transformer")], (1, 0))
   /\ result_of it = inr false)
  /\ exists answers : list (list McpContent),
      length answers = 1
      /\ messages (store_of it)
         = messages s
           ++ [assistant_message
                 [ToolUse (Scripted.search "toolu_1" "transformer")];
               user_message [Scripted.search "toolu_1" "transformer"] answers].
Proof.
  cbv zeta. split; [split; reflexivity|].
  destruct
    (@iteration_answers_tool_uses
       (Scripted.collaborators Scripted.searching)
       (Scripted.ready Scripted.searching) []
       (@initial_run (Scripted.collaborators Scripted.searching)
          "transformer" (0, 0))
       [ToolUse (Scripted.search "toolu_1" "transformer")] (1, 0) false
       eq_refl eq_refl)
    as (answers & Hlen & _ & _ & _ & _ & _ & _ & Hm).
  exists answers. split; [exact Hlen|].
  apply Hm. discriminate.
Defined.

(** C5: the text the loop builds from a tool result is the concatenation,
    in order, of its text-bearing parts, the empty string when there is
    none.  In an iteration, every tool call that returns gives a
    tool-result event with that content; when all the calls return the
    iteration goes on, and the user message it appends holds the
    tool-result blocks with that content.  The next iteration then calls
    the model with the conversation so extended. *)
Theorem tool_result_content {C : Collaborators} :
  (forall content : list McpContent,
      result_text_of content = concatenation (text_parts content))
  /\ (forall content : list McpContent,
         text_parts content = [] -> result_text_of content = EmptyString)
  /\ (forall (self : MCPClient) (sess : Session)
        (claude_tools : list ToolParam) (s : Run)
        (response : list ContentBlock) (w1 : World),
         session self = Some sess ->
         messages_create (messages s) claude_tools (world s)
         = (inr response, w1) ->
         let tool_uses := tool_uses_of response in
         let answers := answers_of sess tool_uses w1 in
         let it := iteration_body self claude_tools s in
         tool_result_events (yields (trace_of it))
         = map (fun p => (tu_name (fst p), concatenation (text_parts (snd p))))
             (combine tool_uses answers)
         /\ (tool_uses <> [] ->
             failure_of sess tool_uses w1 = None ->
             length answers = length tool_uses
             /\ result_of it = inr false
             /\ messages (store_of it)
                = messages s
                  ++ [assistant_message response;
                      {| role := user;
                         content :=
                           Blocks
                             (map (fun p =>
                                     ToolResult (tu_id (fst p))
                                       (concatenation (text_parts (snd p))))
                                (combine tool_uses answers)) |}]))
  /\ (forall (self : MCPClient) (claude_tools : list ToolParam)
        (i j : nat) (rest : list nat) (it : option nat) (s s1 : Run)
        (t1 : list (Action AgentEvent)),
         iteration_body self claude_tools s = (inr false, s1, t1) ->
         exists t2,
           trace_of (for_iteration self claude_tools (i :: j :: rest) it s)
           = t1 ++ ModelCall (messages s1) claude_tools :: t2).
Proof.
  split; [exact result_text_of_concatenation|].
  split; [|split].
  - intros content H. rewrite result_text_of_concatenation, H. reflexivity.
  - intros self sess claude_tools s response w1 Hs H. cbv zeta.
    assert (Hev : forall l : list (ToolUseBlock * list McpContent),
               map result_event l
               = map (fun p => (tu_name (fst p),
                                concatenation (text_parts (snd p)))) l).
    { intros l. apply map_ext. intros p. unfold result_event.
      rewrite result_text_of_concatenation. reflexivity. }
    assert (Hbl : forall l : list (ToolUseBlock * list McpContent),
               map result_block l
               = map (fun p => ToolResult (tu_id (fst p))
                                 (concatenation (text_parts (snd p)))) l).
    { intros l. apply map_ext. intros p. unfold result_block.
      rewrite result_text_of_concatenation. reflexivity. }
    destruct (tool_uses_of response) as [|b rest] eqn:Htu.
    + rewrite (iteration_body_break self _ _ H Htu).
      unfold trace_of. cbn [snd yields].
      rewrite yields_map_Yield, block_events_tool_results.
      split; [reflexivity|]. intros Hne. contradiction.
    + assert (Hn : tool_uses_of response <> []) by congruence.
      rewrite (iteration_body_tools self _ _ H Hn Hs). rewrite Htu.
      unfold result_of, trace_of, store_of. cbn [fst snd yields].
      rewrite yields_app, yields_map_Yield, tool_result_events_app,
        block_events_tool_results, tool_trace_result_events, Hev.
      split; [reflexivity|]. intros _ Hfail.
      destruct (provider_run_length sess (b :: rest) w1) as [_ Hlen].
      rewrite Hfail. unfold user_message. rewrite Hbl.
      split; [apply Hlen; exact Hfail|]. split; reflexivity.
  - intros self claude_tools i j rest it s s1 t1 H.
    rewrite for_iteration_step, H, for_iteration_step.
    destruct (iteration_body_shape self claude_tools s1)
      as (t & Ht & _).
    destruct (iteration_body self claude_tools s1) as [[r s2] t2].
    unfold trace_of in Ht. cbn [snd] in Ht. subst t2.
    destruct r as [e|[|]].
    + eexists. reflexivity.
    + eexists. reflexivity.
    + destruct (for_iteration self claude_tools rest (Some j) s2)
        as [[r3 s3] t3].
      unfold trace_of. cbn [snd]. eexists. reflexivity.
Qed.

(** A search that the provider answers with no part. *)
Lemma tool_result_content_witness :
  let C := Scripted.collaborators Scripted.empty_result in
  let self : @MCPClient C := Scripted.ready Scripted.empty_result in
  let s : @Run C := @initial_run C "transformer" (0, 0) in
  let response := [ToolUse (Scripted.search "toolu_1" "transformer")] in
  let it := @iteration_body C self [] s in
  (session self = Some tt
   /\ @messages_create C (messages s) [] (world s) = (inr response, (1, 0))
   /\ tool_uses_of response <> []
   /\ @failure_of C tt (tool_uses_of response) (1, 0) = None
   /\ @text_parts [] = [])
  /\ result_text_of [] = EmptyString
  /\ tool_result_events (yields (trace_of it))
     = [("search_papers", EmptyString)]
  /\ result_of it = inr false
  /\ messages (store_of it)
     = messages s
       ++ [assistant_message response;
           {| role := user;
              content := Blocks [ToolResult "toolu_1" EmptyString] |}].
Proof.
  cbv zeta.
  assert (Hne : tool_uses_of
                  [ToolUse (Scripted.search "toolu_1" "transformer")] <> [])
    by discriminate.
  split; [repeat split; exact Hne|].
  pose proof (@tool_result_content
                (Scripted.collaborators Scripted.empty_result))
    as (_ & Hempty & Hit & _).
  split; [exact (Hempty [] eq_refl)|].
  destruct (Hit (Scripted.ready Scripted.empty_result) tt []
              (@initial_run (Scripted.collaborators Scripted.empty_result)
                 "transformer" (0, 0))
              [ToolUse (Scripted.search "toolu_1" "transformer")] (1, 0)
              eq_refl eq_refl) as [Hev Hgo].
  split; [exact Hev|].
  destruct (Hgo Hne eq_refl) as (_ & Hr & Hm).
  split; [exact Hr|exact Hm].
Defined.

(** ** Scenarios *)

(** The model searches once and then explains: a tool-use frame, the
    tool-result frame with the text parts of the answer, the text frame
    and the [done] frame. *)
Example scenario_search_then_explain :
  frames_of
    (@explain_research_term_streaming
       (Scripted.collaborators Scripted.searching)
       (Scripted.ready Scripted.searching) "transformer" (0, 0))
  = [data (ToolUseEvent "search_papers"
             (JObj [("keyword", JStr "transformer")]));
     data (ToolResultEvent "search_papers"
             "Found 2 papers: Attention is All You Need; BERT");
     data (TextEvent "A transformer is a model.");
     data DoneEvent].
Proof. vm_compute. reflexivity. Qed.

(** The model call fails: the error frame alone. *)
Example scenario_model_failure :
  frames_of
    (@explain_research_term_streaming
       (Scripted.collaborators Scripted.failing_model)
       (Scripted.ready Scripted.failing_model) "transformer" (0, 0))
  = [data (ErrorEvent "Error processing request: model unreachable")].
Proof. vm_compute. reflexivity. Qed.

(** The model never stops asking: ten model calls, ten tool calls, the
    warning, the [done] frame last. *)
Example scenario_persistent_model :
  let stream :=
    @explain_research_term_streaming
      (Scripted.collaborators Scripted.persistent)
      (Scripted.ready Scripted.persistent) "transformer" (0, 0) in
  length (model_calls (trace_of stream)) = 10
  /\ length (tool_calls (trace_of stream)) = 10
  /\ warnings (trace_of stream) = ["Agent loop reached max iterations"]
  /\ length (frames_of stream) = 31.
Proof. vm_compute. repeat split. Qed.

(** The tool result has no text part: the tool-result frame carries the
    empty string and the run goes on to the explanation. *)
Example scenario_empty_tool_result :
  frames_of
    (@explain_research_term_streaming
       (Scripted.collaborators Scripted.empty_result)
       (Scripted.ready Scripted.empty_result) "transformer" (0, 0))
  = [data (ToolUseEvent "search_papers"
             (JObj [("keyword", JStr "transformer")]));
     data (ToolResultEvent "search_papers" EmptyString);
     data (TextEvent "Nothing found.");
     data DoneEvent].
Proof. vm_compute. reflexivity. Qed.

(** ** The run as a whole *)

(** The calls of the tool loop are those for a first part of the tool
    uses, and its result events are named as the calls are, the last call
    left out when it failed. *)
Lemma tool_trace_calls_prefix (tool_uses : list ToolUseBlock) :
  forall answers : list (list McpContent),
    exists rest,
      map (fun b => (tu_name b, tu_input b)) tool_uses
      = tool_calls (tool_trace tool_uses answers) ++ rest.
Proof.
  induction tool_uses as [|b tus IH]; intros answers; simpl.
  - exists []. reflexivity.
  - destruct answers as [|a answers]; simpl.
    + eexists. reflexivity.
    + destruct (IH answers) as [rest Hrest]. exists rest.
      rewrite Hrest. reflexivity.
Qed.

Lemma tool_trace_results_prefix (tool_uses : list ToolUseBlock) :
  forall answers : list (list McpContent),
    exists rest,
      map fst (tool_calls (tool_trace tool_uses answers))
      = map fst (tool_result_events (yields (tool_trace tool_uses answers)))
        ++ rest
      /\ length rest <= 1.
Proof.
  induction tool_uses as [|b tus IH]; intros answers; simpl.
  - exists []. split; [reflexivity|simpl; lia].
  - destruct answers as [|a answers]; simpl.
    + exists [tu_name b]. split; [reflexivity|simpl; lia].
    + destruct (IH answers) as (rest & Hrest & Hlen). exists rest.
      rewrite Hrest. split; [reflexivity|exact Hlen].
Qed.

Lemma model_calls_cons {Y : Type} (m : list Message) (d : list ToolParam)
  (t : list (Action Y)) :
  model_calls (ModelCall m d :: t) = (m, d) :: model_calls t.
Proof. reflexivity. Qed.

Lemma model_calls_cons_other {Y : Type} (t : list (Action Y)) :
  model_calls (ListToolsCall :: t) = model_calls t.
Proof. reflexivity. Qed.

Section WholeRun.

Context {C : Collaborators}.

Variable self : MCPClient.
Variable claude_tools : list ToolParam.

(** What an iteration adds to the conversation. *)
Lemma iteration_body_messages (s : Run) :
  (result_of (iteration_body self claude_tools s) = inr false ->
   exists a u,
     messages (store_of (iteration_body self claude_tools s))
     = messages s ++ [a; u]
     /\ role a = assistant /\ role u = user)
  /\ (result_of (iteration_body self claude_tools s) <> inr false ->
      messages (store_of (iteration_body self claude_tools s)) = messages s
      \/ exists a,
          messages (store_of (iteration_body self claude_tools s))
          = messages s ++ [a]
          /\ role a = assistant).
Proof.
  destruct (messages_create (messages s) claude_tools (world s))
    as [[e|response] w1] eqn:H.
  - rewrite (iteration_body_model_failure self _ _ H).
    unfold result_of, store_of. simpl. split; [discriminate|].
    intros _. left. reflexivity.
  - destruct (tool_uses_of response) as [|b rest] eqn:Htu.
    + rewrite (iteration_body_break self _ _ H Htu).
      unfold result_of, store_of. simpl. split; [discriminate|].
      intros _. right. eexists. split; reflexivity.
    + assert (Hn : tool_uses_of response <> []) by congruence.
      destruct (session self) as [sess|] eqn:Hs.
      * rewrite (iteration_body_tools self _ _ H Hn Hs).
        unfold result_of, store_of. cbn [fst snd messages].
        destruct (failure_of sess (tool_uses_of response) w1) as [e|].
        -- split; [discriminate|]. intros _. right.
           eexists. split; reflexivity.
        -- split; [|congruence]. intros _.
           eexists _, _. split; [reflexivity|]. split; reflexivity.
      * rewrite (iteration_body_no_session self _ _ H Hn Hs).
        unfold result_of, store_of. simpl. split; [discriminate|].
        intros _. right. eexists. split; reflexivity.
Qed.

(** The tool calls of an iteration against its events. *)
Lemma iteration_body_tool_calls (s : Run) :
  (exists rest,
      tool_use_events (yields (trace_of (iteration_body self claude_tools s)))
      = tool_calls (trace_of (iteration_body self claude_tools s)) ++ rest)
  /\ (exists rest,
         map fst (tool_calls (trace_of (iteration_body self claude_tools s)))
         = map fst
             (tool_result_events
                (yields (trace_of (iteration_body self claude_tools s))))
           ++ rest
         /\ length rest <= 1)
  /\ (forall b : bool,
         result_of (iteration_body self claude_tools s) = inr b ->
         tool_use_events
           (yields (trace_of (iteration_body self claude_tools s)))
         = tool_calls (trace_of (iteration_body self claude_tools s))
         /\ map fst
              (tool_calls (trace_of (iteration_body self claude_tools s)))
            = map fst
                (tool_result_events
                   (yields (trace_of (iteration_body self claude_tools s))))).
Proof.
  assert (Hblocks : forall (response : list ContentBlock),
    tool_use_events (yields (map Yield (block_events response)))
    = map (fun b => (tu_name b, tu_input b)) (tool_uses_of response)
    /\ tool_calls (map (@Yield AgentEvent) (block_events response)) = []
    /\ tool_result_events (yields (map Yield (block_events response))) = []).
  { intros response.
    rewrite yields_map_Yield, tool_calls_map_Yield, block_events_tool_uses,
      block_events_tool_results. repeat split. }
  destruct (messages_create (messages s) claude_tools (world s))
    as [[e|response] w1] eqn:H.
  - rewrite (iteration_body_model_failure self _ _ H).
    unfold result_of, trace_of. simpl.
    split; [exists []; reflexivity|].
    split; [exists []; split; [reflexivity|simpl; lia]|]. discriminate.
  - destruct (Hblocks response) as (B1 & B2 & B3).
    destruct (tool_uses_of response) as [|b rest] eqn:Htu.
    + rewrite (iteration_body_break self _ _ H Htu).
      unfold result_of, trace_of. cbn [fst snd yields tool_calls].
      rewrite B1, B2, B3. simpl.
      split; [exists []; reflexivity|].
      split; [exists []; split; [reflexivity|simpl; lia]|].
      intros _ _. split; reflexivity.
    + assert (Hn : tool_uses_of response <> []) by congruence.
      destruct (session self) as [sess|] eqn:Hs.
      * rewrite (iteration_body_tools self _ _ H Hn Hs).
        unfold result_of, trace_of. cbn [fst snd yields tool_calls].
        rewrite yields_app, tool_calls_app, tool_use_events_app,
          tool_result_events_app, B1, B2, B3, tool_trace_use_events,
          app_nil_r, Htu.
        cbn [app].
        set (answers := answers_of sess (b :: rest) w1).
        split; [apply tool_trace_calls_prefix|].
        split; [apply tool_trace_results_prefix|].
        intros brk Hr.
        destruct (provider_run_length sess (b :: rest) w1) as [_ Hlen].
        destruct (failure_of sess (b :: rest) w1) as [e|]; [discriminate|].
        assert (Hl : length answers = length (b :: rest))
          by (apply Hlen; reflexivity).
        rewrite (tool_trace_calls_all _ _ Hl), tool_trace_result_events,
          (result_events_names _ _ Hl), map_map.
        split; reflexivity.
      * rewrite (iteration_body_no_session self _ _ H Hn Hs).
        unfold result_of, trace_of. cbn [fst snd yields tool_calls].
        rewrite B1, B2, B3. simpl.
        split; [eexists; reflexivity|].
        split; [exists []; split; [reflexivity|simpl; lia]|]. discriminate.
Qed.

Lemma alternating_pair (a u : Message) (l : list Message) :
  role a = assistant -> role u = user ->
  alternating assistant (a :: u :: l) = alternating assistant l.
Proof. intros Ha Hu. simpl. rewrite Ha, Hu. reflexivity. Qed.

(** The iterations only add to the conversation, an assistant message and
    a user message in turn, at most two for each model call. *)
Lemma for_iteration_messages (range : list nat) :
  forall (it : option nat) (s : Run),
    exists added,
      messages (store_of (for_iteration self claude_tools range it s))
      = messages s ++ added
      /\ alternating assistant added = true
      /\ length added
         <= 2 * length (model_calls
                          (trace_of (for_iteration self claude_tools
                                       range it s))).
Proof.
  induction range as [|i rest IH]; intros it s.
  - exists []. simpl. rewrite app_nil_r. repeat split. lia.
  - rewrite for_iteration_step.
    destruct (iteration_body_messages s) as [Hgo Hstop].
    destruct (iteration_body_shape self claude_tools s)
      as (t & Ht & Hm & _ & _).
    destruct (iteration_body self claude_tools s) as [[r s1] t1].
    unfold result_of, store_of, trace_of in *. cbn [fst snd] in *. subst t1.
    assert (Hend : r <> inr false ->
              exists added,
                messages s1 = messages s ++ added
                /\ alternating assistant added = true
                /\ length added <= 2).
    { intros Hr. destruct (Hstop Hr) as [Hs1|(a & Hs1 & Ha)].
      - exists []. rewrite app_nil_r. repeat split; [assumption|simpl; lia].
      - exists [a]. split; [assumption|]. simpl. rewrite Ha.
        split; [reflexivity|lia]. }
    destruct r as [e|[|]]; cbn [fst snd]; rewrite ?app_comm_cons, ?model_calls_app, ?model_calls_cons, ?Hm.
    + destruct Hend as (added & H1 & H2 & H3); [discriminate|].
      exists added. repeat split; try assumption; simpl; lia.
    + destruct Hend as (added & H1 & H2 & H3); [discriminate|].
      exists added. repeat split; try assumption; simpl; lia.
    + destruct (Hgo eq_refl) as (a & u & Hs1 & Ha & Hu).
      destruct (IH (Some i) s1) as (added & H1 & H2 & H3).
      destruct (for_iteration self claude_tools rest (Some i) s1)
        as [[r2 s2] t2]. cbn [fst snd] in *.
      exists (a :: u :: added). split; [|split].
      * rewrite H1, Hs1, <- app_assoc. reflexivity.
      * rewrite alternating_pair by assumption. exact H2.
      * rewrite ?model_calls_app, ?model_calls_cons, ?Hm. simpl in *. lia.
Qed.

(** The model calls of the iterations: the first is given the conversation
    as it is, each later one the conversation of the call before it and
    two more messages. *)
Lemma for_iteration_model_calls (range : list nat) :
  forall (it : option nat) (s : Run),
    match range with
    | [] =>
        model_calls (trace_of (for_iteration self claude_tools range it s))
        = []
    | _ :: _ =>
        exists calls,
          model_calls (trace_of (for_iteration self claude_tools range it s))
          = (messages s, claude_tools) :: calls
          /\ grows (messages s) calls
    end.
Proof.
  induction range as [|i rest IH]; intros it s; [reflexivity|].
  rewrite for_iteration_step.
  destruct (iteration_body_messages s) as [Hgo _].
  destruct (iteration_body_shape self claude_tools s)
    as (t & Ht & Hm & _ & _).
  destruct (iteration_body self claude_tools s) as [[r s1] t1].
  unfold result_of, store_of, trace_of in *. cbn [fst snd] in *. subst t1.
  destruct r as [e|[|]]; cbn [fst snd]; rewrite ?app_comm_cons, ?model_calls_app, ?model_calls_cons, ?Hm.
  - exists []. split; [reflexivity|exact I].
  - exists []. split; [reflexivity|exact I].
  - destruct (Hgo eq_refl) as (a & u & Hs1 & Ha & Hu).
    specialize (IH (Some i) s1).
    destruct (for_iteration self claude_tools rest (Some i) s1)
      as [[r2 s2] t2]. cbn [fst snd] in *.
    rewrite ?model_calls_app, ?model_calls_cons, ?Hm. cbn [app].
    destruct rest as [|j rest].
    + rewrite IH. exists []. split; [reflexivity|exact I].
    + destruct IH as (calls & Hc & Hg). rewrite Hc.
      exists ((messages s1, claude_tools) :: calls).
      split; [reflexivity|]. cbn [grows]. split; [|exact Hg].
      exists a, u. repeat split; assumption.
Qed.

(** The tool calls of the iterations against their events. *)
Lemma for_iteration_tool_calls (range : list nat) :
  forall (it : option nat) (s : Run),
    (exists rest,
        tool_use_events
          (yields (trace_of (for_iteration self claude_tools range it s)))
        = tool_calls (trace_of (for_iteration self claude_tools range it s))
          ++ rest)
    /\ (exists rest,
           map fst
             (tool_calls (trace_of (for_iteration self claude_tools
                                      range it s)))
           = map fst
               (tool_result_events
                  (yields (trace_of (for_iteration self claude_tools
                                       range it s))))
             ++ rest
           /\ length rest <= 1)
    /\ (forall v : option nat,
           result_of (for_iteration self claude_tools range it s) = inr v ->
           tool_use_events
             (yields (trace_of (for_iteration self claude_tools range it s)))
           = tool_calls (trace_of (for_iteration self claude_tools
                                     range it s))
           /\ map fst
                (tool_calls (trace_of (for_iteration self claude_tools
                                         range it s)))
              = map fst
                  (tool_result_events
                     (yields (trace_of (for_iteration self claude_tools
                                          range it s))))).
Proof.
  induction range as [|i rest IH]; intros it s.
  - simpl. split; [exists []; reflexivity|].
    split; [exists []; split; [reflexivity|simpl; lia]|].
    intros _ _. split; reflexivity.
  - rewrite for_iteration_step.
    destruct (iteration_body_tool_calls s) as (P1 & P2 & P3).
    destruct (iteration_body self claude_tools s) as [[r s1] t1].
    unfold result_of, trace_of in *. cbn [fst snd] in *.
    destruct r as [e|[|]]; cbn [fst snd].
    + split; [exact P1|]. split; [exact P2|]. discriminate.
    + split; [exact P1|]. split; [exact P2|].
      intros v _. apply (P3 true). reflexivity.
    + destruct (P3 false eq_refl) as [U1 U2].
      destruct (IH (Some i) s1) as (Q1 & Q2 & Q3).
      destruct (for_iteration self claude_tools rest (Some i) s1)
        as [[r2 s2] t2]. cbn [fst snd] in *.
      rewrite yields_app, tool_calls_app, tool_use_events_app,
        tool_result_events_app, !map_app, U1, U2.
      split; [|split].
      * destruct Q1 as [more Q1]. exists more.
        rewrite Q1, app_assoc. reflexivity.
      * destruct Q2 as (more & Q2 & Hlen). exists more.
        rewrite Q2, app_assoc. split; [reflexivity|exact Hlen].
      * intros v Hv. destruct (Q3 v Hv) as [V1 V2].
        rewrite V1, V2. split; reflexivity.
Qed.

(** How many model calls the iterations over [a, a + n) have made when
    they end with [iteration] bound to [i]. *)
Lemma for_iteration_count (n : nat) :
  forall (a : nat) (it : option nat) (s : Run) (r : option nat),
    n <> 0 ->
    result_of (for_iteration self claude_tools (seq a n) it s) = inr r ->
    exists i,
      r = Some i /\ a <= i < a + n
      /\ length (model_calls
                   (trace_of (for_iteration self claude_tools (seq a n) it s)))
         = S i - a.
Proof.
  induction n as [|n IH]; intros a it s r Hn; [congruence|].
  cbn [seq]. rewrite for_iteration_step.
  destruct (iteration_body_shape self claude_tools s)
    as (t & Ht & Hm & _ & _).
  destruct (iteration_body self claude_tools s) as [[r1 s1] t1].
  unfold result_of, trace_of in *. cbn [fst snd] in *. subst t1.
  destruct r1 as [e|[|]]; cbn [fst snd]; rewrite ?app_comm_cons, ?model_calls_app, ?model_calls_cons, ?Hm.
  - discriminate.
  - intros Hr. exists a. split; [congruence|]. split; [lia|].
    cbn [length]. lia.
  - destruct n as [|n].
    + cbn [seq for_iteration]. unfold ret. cbn [fst snd].
      intros Hr. exists a. split; [congruence|]. split; [lia|].
      rewrite ?model_calls_app, ?model_calls_cons, ?Hm. cbn [app length model_calls]. lia.
    + specialize (IH (S a) (Some a) s1).
      destruct (for_iteration self claude_tools (seq (S a) (S n)) (Some a) s1)
        as [[r2 s2] t2]. cbn [fst snd] in *.
      intros Hr. destruct (IH r ltac:(discriminate) Hr) as (i & Hi & Hb & Hc).
      exists i. split; [exact Hi|]. split; [lia|].
      rewrite ?model_calls_app, ?model_calls_cons, ?Hm. cbn [app length]. rewrite Hc. lia.
Qed.

End WholeRun.

(** The loop against its iterations: the same store, the same events and
    calls; the warning is all the loop adds. *)
Lemma run_agent_loop_iterations {C : Collaborators} (self : MCPClient)
  (claude_tools : list ToolParam) (s : Run) :
  store_of (_run_agent_loop self claude_tools s)
  = store_of (for_iteration self claude_tools (seq 0 max_iterations) None s)
  /\ yields (trace_of (_run_agent_loop self claude_tools s))
     = yields (trace_of (for_iteration self claude_tools
                           (seq 0 max_iterations) None s))
  /\ model_calls (trace_of (_run_agent_loop self claude_tools s))
     = model_calls (trace_of (for_iteration self claude_tools
                                (seq 0 max_iterations) None s))
  /\ tool_calls (trace_of (_run_agent_loop self claude_tools s))
     = tool_calls (trace_of (for_iteration self claude_tools
                               (seq 0 max_iterations) None s))
  /\ (result_of (_run_agent_loop self claude_tools s) = inr tt ->
      exists i,
        result_of (for_iteration self claude_tools
                     (seq 0 max_iterations) None s) = inr (Some i)
        /\ warnings (trace_of (_run_agent_loop self claude_tools s))
           = if Nat.eqb i (max_iterations - 1)
             then ["Agent loop reached max iterations"] else [])
  /\ (forall e,
         result_of (_run_agent_loop self claude_tools s) = inl e ->
         warnings (trace_of (_run_agent_loop self claude_tools s)) = []).
Proof.
  rewrite run_agent_loop_unfold.
  destruct (for_iteration_shape self claude_tools (seq 0 max_iterations)
              None s) as (_ & Hw & _).
  destruct (for_iteration self claude_tools (seq 0 max_iterations) None s)
    as [[r s1] t1].
  unfold result_of, store_of, trace_of in *. cbn [fst snd] in *.
  destruct r as [e|[i|]]; cbn [fst snd].
  - repeat split; try discriminate. intros e' _. exact Hw.
  - destruct (Nat.eqb i (max_iterations - 1)) eqn:E; cbn [fst snd];
      rewrite yields_app, model_calls_app, tool_calls_app, warnings_app, Hw;
      cbn [yields model_calls tool_calls warnings app];
      rewrite !app_nil_r; repeat split; try discriminate;
      intros _; exists i; rewrite E; split; reflexivity.
  - rewrite yields_app, model_calls_app, tool_calls_app, warnings_app, Hw.
    cbn [yields model_calls tool_calls warnings app].
    rewrite !app_nil_r. repeat split; try discriminate.
Qed.

(** X1: the loop only appends to the conversation.  Whatever the model
    and the tools answer, and also when the run raises, the conversation
    it leaves is the one it was given followed by the messages added, an
    assistant message and a user message in turn, the first an assistant
    message, at most two for each model call made and twenty in all. *)
Theorem conversation_only_grows {C : Collaborators} (self : MCPClient)
  (claude_tools : list ToolParam) (s : Run) :
  exists added : list Message,
    messages (store_of (_run_agent_loop self claude_tools s))
    = messages s ++ added
    /\ alternating assistant added = true
    /\ length added
       <= 2 * length (model_calls
                        (trace_of (_run_agent_loop self claude_tools s)))
    /\ length added <= 20.
Proof.
  destruct (run_agent_loop_iterations self claude_tools s)
    as (Hs & _ & Hm & _).
  destruct (for_iteration_messages self claude_tools
              (seq 0 max_iterations) None s) as (added & H1 & H2 & H3).
  pose proof (run_agent_loop_shape self claude_tools s) as Hshape.
  cbv zeta in Hshape. destruct Hshape as (Hle & _).
  exists added. rewrite Hs, Hm. split; [exact H1|]. split; [exact H2|].
  split; [exact H3|]. rewrite <- Hm in H3. unfold max_iterations in Hle. lia.
Qed.

(** X2: the model is always given the whole conversation so far.  The
    first model call of the loop gets the conversation the loop was
    started on, and each later call the conversation of the call before
    it with exactly one assistant message and one user message added;
    every call gets the same tool declarations.  In a request, the first
    call gets the single user message with the prompt. *)
Theorem model_sees_growing_conversation {C : Collaborators}
  (self : MCPClient) :
  (forall (claude_tools : list ToolParam) (s : Run),
      exists calls,
        model_calls (trace_of (_run_agent_loop self claude_tools s))
        = (messages s, claude_tools) :: calls
        /\ grows (messages s) calls)
  /\ (forall (text : string) (w w1 : World) (sess : Session)
        (tools : list Tool),
         session self = Some sess ->
         list_tools sess w = (inr tools, w1) ->
         exists calls,
           model_calls
             (trace_of (explain_research_term_streaming self text w))
           = ([ {| role := user; content := Prompt (initial_prompt text) |} ],
              map claude_tool tools) :: calls
           /\ grows
                [ {| role := user; content := Prompt (initial_prompt text) |} ]
                calls).
Proof.
  assert (Hloop : forall (claude_tools : list ToolParam) (s : Run),
            exists calls,
              model_calls (trace_of (_run_agent_loop self claude_tools s))
              = (messages s, claude_tools) :: calls
              /\ grows (messages s) calls).
  { intros claude_tools s.
    destruct (run_agent_loop_iterations self claude_tools s)
      as (_ & _ & Hm & _).
    rewrite Hm.
    exact (for_iteration_model_calls self claude_tools
             (seq 0 max_iterations) None s). }
  split; [exact Hloop|].
  intros text w w1 sess tools Hs Hl.
  rewrite (explain_run self text w Hs Hl). unfold trace_of at 1. cbn [snd].
  rewrite model_calls_cons_other, model_calls_app, model_calls_relabel.
  cbn [model_calls]. rewrite app_nil_r.
  exact (Hloop (map claude_tool tools) (initial_run text w1)).
Qed.

(** A run that searches once: the second model call gets the prompt, the
    assistant message and the user message with the tool result. *)
Lemma model_sees_growing_conversation_witness :
  let C := Scripted.collaborators Scripted.searching in
  let self : @MCPClient C := Scripted.ready Scripted.searching in
  (session self = Some tt
   /\ @list_tools C tt (0, 0) = (inr [Scripted.search_papers], (0, 0)))
  /\ exists calls,
      model_calls
        (trace_of
           (@explain_research_term_streaming C self "transformer" (0, 0)))
      = ([ {| role := user;
              content := Prompt (initial_prompt "transformer") |} ],
         map claude_tool [Scripted.search_papers]) :: calls
      /\ grows
           [ {| role := user;
                content := Prompt (initial_prompt "transformer") |} ]
           calls.
Proof.
  cbv zeta. split; [split; reflexivity|].
  exact (proj2 (@model_sees_growing_conversation
                  (Scripted.collaborators Scripted.searching)
                  (Scripted.ready Scripted.searching))
           "transformer" (0, 0) (0, 0) tt [Scripted.search_papers]
           eq_refl eq_refl).
Defined.

(** X3: the loop calls no tool the model did not ask for.  In every run,
    also one that raises, the tool calls made are, name and input, the
    first of the tool-use events yielded, in their order, and the
    tool-result events are named as the first of the tool calls are, at
    most the last call being without a result.  When the run ends without
    an exception every tool use yielded was called and every call has its
    result event. *)
Theorem tools_called_as_requested {C : Collaborators} (self : MCPClient)
  (claude_tools : list ToolParam) (s : Run) :
  (exists rest,
      tool_use_events (yields (trace_of (_run_agent_loop self claude_tools s)))
      = tool_calls (trace_of (_run_agent_loop self claude_tools s)) ++ rest)
  /\ (exists rest,
         map fst (tool_calls (trace_of (_run_agent_loop self claude_tools s)))
         = map fst
             (tool_result_events
                (yields (trace_of (_run_agent_loop self claude_tools s))))
           ++ rest
         /\ length rest <= 1)
  /\ (result_of (_run_agent_loop self claude_tools s) = inr tt ->
      tool_calls (trace_of (_run_agent_loop self claude_tools s))
      = tool_use_events
          (yields (trace_of (_run_agent_loop self claude_tools s)))
      /\ map fst
           (tool_result_events
              (yields (trace_of (_run_agent_loop self claude_tools s))))
         = map fst
             (tool_use_events
                (yields (trace_of (_run_agent_loop self claude_tools s))))).
Proof.
  destruct (run_agent_loop_iterations self claude_tools s)
    as (_ & Hy & _ & Ht & Hr & _).
  destruct (for_iteration_tool_calls self claude_tools
              (seq 0 max_iterations) None s) as (P1 & P2 & P3).
  rewrite Hy, Ht. split; [exact P1|]. split; [exact P2|].
  intros Hok. destruct (Hr Hok) as (i & Hi & _).
  destruct (P3 (Some i) Hi) as [U1 U2].
  rewrite U1. split; [reflexivity|]. rewrite U2. reflexivity.
Qed.

(** A run that searches once and ends: one tool use, one call, one
    result. *)
Lemma tools_called_as_requested_witness :
  let C := Scripted.collaborators Scripted.searching in
  let self : @MCPClient C := Scripted.ready Scripted.searching in
  let run := @_run_agent_loop C self [] (@initial_run C "transformer" (0, 0)) in
  result_of run = inr tt
  /\ tool_calls (trace_of run) = tool_use_events (yields (trace_of run))
  /\ tool_calls (trace_of run)
     = [("search_papers", JObj [("keyword", JStr "transformer")])].
Proof.
  cbv zeta. split; [vm_compute; reflexivity|].
  split; [|vm_compute; reflexivity].
  exact (proj1 (proj2 (proj2
    (@tools_called_as_requested
       (Scripted.collaborators Scripted.searching)
       (Scripted.ready Scripted.searching) []
       (@initial_run (Scripted.collaborators Scripted.searching)
          "transformer" (0, 0)))) eq_refl)).
Defined.

(** X4: the warning counts model calls, not unanswered tool uses.  A run
    of the loop that ends without an exception logs the warning exactly
    when it made ten model calls, so also when the model gave its final
    answer in the tenth response; a run that raises never logs it. *)
Theorem warning_iff_ten_model_calls {C : Collaborators} (self : MCPClient)
  (claude_tools : list ToolParam) (s : Run) :
  (result_of (_run_agent_loop self claude_tools s) = inr tt ->
   (warnings (trace_of (_run_agent_loop self claude_tools s))
    = ["Agent loop reached max iterations"]
    <-> length (model_calls (trace_of (_run_agent_loop self claude_tools s)))
        = 10)
   /\ (warnings (trace_of (_run_agent_loop self claude_tools s)) = []
       <-> length (model_calls
                     (trace_of (_run_agent_loop self claude_tools s)))
           < 10))
  /\ (forall e : Exception,
         result_of (_run_agent_loop self claude_tools s) = inl e ->
         warnings (trace_of (_run_agent_loop self claude_tools s)) = []).
Proof.
  destruct (run_agent_loop_iterations self claude_tools s)
    as (_ & _ & Hm & _ & Hr & He).
  split; [|exact He].
  intros Hok. destruct (Hr Hok) as (i & Hi & Hw).
  destruct (for_iteration_count self claude_tools (n := max_iterations)
              0 None s ltac:(discriminate) Hi) as (j & Hj & Hb & Hc).
  assert (Hji : j = i) by congruence. subst j.
  rewrite Hm, Hc. clear Hr He Hm Hc Hi Hok. revert Hw.
  generalize (warnings (trace_of (_run_agent_loop self claude_tools s))).
  intros logged Hw. subst logged. unfold max_iterations in *.
  destruct (Nat.eqb i (10 - 1)) eqn:E.
  - apply Nat.eqb_eq in E. repeat split; intros; try lia; try reflexivity.
    discriminate.
  - apply Nat.eqb_neq in E. repeat split; intros; try lia; try reflexivity.
    discriminate.
Qed.

(** The model that answers in its tenth response: the run ends with the
    text and the [done] frame, and the warning is logged. *)
Lemma warning_iff_ten_model_calls_witness :
  let C := Scripted.collaborators late_answer in
  let self : @MCPClient C := Scripted.ready late_answer in
  let run := @_run_agent_loop C self [] (@initial_run C "transformer" (0, 0)) in
  result_of run = inr tt
  /\ length (model_calls (trace_of run)) = 10
  /\ last (yields (trace_of run)) DoneEvent
     = TextEvent "A transformer is a model."
  /\ warnings (trace_of run) = ["Agent loop reached max iterations"].
Proof.
  cbv zeta.
  split; [vm_compute; reflexivity|].
  split; [vm_compute; reflexivity|].
  split; [vm_compute; reflexivity|].
  apply (proj2 (proj1 (proj1 (@warning_iff_ten_model_calls
                  (Scripted.collaborators late_answer)
                  (Scripted.ready late_answer) []
                  (@initial_run (Scripted.collaborators late_answer)
                     "transformer" (0, 0)))
           ltac:(vm_compute; reflexivity)))).
  vm_compute. reflexivity.
Defined.

(** ** Requests and the session *)

Lemma loop_actions_no_listing (claude_tools : list ToolParam)
  (t : list (Action AgentEvent)) :
  Forall (loop_action claude_tools) t ->
  existsb is_list_tools (map (relabel data) t) = false.
Proof.
  induction 1 as [|a t Ha Ht IH]; simpl; [reflexivity|].
  destruct a; simpl in *; try assumption. contradiction.
Qed.

Lemma loop_frames_no_error (claude_tools : list ToolParam)
  (t : list (Action AgentEvent)) (msg : string) :
  Forall (loop_action claude_tools) t ->
  ~ In (data (ErrorEvent msg)) (map data (yields t)).
Proof.
  induction 1 as [|a t Ha Ht IH]; simpl; [tauto|].
  destruct a as [y| | | |]; simpl in *; try assumption.
  intros [H|H]; [|exact (IH H)].
  destruct y; simpl in *; try discriminate; contradiction.
Qed.

(** X5: the tools are listed once for a request, before anything else.
    With a session in place the first thing a request does is to list the
    tools, and it never lists them again, however many iterations the
    loop makes and however the run ends. *)
Theorem tools_listed_once_first {C : Collaborators} (self : MCPClient)
  (text : string) (w : World) (sess : Session) :
  session self = Some sess ->
  exists t,
    trace_of (explain_research_term_streaming self text w)
    = ListToolsCall :: t
    /\ existsb is_list_tools t = false.
Proof.
  intros Hs. destruct (list_tools sess w) as [[e|tools] w1] eqn:Hl.
  - rewrite (explain_list_tools_failure self text w Hs Hl).
    eexists. split; reflexivity.
  - rewrite (explain_run self text w Hs Hl). unfold trace_of at 1. cbn [snd].
    eexists. split; [reflexivity|].
    rewrite existsb_app. cbn [existsb is_list_tools]. rewrite !orb_false_r.
    apply (loop_actions_no_listing (claude_tools := map claude_tool tools)).
    apply (run_agent_loop_shape self (map claude_tool tools)
             (initial_run text w1)).
Qed.

(** The ten iterations of the persistent model, one listing. *)
Lemma tools_listed_once_first_witness :
  let C := Scripted.collaborators Scripted.persistent in
  let self : @MCPClient C := Scripted.ready Scripted.persistent in
  session self = Some tt
  /\ exists t,
      trace_of (@explain_research_term_streaming C self "transformer" (0, 0))
      = ListToolsCall :: t
      /\ existsb is_list_tools t = false.
Proof.
  cbv zeta. split; [reflexivity|].
  exact (@tools_listed_once_first
           (Scripted.collaborators Scripted.persistent)
           (Scripted.ready Scripted.persistent) "transformer" (0, 0) tt
           eq_refl).
Defined.

(** With a session a request never yields the frame that says the server
    is not initialized. *)
Lemma session_frames {C : Collaborators} (self : MCPClient) (text : string)
  (w : World) (sess : Session) :
  session self = Some sess ->
  ~ In (data (ErrorEvent "MCP server not initialized"))
      (frames_of (explain_research_term_streaming self text w)).
Proof.
  intros Hs Hin.
  destruct (list_tools sess w) as [[e|tools] w1] eqn:Hl.
  - rewrite (explain_list_tools_failure self text w Hs Hl) in Hin.
    unfold frames_of, trace_of in Hin. simpl in Hin.
    destruct Hin as [H|[]]. discriminate.
  - rewrite (explain_run self text w Hs Hl) in Hin.
    unfold frames_of, trace_of at 1 in Hin. cbn [snd yields] in Hin.
    rewrite yields_app, yields_relabel in Hin.
    apply in_app_or in Hin. destruct Hin as [Hin|Hin].
    + revert Hin.
      apply (loop_frames_no_error (claude_tools := map claude_tool tools)).
      apply (run_agent_loop_shape self (map claude_tool tools)
               (initial_run text w1)).
    + cbn [yields In] in Hin. destruct Hin as [H|[]].
      destruct (result_of _) as [e|u]; simpl in H; discriminate.
Qed.

(** X6: the frame that says the server is not initialized is the mark of
    a missing session and of nothing else: a request yields it exactly
    when the client has no session.  No failure of the listing, of the
    model or of a tool, and no event of the loop, gives that frame. *)
Theorem not_initialized_frame_iff_no_session {C : Collaborators}
  (self : MCPClient) (text : string) (w : World) :
  In (data (ErrorEvent "MCP server not initialized"))
    (frames_of (explain_research_term_streaming self text w))
  <-> session self = None.
Proof.
  split.
  - destruct (session self) as [sess|] eqn:Hs; [|reflexivity].
    intros Hin. exfalso. exact (session_frames self text w Hs Hin).
  - intros Hs. rewrite (explain_not_ready self text w Hs).
    left. reflexivity.
Qed.

(** A client without a session, and one with: the frame is there, and is
    not. *)
Lemma not_initialized_frame_iff_no_session_witness :
  let C := Scripted.collaborators Scripted.searching in
  In (data (ErrorEvent "MCP server not initialized"))
    (frames_of
       (@explain_research_term_streaming C (@init C) "transformer" (0, 0)))
  /\ ~ In (data (ErrorEvent "MCP server not initialized"))
       (frames_of
          (@explain_research_term_streaming C
             (Scripted.ready Scripted.searching) "transformer" (0, 0))).
Proof.
  cbv zeta. split.
  - apply (proj2 (@not_initialized_frame_iff_no_session
                    (Scripted.collaborators Scripted.searching) init
                    "transformer" (0, 0))).
    reflexivity.
  - intros H.
    apply (proj1 (@not_initialized_frame_iff_no_session
                    (Scripted.collaborators Scripted.searching)
                    (Scripted.ready Scripted.searching)
                    "transformer" (0, 0))) in H.
    discriminate.
Defined.

(** The loop and the request read nothing of the client but its
    session. *)
Lemma iteration_body_session {C : Collaborators} (self self' : MCPClient)
  (claude_tools : list ToolParam) (s : Run) :
  session self = session self' ->
  iteration_body self claude_tools s = iteration_body self' claude_tools s.
Proof.
  intros Heq.
  destruct (messages_create (messages s) claude_tools (world s))
    as [[e|response] w1] eqn:H.
  - rewrite !(iteration_body_model_failure _ _ _ H). reflexivity.
  - destruct (tool_uses_of response) as [|b rest] eqn:Htu.
    + rewrite !(iteration_body_break _ _ _ H Htu). reflexivity.
    + assert (Hn : tool_uses_of response <> []) by congruence.
      destruct (session self) as [sess|] eqn:Hs.
      * rewrite (iteration_body_tools self _ _ H Hn Hs).
        rewrite (iteration_body_tools self' _ _ H Hn (eq_sym Heq)).
        reflexivity.
      * rewrite (iteration_body_no_session self _ _ H Hn Hs).
        rewrite (iteration_body_no_session self' _ _ H Hn (eq_sym Heq)).
        reflexivity.
Qed.

Lemma for_iteration_session {C : Collaborators} (self self' : MCPClient)
  (claude_tools : list ToolParam) (range : list nat) :
  session self = session self' ->
  forall (it : option nat) (s : Run),
    for_iteration self claude_tools range it s
    = for_iteration self' claude_tools range it s.
Proof.
  intros Heq. induction range as [|i rest IH]; intros it s; [reflexivity|].
  rewrite !for_iteration_step, (iteration_body_session _ _ _ _ Heq).
  destruct (iteration_body self' claude_tools s) as [[[e|[|]] s1] t1];
    try reflexivity.
  rewrite IH. reflexivity.
Qed.

Lemma explain_session {C : Collaborators} (self self' : MCPClient)
  (text : string) (w : World) :
  session self = session self' ->
  explain_research_term_streaming self text w
  = explain_research_term_streaming self' text w.
Proof.
  intros Heq.
  assert (Hrun : forall (claude_tools : list ToolParam) (s : Run),
            _run_agent_loop self claude_tools s
            = _run_agent_loop self' claude_tools s).
  { intros claude_tools s. rewrite !run_agent_loop_unfold.
    rewrite (for_iteration_session _ _ _ _ Heq). reflexivity. }
  destruct (session self) as [sess|] eqn:Hs.
  - destruct (list_tools sess w) as [[e|tools] w1] eqn:Hl.
    + rewrite (explain_list_tools_failure self text w Hs Hl).
      rewrite (explain_list_tools_failure self' text w (eq_sym Heq) Hl).
      reflexivity.
    + rewrite (explain_run self text w Hs Hl).
      rewrite (explain_run self' text w (eq_sym Heq) Hl).
      rewrite Hrun. reflexivity.
  - rewrite (explain_not_ready self text w Hs).
    rewrite (explain_not_ready self' text w (eq_sym Heq)). reflexivity.
Qed.




(** X7: a stop that raises clears nothing.  When the background task ended
    with an exception of its own, [stop_mcp_server] raises it before it
    reaches the two assignments: the session and the readiness event stay
    as they were, and every later request behaves exactly as before the
    stop, so with a session it still passes the guard.  Stopping again
    raises the same exception again. *)
Theorem failed_stop_keeps_session {C : Collaborators} (settle : Outcome)
  (self self' : MCPClient) (e : Exception) :
  stop_mcp_server settle self = (inl e, self') ->
  session self' = session self
  /\ session_ready self' = session_ready self
  /\ server_task self' = Some (Done (Raised e))
  /\ (forall (text : string) (w : World),
         explain_research_term_streaming self' text w
         = explain_research_term_streaming self text w)
  /\ (forall settle2 : Outcome,
         stop_mcp_server settle2 self' = (inl e, self')).
Proof.
  unfold stop_mcp_server at 1. destruct (server_task self) as [t|] eqn:Ht.
  - destruct (await (cancel t) settle) as [| |e'] eqn:Ho; intros H;
      inversion H; subst. cbn [session session_ready server_task].
    split; [reflexivity|]. split; [reflexivity|]. split; [reflexivity|].
    split.
    + intros text w. apply explain_session. reflexivity.
    + intros settle2. reflexivity.
  - intros H. inversion H.
Qed.

(** The server died of a connection error while serving; the stop at
    shutdown raises it, and a request after that still runs the loop. *)
Lemma failed_stop_keeps_session_witness :
  let C := Scripted.collaborators Scripted.searching in
  let crashed : @MCPClient C :=
    @Build_MCPClient C (Some tt)
      (Some (Done (Raised (Scripted.ConnectionError "provider gone"))))
      (Some true) in
  stop_mcp_server Cancelled crashed
  = (inl (Scripted.ConnectionError "provider gone"), crashed)
  /\ session crashed = Some tt
  /\ @explain_research_term_streaming C crashed "transformer" (0, 0)
     = @explain_research_term_streaming C crashed "transformer" (0, 0).
Proof.
  cbv zeta. split; [reflexivity|]. split; [reflexivity|].
  exact (proj1 (proj2 (proj2 (proj2
    (@failed_stop_keeps_session
       (Scripted.collaborators Scripted.searching) Cancelled
       (@Build_MCPClient (Scripted.collaborators Scripted.searching)
          (Some tt)
          (Some (Done (Raised (Scripted.ConnectionError "provider gone"))))
          (Some true))
       _ (Scripted.ConnectionError "provider gone") eq_refl))))
    "transformer" (0, 0)).
Defined.

(** ** The lifespan *)

(** A start returns only when the background task has signalled. *)
Lemma start_returns {C : Collaborators} (server : Z -> ServerProgress)
  (self self1 : MCPClient) (u : unit) :
  start_mcp_server server self = (inr u, self1) ->
  exists s,
    server startup_timeout = Initialized s
    /\ session self1 = Some s
    /\ session_ready self1 = Some true
    /\ server_task self1 = Some (Pending false).
Proof.
  unfold start_mcp_server.
  destruct (server startup_timeout) as [|e|s|s e|s] eqn:Hp; simpl;
    intros H; inversion H; subst.
  exists s. repeat split.
Qed.

Lemma start_raises {C : Collaborators} (server : Z -> ServerProgress)
  (self self1 : MCPClient) (e : Exception) :
  start_mcp_server server self = (inl e, self1) ->
  e = RuntimeError "Failed to start MCP server"
  /\ forall s, server startup_timeout <> Initialized s.
Proof.
  unfold start_mcp_server.
  destruct (server startup_timeout) as [|e'|s|s e'|s] eqn:Hp; simpl;
    intros H; inversion H; subst; split; try reflexivity;
    intros s'; discriminate.
Qed.

(** X8: the application serves only behind a successful start.  Whatever
    is served inside [lifespan] is served with a client that has the
    session of an initialized server and the readiness event set, so a
    request served there first lists the tools and never yields the frame
    that says the server is not initialized; when the lifespan then ends
    without an exception the session is cleared.  When the start raises,
    nothing is served and the stop is never run: the client is left as
    the failed start left it. *)
Theorem lifespan_serves_behind_start {C : Collaborators}
  (server : Z -> ServerProgress) (settle : Outcome) (self : MCPClient) :
  (forall (A : Type) (serve : MCPClient -> A) r self' served,
      lifespan server settle serve self = (r, self', Some served) ->
      exists s started,
        server startup_timeout = Initialized s
        /\ start_mcp_server server self = (inr tt, started)
        /\ session started = Some s
        /\ session_ready started = Some true
        /\ served = serve started
        /\ stop_mcp_server settle started = (r, self')
        /\ (r = inr tt -> session self' = None))
  /\ (forall (A : Type) (serve : MCPClient -> A) r self',
         lifespan server settle serve self = (r, self', None) ->
         r = inl (RuntimeError "Failed to start MCP server")
         /\ (forall s, server startup_timeout <> Initialized s)
         /\ start_mcp_server server self = (r, self'))
  /\ (forall (text : string) (w : World) r self' served,
         lifespan server settle
           (fun client => explain_research_term_streaming client text w) self
         = (r, self', Some served) ->
         ~ In (data (ErrorEvent "MCP server not initialized"))
             (frames_of served)
         /\ exists t, trace_of served = ListToolsCall :: t).
Proof.
  assert (Hserved : forall (A : Type) (serve : MCPClient -> A) r self' served,
      lifespan server settle serve self = (r, self', Some served) ->
      exists s started,
        server startup_timeout = Initialized s
        /\ start_mcp_server server self = (inr tt, started)
        /\ session started = Some s
        /\ session_ready started = Some true
        /\ served = serve started
        /\ stop_mcp_server settle started = (r, self')
        /\ (r = inr tt -> session self' = None)).
  { intros A serve r self' served. unfold lifespan.
    destruct (start_mcp_server server self) as [[e|[]] self1] eqn:Hstart;
      [intros H; inversion H|].
    destruct (start_returns _ _ Hstart) as (s & Hp & Hs & Hr & _).
    destruct (stop_mcp_server settle self1) as [r2 self2] eqn:Hstop.
    intros H. inversion H; subst.
    exists s, self1. repeat split; try assumption.
    intros ->. apply (stop_completes _ _ Hstop). }
  split; [exact Hserved|]. split.
  - intros A serve r self'. unfold lifespan.
    destruct (start_mcp_server server self) as [[e|[]] self1] eqn:Hstart.
    + intros H. inversion H; subst.
      destruct (start_raises _ _ Hstart) as [-> Hn].
      repeat split. exact Hn.
    + destruct (stop_mcp_server settle self1) as [r2 self2].
      intros H. inversion H.
  - intros text w r self' served H.
    destruct (Hserved _ _ _ _ _ H) as (s & started & _ & _ & Hs & _ & -> & _).
    split.
    + exact (session_frames started text w Hs).
    + destruct (list_tools s w) as [[e|tools] w1] eqn:Hl.
      * rewrite (explain_list_tools_failure started text w Hs Hl).
        eexists. reflexivity.
      * rewrite (explain_run started text w Hs Hl).
        eexists. reflexivity.
Qed.

(** A server that initializes, one request served, a clean shutdown. *)
Lemma lifespan_serves_behind_start_witness :
  let C := Scripted.collaborators Scripted.searching in
  let server : Z -> @ServerProgress C := fun _ => @Initialized C tt in
  let started : @MCPClient C :=
    @Build_MCPClient C (Some tt) (Some (Pending false)) (Some true) in
  let stopped : @MCPClient C :=
    @Build_MCPClient C None (Some (Done Cancelled)) None in
  let served :=
    @explain_research_term_streaming C started "transformer" (0, 0) in
  @lifespan C _ server Cancelled
    (fun client => @explain_research_term_streaming C client
                     "transformer" (0, 0))
    init
  = (inr tt, stopped, Some served)
  /\ ~ In (data (ErrorEvent "MCP server not initialized")) (frames_of served)
  /\ exists t, trace_of served = ListToolsCall :: t.
Proof.
  cbv zeta. split; [reflexivity|].
  exact (proj2 (proj2
    (@lifespan_serves_behind_start
       (Scripted.collaborators Scripted.searching)
       (fun _ => @Initialized (Scripted.collaborators Scripted.searching) tt)
       Cancelled init))
    "transformer" (0, 0) (inr tt)
    (@Build_MCPClient (Scripted.collaborators Scripted.searching)
       None (Some (Done Cancelled)) None)
    _ eq_refl).
Defined.

(** * The tool server (backend/mcp_server.py) *)

(** ** Strings *)

Lemma string_app_assoc (a b c : string) :
  ((a ++ b) ++ c = a ++ (b ++ c))%string.
Proof. induction a as [|x a IH]; simpl; [reflexivity | now rewrite IH]. Qed.

Lemma string_app_nil_r (a : string) : (a ++ EmptyString)%string = a.
Proof. induction a as [|x a IH]; simpl; [reflexivity | now rewrite IH]. Qed.

Lemma len_app (a b : string) : len (a ++ b) = len a + len b.
Proof.
  induction a as [|x a IH]; simpl; [reflexivity|].
  destruct (continuation x); rewrite IH; reflexivity.
Qed.

Lemma string_app_empty (a b : string) :
  (a ++ b)%string = EmptyString -> a = EmptyString /\ b = EmptyString.
Proof. destruct a; simpl; [auto | discriminate]. Qed.

Lemma len_slice_to (s : string) :
  forall n : nat, n <= len s -> len (slice_to n s) = n.
Proof.
  induction s as [|c s IH]; intros n H; simpl in *.
  - lia.
  - destruct (continuation c) eqn:E; simpl.
    + rewrite E. apply IH. exact H.
    + destruct n as [|m]; [reflexivity|]. simpl. rewrite E.
      rewrite IH by lia. reflexivity.
Qed.

(** A slice is a whole number of code points: cutting it again, with
    more text after it, gives it back. *)
Lemma slice_to_slice_app (s t : string) :
  slice_to 0 t = EmptyString ->
  forall n : nat,
    n <= len s -> slice_to n (slice_to n s ++ t) = slice_to n s.
Proof.
  intros Ht. induction s as [|c s IH]; intros n H; simpl in *.
  - assert (n = 0) by lia. subst n. exact Ht.
  - destruct (continuation c) eqn:E; simpl.
    + rewrite E. rewrite IH by exact H. reflexivity.
    + destruct n as [|m]; [exact Ht|]. simpl. rewrite E.
      rewrite IH by lia. reflexivity.
Qed.

Lemma concat_not_empty (sep x : string) (l : list string) :
  x <> EmptyString -> String.concat sep (x :: l) <> EmptyString.
Proof.
  intros Hx H. destruct l as [|y l]; simpl in H; [auto|].
  apply string_app_empty in H. tauto.
Qed.

(** ** Queries *)

Import McpServer.

Lemma quoted_not_empty (field value : string) :
  quoted field value <> EmptyString.
Proof.
  unfold quoted. intros H.
  apply string_app_empty in H. destruct H as [_ H].
  discriminate H.
Qed.

Lemma cat_clause_not_empty (l : list string) : cat_clause l <> EmptyString.
Proof. unfold cat_clause. discriminate. Qed.

Lemma clauses_append_if (b : bool) (l : list string) (part : string) :
  clauses l -> part <> EmptyString -> clauses (append_if b l part).
Proof.
  intros Hl Hp. destruct b; simpl; [|exact Hl].
  apply Forall_app. split; [exact Hl | now constructor].
Qed.

Lemma search_papers_parts_clauses (a : Arguments) :
  clauses (search_papers_parts a).
Proof.
  unfold search_papers_parts.
  repeat apply clauses_append_if;
    auto using quoted_not_empty, cat_clause_not_empty.
  constructor.
Qed.

Lemma multiple_keywords_parts_clauses (a : Arguments) :
  clauses (multiple_keywords_parts a).
Proof.
  unfold multiple_keywords_parts.
  apply clauses_append_if; [|apply cat_clause_not_empty].
  apply Forall_forall. intros x Hx. apply in_map_iff in Hx.
  destruct Hx as [kw [<- _]]. apply quoted_not_empty.
Qed.

Lemma join_clauses_not_empty (sep : string) (l : list string) :
  clauses l -> l <> [] -> String.concat sep l <> EmptyString.
Proof.
  intros Hl Hn. destruct l as [|x l]; [congruence|].
  apply concat_not_empty. now inversion Hl.
Qed.

Lemma append_if_nil (b : bool) (l : list string) (part : string) :
  append_if b l part = [] <-> l = [] /\ b = false.
Proof.
  destruct b; simpl; split.
  - intros H. apply app_eq_nil in H. destruct H; discriminate.
  - intros [_ H]; discriminate.
  - auto.
  - tauto.
Qed.

Lemma search_papers_parts_nil (a : Arguments) :
  search_papers_parts a = [] <-> given a = false.
Proof.
  unfold search_papers_parts, given.
  rewrite !append_if_nil, !orb_false_iff. tauto.
Qed.

(** The query of [search_papers] is the conjunction of its clauses: the
    alternative [keyword or ''] is taken only when it is empty. *)
Lemma search_papers_query_join (a : Arguments) :
  search_papers_query a = String.concat " AND " (search_papers_parts a).
Proof.
  unfold search_papers_query.
  destruct (search_papers_parts a) as [|x l] eqn:E; [|reflexivity].
  apply search_papers_parts_nil in E. unfold given in E.
  rewrite !orb_false_iff in E. destruct E as [_ E]. now rewrite E.
Qed.

Lemma search_papers_query_empty (a : Arguments) :
  search_papers_query a = EmptyString <-> given a = false.
Proof.
  rewrite search_papers_query_join, <- search_papers_parts_nil. split.
  - intros H. destruct (search_papers_parts a) as [|x l] eqn:E; [reflexivity|].
    exfalso. revert H. apply join_clauses_not_empty; [|discriminate].
    rewrite <- E. apply search_papers_parts_clauses.
  - intros ->. reflexivity.
Qed.

Lemma multiple_keywords_query_not_empty (a : Arguments) :
  truthy_list (keywords a) = true ->
  multiple_keywords_query a <> EmptyString.
Proof.
  intros H. apply join_clauses_not_empty.
  - apply multiple_keywords_parts_clauses.
  - unfold multiple_keywords_parts. rewrite append_if_nil. intros [E _].
    destruct (keywords a) as [[|k l]|]; simpl in *; discriminate.
Qed.

(** ** Listings *)

Lemma add_paper_app (a b : string) (entry : nat * Paper) :
  add_paper (a ++ b) entry = (a ++ add_paper b entry)%string.
Proof.
  destruct entry as [i p]. unfold add_paper.
  destruct (Nat.ltb 3 (length (paper_authors p)));
    now rewrite !string_app_assoc.
Qed.

Lemma add_keywords_paper_app (a b : string) (entry : nat * Paper) :
  add_keywords_paper (a ++ b) entry
  = (a ++ add_keywords_paper b entry)%string.
Proof.
  destruct entry as [i p]. unfold add_keywords_paper.
  destruct (Nat.ltb 3 (length (paper_authors p)));
    now rewrite !string_app_assoc.
Qed.

(** A loop that only appends to its text gives the starting text followed
    by what each round adds. *)
Lemma fold_left_appending (A : Type) (add : string -> A -> string)
  (l : list A) (start : string) :
  (forall a b x, add (a ++ b)%string x = (a ++ add b x)%string) ->
  fold_left add l start
  = (start ++ concatenation (map (add EmptyString) l))%string.
Proof.
  intros Hadd. revert start.
  induction l as [|x l IH]; intros start; simpl.
  - now rewrite string_app_nil_r.
  - rewrite IH, <- string_app_assoc. f_equal.
    rewrite <- (string_app_nil_r start) at 1. apply Hadd.
Qed.

Lemma enumerate1_fst (papers : list Paper) :
  map fst (enumerate1 papers) = seq 1 (length papers).
Proof.
  unfold enumerate1. generalize 1.
  induction papers as [|p l IH]; intros n; simpl; [reflexivity|].
  now rewrite IH.
Qed.

Lemma enumerate1_snd (papers : list Paper) :
  map snd (enumerate1 papers) = papers.
Proof.
  unfold enumerate1. generalize 1.
  induction papers as [|p l IH]; intros n; simpl; [reflexivity|].
  now rewrite IH.
Qed.

Lemma search_papers_text_not_empty (query : string) (papers : list Paper) :
  query <> EmptyString -> search_papers_text query papers <> EmptyString.
Proof.
  intros Hq. unfold search_papers_text. destruct papers as [|p l].
  - discriminate.
  - rewrite (@fold_left_appending _ add_paper _ _ add_paper_app). discriminate.
Qed.

Lemma multiple_keywords_text_not_empty (kws : list string)
  (papers : list Paper) :
  multiple_keywords_text kws papers <> EmptyString.
Proof.
  unfold multiple_keywords_text. destruct papers as [|p l].
  - discriminate.
  - rewrite (@fold_left_appending _ add_keywords_paper _ _ add_keywords_paper_app). discriminate.
Qed.

(** ** The handler *)

Section Handler.

Variable results : string -> Z -> Exception + list Result.

Lemma search_papers_cases (a : Arguments) :
  (given a = false /\
   search_papers results a
   = (inr [TextContent "Error: At least one search parameter is required."],
      []))
  \/ (given a = true /\
      search_papers_query a <> EmptyString /\
      search_papers results a
      = (answer results
           (fun found =>
              search_papers_text (search_papers_query a)
                (map (paper_info true) found))
           (search_papers_query a) (max_results_of a),
         [(search_papers_query a, max_results_of a)])).
Proof.
  unfold search_papers, answer.
  destruct (String.eqb_spec (search_papers_query a) EmptyString) as [E|E].
  - left. split; [|reflexivity]. now apply search_papers_query_empty.
  - right. split; [|split; [exact E|]].
    + destruct (given a) eqn:G; [reflexivity|].
      now apply search_papers_query_empty in G.
    + now destruct (results _ _).
Qed.

Lemma multiple_keywords_cases (a : Arguments) :
  (truthy_list (keywords a) = false /\
   search_with_multiple_keywords results a
   = (inr [TextContent "Error: At least one keyword is required."], []))
  \/ (truthy_list (keywords a) = true /\
      multiple_keywords_query a <> EmptyString /\
      search_with_multiple_keywords results a
      = (answer results
           (fun found =>
              multiple_keywords_text (or_nil (keywords a))
                (map (paper_info false) found))
           (multiple_keywords_query a) (max_results_of a),
         [(multiple_keywords_query a, max_results_of a)])).
Proof.
  unfold search_with_multiple_keywords, answer.
  destruct (truthy_list (keywords a)) eqn:K; simpl.
  - right. split; [reflexivity|]. split.
    + now apply multiple_keywords_query_not_empty.
    + now destruct (results _ _).
  - left. split; reflexivity.
Qed.

Lemma call_tool_listed (tool_name : string) (a : Arguments) :
  In tool_name (map name list_tools) ->
  call_tool results tool_name a = search_papers results a
  \/ call_tool results tool_name a = search_with_multiple_keywords results a.
Proof.
  simpl. intros [<-|[<-|[]]]; [left | right]; reflexivity.
Qed.

Lemma call_tool_not_listed (tool_name : string) (a : Arguments) :
  ~ In tool_name (map name list_tools) ->
  call_tool results tool_name a
  = (inl (ValueError ("Unknown tool: " ++ tool_name)), []).
Proof.
  simpl. intros H. unfold call_tool.
  destruct (String.eqb_spec tool_name "search_papers") as [E|_];
    [exfalso; apply H; now left|].
  destruct (String.eqb_spec tool_name "search_with_multiple_keywords")
    as [E|_]; [exfalso; apply H; right; now left|].
  reflexivity.
Qed.

Lemma listed_dec (tool_name : string) :
  {In tool_name (map name list_tools)}
  + {~ In tool_name (map name list_tools)}.
Proof. apply in_dec, string_dec. Qed.

(** The ways a call ends: an unknown tool, a refused call, a search. *)
Lemma call_tool_cases (tool_name : string) (a : Arguments) :
  (~ In tool_name (map name list_tools) /\
   call_tool results tool_name a
   = (inl (ValueError ("Unknown tool: " ++ tool_name)), []))
  \/ (In tool_name (map name list_tools) /\
      exists text,
        text <> EmptyString /\
        call_tool results tool_name a = (inr [TextContent text], []))
  \/ (In tool_name (map name list_tools) /\
      exists text query,
        query <> EmptyString /\
        (forall found, text found <> EmptyString) /\
        call_tool results tool_name a
        = (answer results text query (max_results_of a),
           [(query, max_results_of a)])).
Proof.
  destruct (listed_dec tool_name) as [L|L].
  - right. destruct (call_tool_listed a L) as [-> | ->].
    + destruct (search_papers_cases a) as [[_ ->]|[_ [Q ->]]].
      * left. split; [exact L|]. eexists. split; [|reflexivity]. discriminate.
      * right. split; [exact L|]. do 2 eexists.
        split; [exact Q|]. split; [|reflexivity].
        intros found. now apply search_papers_text_not_empty.
    + destruct (multiple_keywords_cases a) as [[_ ->]|[_ [Q ->]]].
      * left. split; [exact L|]. eexists. split; [|reflexivity]. discriminate.
      * right. split; [exact L|]. do 2 eexists.
        split; [exact Q|]. split; [|reflexivity].
        intros found. apply multiple_keywords_text_not_empty.
  - left. split; [exact L|]. now apply call_tool_not_listed.
Qed.

End Handler.

(** X9: the tools [call_tool] handles are the tools [list_tools]
    advertises.  A call raises the 'Unknown tool' ValueError, without any
    search, exactly when the name is not that of a listed tool; whatever
    the arguments and the library, a listed tool never ends that way. *)
Theorem unknown_tool_iff_not_listed
  (results : string -> Z -> Exception + list Result)
  (tool_name : string) (arguments : Arguments) :
  call_tool results tool_name arguments
  = (inl (ValueError ("Unknown tool: " ++ tool_name)), [])
  <-> ~ In tool_name (map name list_tools).
Proof.
  split; [|apply call_tool_not_listed].
  intros H L.
  destruct (call_tool_listed results arguments L) as [E|E];
    rewrite E in H; clear E.
  - destruct (search_papers_cases results arguments)
      as [[_ E]|[_ [_ E]]]; rewrite E in H; discriminate H.
  - destruct (multiple_keywords_cases results arguments)
      as [[_ E]|[_ [_ E]]]; rewrite E in H; discriminate H.
Qed.

Lemma unknown_tool_iff_not_listed_witness :
  call_tool two_papers "search" no_arguments
  = (inl (ValueError "Unknown tool: search"), []).
Proof.
  apply (proj2 (unknown_tool_iff_not_listed two_papers "search"
                  no_arguments)).
  simpl. intros [H|[H|[]]]; discriminate H.
Defined.

(** X10: the shape of every answer of [call_tool].  A normal return is
    exactly one text part, never empty, so the text the client reads from
    it ([result_text_of]) is that text.  A call makes at most one search,
    never with an empty query, asking for [max_results] papers (10 when
    the key is absent).  A call raises only the 'Unknown tool' ValueError,
    without a search, or what its one search raised, unchanged. *)
Theorem call_tool_response
  (results : string -> Z -> Exception + list Result)
  (tool_name : string) (arguments : Arguments) :
  let called := call_tool results tool_name arguments in
  (forall content,
      fst called = inr content ->
      exists text,
        content = [TextContent text] /\ text <> EmptyString /\
        result_text_of content = text)
  /\ (forall e,
         fst called = inl e ->
         (e = ValueError ("Unknown tool: " ++ tool_name) /\
          ~ In tool_name (map name list_tools) /\ snd called = [])
         \/ (exists query,
                snd called = [(query, max_results_of arguments)] /\
                results query (max_results_of arguments) = inl e))
  /\ (snd called = []
      \/ exists query,
           query <> EmptyString /\
           snd called = [(query, max_results_of arguments)]).
Proof.
  intros called. subst called.
  destruct (call_tool_cases results tool_name arguments)
    as [[L E]|[[L [text [T E]]]|[L [text [query [Q [T E]]]]]]];
    rewrite E; cbn [fst snd]; clear E.
  - split; [discriminate|]. split; [|now left].
    intros e [= <-]. left. auto.
  - split; [|split; [discriminate | now left]].
    intros content [= <-]. exists text. auto.
  - unfold answer.
    destruct (results query (max_results_of arguments)) as [e0|found] eqn:R.
    + split; [discriminate|]. split; [|right; eauto].
      intros e [= <-]. right. eauto.
    + split; [|split; [discriminate | right; eauto]].
      intros content [= <-]. exists (text found). auto.
Qed.

Lemma call_tool_response_witness :
  exists text,
    fst (call_tool two_papers "search_papers" transformer_papers)
    = inr [TextContent text] /\
    text <> EmptyString /\
    result_text_of [TextContent text] = text.
Proof.
  destruct (proj1 (call_tool_response two_papers "search_papers"
                     transformer_papers) _ eq_refl)
    as [text [E [T R]]].
  exists text. rewrite <- E. auto.
Defined.

(** X11: [search_papers] needs one parameter to search on.  When none of
    title, author, abstract, categories and keyword holds a non-empty
    value the call returns the 'At least one search parameter is
    required' text and no search is made.  Otherwise exactly one search
    is made; its query is the clauses of the given parameters joined by
    AND and is not empty, so the alternative [keyword or ''] of the
    query never supplies it. *)
Theorem search_papers_requires_parameter
  (results : string -> Z -> Exception + list Result)
  (arguments : Arguments) :
  (given arguments = false ->
   call_tool results "search_papers" arguments
   = (inr [TextContent "Error: At least one search parameter is required."],
      []))
  /\ (given arguments = true ->
      search_papers_parts arguments <> [] /\
      String.concat " AND " (search_papers_parts arguments) <> EmptyString /\
      snd (call_tool results "search_papers" arguments)
      = [(String.concat " AND " (search_papers_parts arguments),
          max_results_of arguments)]).
Proof.
  change (call_tool results "search_papers" arguments)
    with (search_papers results arguments).
  destruct (search_papers_cases results arguments)
    as [[G E]|[G [Q E]]]; rewrite G, E; cbn [snd].
  - split; [reflexivity | discriminate].
  - split; [discriminate|]. intros _.
    rewrite <- search_papers_query_join. repeat split; try assumption.
    intros N. apply search_papers_parts_nil in N. congruence.
Qed.

Lemma search_papers_requires_parameter_witness :
  call_tool unreachable "search_papers" no_arguments
  = (inr [TextContent "Error: At least one search parameter is required."],
     [])
  /\ snd (call_tool unreachable "search_papers" transformer_papers)
     = [(String.concat " AND " (search_papers_parts transformer_papers),
         5%Z)].
Proof.
  split.
  - apply (proj1 (search_papers_requires_parameter unreachable
                    no_arguments)).
    reflexivity.
  - apply (proj2 (search_papers_requires_parameter unreachable
                    transformer_papers)).
    reflexivity.
Defined.

(** X12: with one non-empty keyword and no categories, the two tools make
    the same search: [search_with_multiple_keywords] on the list of that
    keyword and [search_papers] on that keyword alone both send the one
    clause all:"keyword" and ask for the same number of papers. *)
Theorem single_keyword_same_search
  (results : string -> Z -> Exception + list Result)
  (several one : Arguments) (kw : string) :
  kw <> EmptyString ->
  keywords several = Some [kw] ->
  truthy_list (categories several) = false ->
  keyword one = Some kw ->
  truthy (title one) = false ->
  truthy (author one) = false ->
  truthy (abstract_ one) = false ->
  truthy_list (categories one) = false ->
  max_results one = max_results several ->
  snd (call_tool results "search_with_multiple_keywords" several)
  = [(quoted "all" kw, max_results_of several)]
  /\ snd (call_tool results "search_papers" one)
     = snd (call_tool results "search_with_multiple_keywords" several).
Proof.
  intros Hkw Hks Hcs Hk Ht Ha Hb Hc Hm.
  assert (Q1 : multiple_keywords_query several = quoted "all" kw).
  { unfold multiple_keywords_query, multiple_keywords_parts.
    rewrite Hks, Hcs. reflexivity. }
  assert (Q2 : search_papers_query one = quoted "all" kw).
  { unfold search_papers_query, search_papers_parts.
    rewrite Ht, Ha, Hb, Hc, Hk.
    destruct kw; [congruence | reflexivity]. }
  assert (M : max_results_of one = max_results_of several).
  { unfold max_results_of. now rewrite Hm. }
  change (call_tool results "search_papers" one)
    with (search_papers results one).
  change (call_tool results "search_with_multiple_keywords" several)
    with (search_with_multiple_keywords results several).
  destruct (multiple_keywords_cases results several)
    as [[K _]|[_ [_ E1]]]; [rewrite Hks in K; discriminate K|].
  destruct (search_papers_cases results one) as [[G _]|[_ [_ E2]]].
  { unfold given in G. rewrite Hk in G. destruct kw; [congruence|].
    rewrite !orb_false_iff in G. destruct G as [_ G]. discriminate G. }
  rewrite E1, E2. cbn [snd]. now rewrite Q1, Q2, M.
Qed.

Lemma single_keyword_same_search_witness :
  snd (call_tool two_papers "search_with_multiple_keywords" one_keyword)
  = [(quoted "all" "attention", 10%Z)]
  /\ snd (call_tool two_papers "search_papers" one_keyword)
     = snd (call_tool two_papers "search_with_multiple_keywords"
              one_keyword).
Proof.
  apply (@single_keyword_same_search two_papers one_keyword one_keyword
           "attention");
    first [reflexivity | discriminate].
Defined.

(** X13: the summary shown for a paper, lengths and slices counted in
    characters (code points) as Python counts them, not in bytes.  A
    summary of at most 300 characters is shown as it is; a longer one is
    cut to its first 300 characters followed by three dots, so the text
    shown has at most 303 characters, agrees with the original on the
    first 300 and is at most two characters longer than the original (a
    summary of 301 or 302 characters is shown longer than it was). *)
Theorem summary_bounded (with_primary : bool) (result : Result) :
  let original := r_summary result in
  let shown := paper_summary (paper_info with_primary result) in
  len shown <= 303
  /\ len shown <= len original + 2
  /\ slice_to 300 shown = slice_to 300 original
  /\ (len original <= 300 -> shown = original)
  /\ (300 < len original ->
      shown = (slice_to 300 original ++ "...")%string /\
      len shown = 303).
Proof.
  intros original shown. subst shown. cbn [paper_info paper_summary].
  fold original. unfold summary_of.
  destruct (Nat.ltb_spec 300 (len original)) as [L|L].
  - assert (E : len (slice_to 300 original ++ "...") = 303).
    { rewrite len_app, len_slice_to by lia. reflexivity. }
    rewrite E. repeat split; try lia.
    apply slice_to_slice_app; [reflexivity | lia].
  - repeat split; try lia.
Qed.

(** An abstract of 299 characters in 301 bytes is shown as it is; one of
    310 characters is cut. *)
Lemma summary_bounded_witness :
  len accented_abstract = 299
  /\ String.length accented_abstract = 301
  /\ paper_summary (paper_info true (paper 1 [] accented_abstract))
     = accented_abstract
  /\ len long_abstract = 310
  /\ len (paper_summary (paper_info true (paper 1 [] long_abstract))) = 303.
Proof.
  split; [reflexivity|]. split; [reflexivity|]. split; [|split].
  - apply (summary_bounded true (paper 1 [] accented_abstract)).
    apply Nat.leb_le. reflexivity.
  - reflexivity.
  - apply (summary_bounded true (paper 1 [] long_abstract)).
    apply Nat.ltb_lt. reflexivity.
Defined.

(** X14: the listing of a search that found papers.  The text is the
    header, which gives the number of results the search returned,
    followed by one entry per result, in the order of the results and
    numbered from 1: what the loop adds for a paper does not depend on
    the text built so far.  This holds for both tools, each with its own
    header and entry. *)
Theorem listing_numbered_entries
  (results : string -> Z -> Exception + list Result)
  (arguments : Arguments) (found : list Result) :
  found <> [] ->
  (given arguments = true ->
   results (search_papers_query arguments) (max_results_of arguments)
   = inr found ->
   fst (call_tool results "search_papers" arguments)
   = inr [TextContent
            ("Found " ++ decimal (length found) ++ " papers:" ++ nl ++ nl
             ++ concatenation
                  (map (add_paper EmptyString)
                     (combine (seq 1 (length found))
                        (map (paper_info true) found))))%string])
  /\ (truthy_list (keywords arguments) = true ->
      results (multiple_keywords_query arguments)
        (max_results_of arguments)
      = inr found ->
      fst (call_tool results "search_with_multiple_keywords" arguments)
      = inr [TextContent
               ("Found " ++ decimal (length found)
                ++ " papers containing all keywords ("
                ++ String.concat ", " (or_nil (keywords arguments))
                ++ "):" ++ nl ++ nl
                ++ concatenation
                     (map (add_keywords_paper EmptyString)
                        (combine (seq 1 (length found))
                           (map (paper_info false) found))))%string]).
Proof.
  intros Hf. split.
  - intros G R.
    change (call_tool results "search_papers" arguments)
      with (search_papers results arguments).
    destruct (search_papers_cases results arguments)
      as [[G' _]|[_ [_ E]]]; [congruence|].
    rewrite E. cbn [fst]. unfold answer. rewrite R.
    unfold search_papers_text, enumerate1.
    destruct found as [|r l]; [congruence|].
    cbn [map]. rewrite (@fold_left_appending _ add_paper _ _ add_paper_app).
    cbn [length map]. rewrite !length_map, !string_app_assoc. reflexivity.
  - intros K R.
    change (call_tool results "search_with_multiple_keywords" arguments)
      with (search_with_multiple_keywords results arguments).
    destruct (multiple_keywords_cases results arguments)
      as [[K' _]|[_ [_ E]]]; [congruence|].
    rewrite E. cbn [fst]. unfold answer. rewrite R.
    unfold multiple_keywords_text, enumerate1.
    destruct found as [|r l]; [congruence|].
    cbn [map].
    rewrite (@fold_left_appending _ add_keywords_paper _ _
               add_keywords_paper_app).
    cbn [length map]. rewrite !length_map, !string_app_assoc. reflexivity.
Qed.

Lemma listing_numbered_entries_witness :
  exists found,
    two_papers (search_papers_query transformer_papers) 5%Z = inr found /\
    fst (call_tool two_papers "search_papers" transformer_papers)
    = inr [TextContent
             ("Found " ++ decimal (length found) ++ " papers:" ++ nl ++ nl
              ++ concatenation
                   (map (add_paper EmptyString)
                      (combine (seq 1 (length found))
                         (map (paper_info true) found))))%string].
Proof.
  eexists. split; [reflexivity|].
  apply (fun H => proj1 (@listing_numbered_entries two_papers
                           transformer_papers _ H)).
  - discriminate.
  - reflexivity.
  - reflexivity.
Defined.

(** * The endpoints *)

(** X15: the API key is checked on every request, and it is the only
    thing that makes the endpoint answer with an HTTP error.  The health
    endpoint reports [anthropic_configured] false exactly when a request
    is refused with status 500, a key set to the empty string counting as
    no key; with a key the request is answered by the event stream of
    [explain_research_term_streaming] for the term, also when the client
    has no session: that is then told in the stream, by its one error
    frame, no collaborator being called. *)
Theorem api_key_checked_per_request {C : Collaborators}
  (getenv : string -> option string) (mcp_client : MCPClient)
  (text : string) :
  let configured := anthropic_configured (root getenv) in
  let response := fst (explain_research_term getenv mcp_client text) in
  (configured = false <->
   response
   = inl {| status_code := 500;
            detail := "Anthropic API key is not configured." |})
  /\ (configured = true <->
      exists r,
        response = inr r /\
        body r = explain_research_term_streaming mcp_client text /\
        media_type r = "text/event-stream")
  /\ (forall r,
         response = inr r ->
         session mcp_client = None ->
         forall w,
           body r w
           = (inr tt, w,
              [Yield (data (ErrorEvent "MCP server not initialized"))])).
Proof.
  intros configured response. subst configured response.
  unfold explain_research_term, root. cbn [anthropic_configured].
  destruct (truthy (getenv "ANTHROPIC_API_KEY")); cbn [negb fst].
  - split; [split; discriminate|]. split.
    + split; [|reflexivity]. intros _. eexists. repeat split.
    + intros r [= <-] Hs w. cbn [body].
      apply (explain_not_ready mcp_client text w Hs).
  - split; [split; reflexivity|]. split.
    + split; [discriminate|]. intros [r [H _]]. discriminate H.
    + intros r H. discriminate H.
Qed.

Lemma api_key_checked_per_request_witness :
  let C := Scripted.collaborators Scripted.answering in
  fst (@explain_research_term C (fun _ => Some EmptyString) (@init C)
         "transformer")
  = inl {| status_code := 500;
           detail := "Anthropic API key is not configured." |}.
Proof.
  intros C.
  apply (proj1 (proj1 (@api_key_checked_per_request C
                         (fun _ => Some EmptyString) (@init C)
                         "transformer"))).
  reflexivity.
Defined.

(** * The video converter (assets/main.py) *)

Import Converter.

Lemma path_eqb_refl (p : Path) : path_eqb p p = true.
Proof. unfold path_eqb. now destruct (list_eq_dec string_dec p p). Qed.

Lemma clean_up_gone (p : Path) (files : Files) :
  exists_ p (clean_up p files) = false.
Proof.
  unfold clean_up. destruct (exists_ p files) eqn:E; [|exact E].
  unfold exists_, unlinked. now rewrite path_eqb_refl.
Qed.

Lemma stat_exists (p : Path) (files : Files) (size : Z) :
  stat p files = inr size -> exists_ p files = true.
Proof.
  unfold stat, exists_. now destruct (files p).
Qed.

Lemma stat_not_called_process_error (p : Path) (files : Files)
  (e : Exception) :
  stat p files = inl e -> is_a e ["CalledProcessError"] = false.
Proof.
  unfold stat. destruct (files p); [discriminate|].
  intros [= <-]. reflexivity.
Qed.

Lemma parent_join (p : Path) (file : string) : parent (join p file) = p.
Proof. apply removelast_last. Qed.

Lemma made_even (h : Z) :
  Z.even (if Z.eqb (h mod 2) 1 then (h + 1)%Z else h) = true.
Proof.
  destruct (Z.eqb_spec (h mod 2) 1) as [E|E].
  - rewrite Z.even_add. rewrite Zeven_mod, E. reflexivity.
  - rewrite Zeven_mod. apply Z.eqb_eq.
    pose proof (Z.mod_pos_bound h 2). lia.
Qed.

Lemma target_resolution_cases (scaled_height : Z -> Z -> Z -> Exception + Z)
  (info : option (Z * Z)) (target_width : Z) :
  ((forall other,
       target_resolution scaled_height info other = inr (800%Z, 600%Z)))
  \/ exists orig_width orig_height,
       info = Some (orig_width, orig_height) /\
       orig_width <> 0%Z /\ orig_height <> 0%Z /\
       target_resolution scaled_height info target_width
       = match scaled_height target_width orig_width orig_height with
         | inl e => inl e
         | inr scaled =>
             inr (target_width,
                  if Z.eqb (scaled mod 2) 1 then (scaled + 1)%Z else scaled)
         end.
Proof.
  destruct info as [[w h]|]; [|now left]. unfold target_resolution.
  destruct (Z.eqb_spec w 0) as [E|E]; [now left|].
  destruct (Z.eqb_spec h 0) as [F|F]; [now left|].
  right. exists w, h. cbn [negb andb].
  repeat split; assumption.
Qed.

Lemma target_resolution_ok (scaled_height : Z -> Z -> Z -> Exception + Z)
  (info : option (Z * Z)) (target_width w h : Z) :
  target_resolution scaled_height info target_width = inr (w, h) ->
  Z.even h = true /\ (w = target_width \/ w = 800%Z).
Proof.
  destruct (target_resolution_cases scaled_height info target_width)
    as [E | [ow [oh [_ [_ [_ E]]]]]]; rewrite E.
  - intros [= <- <-]. split; [reflexivity | now right].
  - destruct (scaled_height target_width ow oh) as [e|s]; [discriminate|].
    intros [= <- <-]. split; [apply made_even | now left].
Qed.

(** X16: the height of the GIF is even, whatever the probe reports and
    whatever integer the float computation gives, a negative one
    included.  With a resolution whose width and height are not zero the
    width is the one asked for and the height is the scaled height, or
    one more when that is odd; without one (no resolution, or a zero in
    it) the resolution is 800x600 and the width asked for is not used. *)
Theorem target_height_is_even
  (scaled_height : Z -> Z -> Z -> Exception + Z)
  (info : option (Z * Z)) (target_width : Z) (resolution : Z * Z) :
  target_resolution scaled_height info target_width = inr resolution ->
  Z.even (snd resolution) = true
  /\ ((resolution = (800%Z, 600%Z) /\
       forall other,
         target_resolution scaled_height info other = inr resolution)
      \/ exists orig_width orig_height scaled,
           info = Some (orig_width, orig_height) /\
           orig_width <> 0%Z /\ orig_height <> 0%Z /\
           scaled_height target_width orig_width orig_height = inr scaled /\
           fst resolution = target_width /\
           (0 <= snd resolution - scaled <= 1)%Z).
Proof.
  intros H. split.
  { destruct resolution as [w h].
    apply (target_resolution_ok scaled_height info target_width H). }
  destruct (target_resolution_cases scaled_height info target_width)
    as [E | [ow [oh [I [Hw [Hh E]]]]]].
  - left. rewrite E in H. injection H as <-. split; [reflexivity | exact E].
  - right. rewrite E in H.
    destruct (scaled_height target_width ow oh) as [e|s] eqn:Sc;
      [discriminate|].
    injection H as <-. exists ow, oh, s. cbn [fst snd].
    repeat split; try assumption;
      destruct (Z.eqb (s mod 2) 1); lia.
Qed.

Lemma target_height_is_even_witness :
  target_resolution exact_height (Some (1920, 1079)%Z) 800 = inr (800, 450)%Z
  /\ Z.even 450 = true.
Proof.
  split; [reflexivity|].
  apply (@target_height_is_even exact_height (Some (1920, 1079)%Z) 800
           (800, 450)%Z).
  reflexivity.
Defined.

Section Conversion.

Variable float : Type.
Variable two : float.
Variable is_zero : float -> bool.
Variable run : Command float -> Files -> (Exception + string) * Files.
Variable parse_duration : string -> option float.
Variable parse_resolution : string -> option (Z * Z).
Variable scaled_height : Z -> Z -> Z -> Exception + Z.

Lemma get_video_info_ran (input_file : Path) (files : Files) :
  snd (get_video_info run parse_resolution input_file files)
  = [FfprobeResolution float input_file].
Proof.
  unfold get_video_info, subprocess_run.
  destruct (run _ files) as [[e|out] files1]; [|reflexivity].
  now destruct (is_a e _).
Qed.

Lemma get_video_duration_ran (input_file : Path) (files : Files) :
  snd (get_video_duration run parse_duration input_file files)
  = [FfprobeDuration float input_file].
Proof.
  unfold get_video_duration, subprocess_run.
  destruct (run _ files) as [[e|out] files1]; [|reflexivity].
  now destruct (is_a e _).
Qed.

Lemma check_ffmpeg_ran (files : Files) :
  snd (check_ffmpeg run files) = [FfmpegVersion float].
Proof.
  unfold check_ffmpeg, subprocess_run.
  destruct (run _ files) as [[e|out] files1]; [|reflexivity].
  now destruct (is_a e _).
Qed.

Lemma check_ffmpeg_false (files : Files) (e : Exception) :
  fst (run (FfmpegVersion float) files) = inl e ->
  is_a e ["CalledProcessError"; "FileNotFoundError"] = true ->
  fst (fst (check_ffmpeg run files)) = inr false.
Proof.
  intros He Ha. unfold check_ffmpeg, subprocess_run.
  destruct (run (FfmpegVersion float) files) as [r files1].
  cbn [fst] in He. subst r. now rewrite Ha.
Qed.

(** The ways a conversion ends, with the commands it ran. *)
Lemma convert_cases (input_file output_file : Path) (speed_factor : float)
  (target_width fps : Z) (files : Files) :
  let called :=
    convert_video_to_gif is_zero run parse_resolution scaled_height
      input_file output_file speed_factor target_width fps files in
  let result := fst (fst called) in
  let after := snd (fst called) in
  let ran := snd called in
  let palette_file := join (parent output_file) "palette.png" in
  exists w h,
    Z.even h = true /\
    (w = target_width \/ w = 800%Z) /\
    ((exists e, result = inl e /\
                exists n, 1 <= n <= 3 /\
                  ran = firstn n (conversion input_file output_file
                                    speed_factor fps w h))
     \/ (result = inr false /\
         is_zero speed_factor = false /\
         exists_ palette_file after = false /\
         exists n, 2 <= n <= 3 /\
           ran = firstn n (conversion input_file output_file
                             speed_factor fps w h))
     \/ (result = inr true /\
         is_zero speed_factor = false /\
         exists_ palette_file after = false /\
         exists_ input_file after = true /\
         exists_ output_file after = true /\
         ran = conversion input_file output_file speed_factor fps w h)).
Proof.
  intros called result after ran palette_file.
  subst called result after ran. unfold convert_video_to_gif.
  pose proof (get_video_info_ran input_file files) as Hran.
  destruct (get_video_info run parse_resolution input_file files)
    as [[[e|info] files1] ran1]; cbn [snd] in Hran; subst ran1.
  { exists 800%Z, 0%Z. split; [reflexivity|]. split; [now right|].
    left. exists e. split; [reflexivity|].
    exists 1. split; [lia | reflexivity]. }
  destruct (target_resolution scaled_height info target_width)
    as [e|[w h]] eqn:Res.
  { exists 800%Z, 0%Z. split; [reflexivity|]. split; [now right|].
    left. exists e. split; [reflexivity|].
    exists 1. split; [lia | reflexivity]. }
  destruct (target_resolution_ok scaled_height info target_width Res)
    as [Even Width].
  exists w, h. split; [exact Even|]. split; [exact Width|].
  fold palette_file.
  destruct (is_zero speed_factor) eqn:Zero.
  { left. eexists. split; [reflexivity|].
    exists 1. split; [lia | reflexivity]. }
  unfold subprocess_run.
  destruct (run (FfmpegPalette _ _ _ _ _ _) files1) as [[e|out2] files2].
  { cbn [fst snd app]. destruct (is_a e _).
    - right. left. cbn [fst snd]. repeat split.
      + apply clean_up_gone.
      + exists 2. split; [lia | reflexivity].
    - left. exists e. split; [reflexivity|].
      exists 2. split; [lia | reflexivity]. }
  destruct (run (FfmpegGif _ _ _ _ _ _ _) files2) as [[e|out3] files3].
  { cbn [fst snd app]. destruct (is_a e _).
    - right. left. cbn [fst snd]. repeat split.
      + apply clean_up_gone.
      + exists 3. split; [lia | reflexivity].
    - left. exists e. split; [reflexivity|].
      exists 3. split; [lia | reflexivity]. }
  cbn [app].
  destruct (stat input_file (clean_up palette_file files3))
    as [e|size1] eqn:S1.
  { rewrite (stat_not_called_process_error _ _ S1).
    left. exists e. split; [reflexivity|].
    exists 3. split; [lia | reflexivity]. }
  destruct (stat output_file (clean_up palette_file files3))
    as [e|size2] eqn:S2.
  { rewrite (stat_not_called_process_error _ _ S2).
    left. exists e. split; [reflexivity|].
    exists 3. split; [lia | reflexivity]. }
  right. right. cbn [fst snd].
  split; [reflexivity|]. split; [reflexivity|].
  split; [apply clean_up_gone|].
  split; [exact (stat_exists _ _ S1)|].
  split; [exact (stat_exists _ _ S2) | reflexivity].
Qed.


(** X18: how the script ends.  Without [results.mp4] it exits with
    status 1 before running anything and leaves the files alone; it never
    exits with another status; when [ffmpeg -version] fails or cannot be
    run it exits with status 1 after that one command.  When [main]
    returns, [results.gif] exists, [palette.png] does not, and the
    commands run were the version check, the duration probe and the three
    commands of the conversion, the GIF being 800 wide with an even
    height. *)
Theorem main_exit_status (current_dir : Path) (files : Files) :
  let input_file := join current_dir "results.mp4" in
  let output_file := join current_dir "results.gif" in
  let palette_file := join current_dir "palette.png" in
  let ended :=
    main two is_zero run parse_duration parse_resolution scaled_height
      current_dir files in
  let after := snd (fst ended) in
  (exists_ input_file files = false -> ended = (Exited 1, files, []))
  /\ (forall code, fst (fst ended) = Exited code -> code = 1%Z)
  /\ (forall e,
         fst (run (FfmpegVersion float) files) = inl e ->
         is_a e ["CalledProcessError"; "FileNotFoundError"] = true ->
         exists_ input_file files = true ->
         fst (fst ended) = Exited 1 /\ snd ended = [FfmpegVersion float])
  /\ (fst (fst ended) = Returned ->
      exists_ output_file after = true /\
      exists_ palette_file after = false /\
      exists h,
        Z.even h = true /\
        snd ended
        = [FfmpegVersion float; FfprobeDuration float input_file]
          ++ conversion input_file output_file two 15 800 h).
Proof.
  intros input_file output_file palette_file ended after.
  subst ended after. unfold main.
  fold input_file. fold output_file.
  destruct (exists_ input_file files) eqn:In; cbn [negb].
  2:{ split; [reflexivity|]. split; [intros c [= <-]; reflexivity|].
      split; [discriminate | discriminate]. }
  split; [discriminate|].
  pose proof (check_ffmpeg_ran files) as Ran1.
  pose proof (check_ffmpeg_false files) as Check.
  destruct (check_ffmpeg run files) as [[[e1|[|]] files1] ran1];
    cbn [fst snd] in Ran1, Check; subst ran1.
  { split; [discriminate|]. split; [|discriminate].
    intros e He Ha _. specialize (Check e He Ha). discriminate Check. }
  2:{ split; [intros c [= <-]; reflexivity|]. split; [|discriminate].
      intros e _ _ _. split; reflexivity. }
  pose proof (get_video_duration_ran input_file files1) as Ran2.
  destruct (get_video_duration run parse_duration input_file files1)
    as [[[e2|duration] files2] ran2]; cbn [snd] in Ran2; subst ran2.
  { split; [discriminate|]. split; [|discriminate].
    intros e He Ha _. specialize (Check e He Ha). discriminate Check. }
  destruct (convert_cases input_file output_file two 800 15 files2)
    as [w [h [Even [Width Cases]]]].
  assert (W : w = 800%Z) by (destruct Width; assumption). subst w.
  assert (PJ : join (parent output_file) "palette.png" = palette_file).
  { unfold output_file, palette_file. now rewrite parent_join. }
  cbv zeta in Cases. rewrite PJ in Cases. clear PJ.
  destruct (convert_video_to_gif is_zero run parse_resolution scaled_height
              input_file output_file two 800 15 files2)
    as [[[e3|[|]] files3] ran3]; cbn [fst snd] in Cases |- *.
  - split; [discriminate|]. split; [|discriminate].
    intros e He Ha _. specialize (Check e He Ha). discriminate Check.
  - split; [discriminate|]. split.
    { intros e He Ha _. specialize (Check e He Ha). discriminate Check. }
    intros _.
    destruct Cases as [[e [R _]]|[[R _]|[_ [_ [P [_ [O Ran]]]]]]];
      try discriminate R.
    split; [exact O|]. split; [exact P|].
    exists h. split; [exact Even|]. now rewrite Ran.
  - split; [intros c [= <-]; reflexivity|]. split; [|discriminate].
    intros e He Ha _. specialize (Check e He Ha). discriminate Check.
Qed.

End Conversion.


Lemma main_exit_status_witness :
  let ended :=
    main 2 no_speed working seconds full_hd exact_height work recorded in
  fst (fst ended) = Returned
  /\ exists_ (join work "results.gif") (snd (fst ended)) = true.
Proof.
  intros ended. split; [reflexivity|].
  apply (proj2 (proj2 (proj2 (main_exit_status 2 no_speed working seconds
                                full_hd exact_height work recorded)))).
  reflexivity.
Defined.
